(** * Authentication and request-integrity pipeline of the Express boilerplate

    A shallow embedding of the token service ([utils/jwt.ts]), the
    authentication middleware ([middleware/auth.ts]), the validation gate
    ([validation/middleware.ts], [validation/schemas.ts]), the error taxonomy
    ([errors/AppError.ts], [errors/errorHandler.ts]), [UserService.verifyPassword]
    and the login route, followed by the properties proved about them.

    Conventions.
    - A thrown exception is the left injection of a sum, a returned value the
      right one.
    - [Date.now()] is an explicit argument [clock] (milliseconds since the
      epoch); an ISO timestamp is represented by the millisecond value it
      renders.
    - JavaScript numbers are exact integers or [NaN]; the rounding of
      integers beyond 2^53 is not modelled.
    - An object is the finite map of its own properties; a property read
      falls back to the members inherited from [Object.prototype].
    - Logging ([console.error], the logger, metrics counters) is left out,
      except for the severity the global handler chooses. *)

From Stdlib Require Import ZArith String Ascii Lia.
From stdpp Require Import base strings gmap list pretty.

Open Scope string_scope.
Open Scope list_scope.
Open Scope Z_scope.

(* ===================================================================== *)
(** * JavaScript values, exceptions and string primitives                 *)
(* ===================================================================== *)

Module Js.

(** An [Error] object as far as the code inspects it: [name] and [message]. *)
Record Error := mkError { name : string; message : string }.

(** [new Error(msg)] *)
Definition newError (msg : string) : Error := mkError "Error" msg.

(** [s] between double quotes, for messages that quote a name. *)
Definition quoted (s : string) : string :=
  String (ascii_of_N 34) (s +:+ String (ascii_of_N 34) EmptyString).

(** A computation that either throws or returns. *)
Definition result (A : Type) : Type := Error + A.

Definition throw {A} (e : Error) : result A := inl e.
Definition ret {A} (a : A) : result A := inr a.

Definition bind {A B} (m : result A) (k : A -> result B) : result B :=
  match m with
  | inl e => inl e
  | inr a => k a
  end.

(** [try { m } catch (error) { h error }] *)
Definition try_catch {A} (m : result A) (h : Error -> result A) : result A :=
  match m with
  | inl e => h e
  | inr a => inr a
  end.

(** A JavaScript number as produced by [parseInt]. *)
Inductive Number :=
| NaN
| Int (z : Z).

(** Values that reach the code through a parsed JSON body or a parsed
    query string.  [VObject] stands for any array, object or function
    reference: it is truthy and never [===] to a string. *)
Inductive Value :=
| VUndefined
| VNull
| VBool (b : bool)
| VNumber (n : Number)
| VString (s : string)
| VObject (typeName : string).

(** Truthiness of a string: only the empty string is falsy. *)
Definition truthyString (s : string) : bool :=
  match s with
  | EmptyString => false
  | String _ _ => true
  end.

Definition truthy (v : Value) : bool :=
  match v with
  | VUndefined | VNull => false
  | VBool b => b
  | VNumber NaN => false
  | VNumber (Int z) => negb (z =? 0)
  | VString s => truthyString s
  | VObject _ => true
  end.

(** [a || b] *)
Definition or (a b : Value) : Value := if truthy a then a else b.

(** [s !== v] for a string [s] *)
Definition stringStrictNe (s : string) (v : Value) : bool :=
  match v with
  | VString s' => negb (String.eqb s s')
  | _ => true
  end.

(** [s.split(sep)] for a one-character separator. *)
Fixpoint split (sep : ascii) (s : string) : list string :=
  match s with
  | EmptyString => [EmptyString]
  | String c rest =>
      if Ascii.eqb c sep then EmptyString :: split sep rest
      else match split sep rest with
           | [] => [String c EmptyString]
           | w :: ws => String c w :: ws
           end
  end.

(** [parts.join(sep)] for a one-character separator. *)
Fixpoint join (sep : ascii) (parts : list string) : string :=
  match parts with
  | [] => EmptyString
  | [p] => p
  | p :: ps => p +:+ String sep (join sep ps)
  end.

(** [s] does not contain the character [c]. *)
Fixpoint free_of (c : ascii) (s : string) : Prop :=
  match s with
  | EmptyString => True
  | String a rest => a <> c /\ free_of c rest
  end.

(** [n > k] and [n <= k]: every comparison with [NaN] is false. *)
Definition gt (n : Number) (k : Z) : bool :=
  match n with NaN => false | Int z => k <? z end.
Definition le (n : Number) (k : Z) : bool :=
  match n with NaN => false | Int z => z <=? k end.

Definition digitValue (c : ascii) : option Z :=
  let n := Z.of_N (N_of_ascii c) in
  if (48 <=? n) && (n <=? 57) then Some (n - 48) else None.

(** The ASCII part of ECMAScript's [StrWhiteSpaceChar]. *)
Definition isWhiteSpace (c : ascii) : bool :=
  let n := Z.of_N (N_of_ascii c) in
  ((9 <=? n) && (n <=? 13)) || (n =? 32).

Fixpoint skipWhiteSpace (s : string) : string :=
  match s with
  | String c rest => if isWhiteSpace c then skipWhiteSpace rest else s
  | EmptyString => s
  end.

(** The longest prefix of decimal digits, accumulated left to right;
    [None] when [s] starts with no digit. *)
Fixpoint digits (acc : option Z) (s : string) : option Z :=
  match s with
  | String c rest =>
      match digitValue c with
      | Some d => digits (Some (10 * default 0 acc + d)) rest
      | None => acc
      end
  | EmptyString => acc
  end.

(** [parseInt(s, 10)] *)
Definition parseInt (s : string) : Number :=
  let s := skipWhiteSpace s in
  let '(sign, s) :=
    match s with
    | String "-" rest => (-1, rest)
    | String "+" rest => (1, rest)
    | _ => (1, s)
    end in
  match digits None s with
  | Some n => Int (sign * n)
  | None => NaN
  end.

(** Names every ordinary object inherits from [Object.prototype]: reading
    one of them from an object that has no own property of that name
    yields a function or object, not [undefined]. *)
Definition objectPrototypeNames : list string :=
  [ "constructor"; "__proto__"; "hasOwnProperty"; "isPrototypeOf";
    "propertyIsEnumerable"; "toLocaleString"; "toString"; "valueOf";
    "__defineGetter__"; "__defineSetter__"; "__lookupGetter__";
    "__lookupSetter__" ].

Definition inherited (k : string) : bool :=
  bool_decide (k ∈ objectPrototypeNames).

(** [o[k]] on an ordinary object whose own properties are [o]. *)
Definition get (o : gmap string Value) (k : string) : Value :=
  match o !! k with
  | Some v => v
  | None => if inherited k then VObject "function" else VUndefined
  end.

(** [k in o] on an ordinary object whose own properties are [o]. *)
Definition has (o : gmap string Value) (k : string) : bool :=
  bool_decide (is_Some (o !! k)) || inherited k.

End Js.

Notation "'let!' x ':=' m 'in' k" := (Js.bind m (fun x => k))
  (at level 10, x name, m at level 100, k at level 200).

(* ===================================================================== *)
(** * Data model: [utils/jwt.ts], [models/User.ts], [config/config.ts]     *)
(* ===================================================================== *)

(** [interface JWTPayload]: the decoded payload object.  The interface
    declares [userId], [email], [iat?] and [exp?]; at run time the object
    also carries the registered claims the library wrote or read. *)
Module JWTPayload.
Record t := mk {
  userId : string;
  email : string;
  iat : option Z;
  exp : option Z;
  nbf : option Z;
  aud : option string;
  iss : option string
}.
End JWTPayload.

(** [interface UserAuthContext] *)
Module UserAuthContext.
Record t := mk { userId : string; email : string }.
End UserAuthContext.

(** [interface User]; dates are millisecond values. *)
Module User.
Record t := mk {
  id : string;
  email : string;
  name : option string;
  password : string;
  createdAt : Z;
  updatedAt : Z
}.
End User.

(** [interface UserResponse] *)
Module UserResponse.
Record t := mk {
  id : string;
  email : string;
  name : option string;
  createdAt : Z;
  updatedAt : Z
}.
End UserResponse.

(** [userToResponse]: the user without its password. *)
Definition userToResponse (user : User.t) : UserResponse.t :=
  UserResponse.mk (User.id user) (User.email user) (User.name user)
                  (User.createdAt user) (User.updatedAt user).

(** [userToAuthContext] *)
Definition userToAuthContext (user : UserResponse.t) : UserAuthContext.t :=
  UserAuthContext.mk (UserResponse.id user) (UserResponse.email user).

(** The [jwt] part of [Config] and [NODE_ENV]. *)
Module Config.
Record jwt := mkJwt {
  secret : string;
  refreshSecret : string;
  expiresIn : string;
  refreshExpiresIn : string;
  issuer : string;
  audience : string
}.
End Config.

(** The parts of an Express request the pipeline reads or writes. *)
Module Request.
Record t := mk {
  authorization : option string;          (* req.headers.authorization *)
  params : gmap string Js.Value;
  query : gmap string Js.Value;
  body : gmap string Js.Value;
  path : string;
  method : string;
  user : option JWTPayload.t;
  validatedQuery : option (gmap string Js.Value)
}.

Definition setUser (u : JWTPayload.t) (req : t) : t :=
  mk (authorization req) (params req) (query req) (body req) (path req)
     (method req) (Some u) (validatedQuery req).
Definition setBody (b : gmap string Js.Value) (req : t) : t :=
  mk (authorization req) (params req) (query req) b (path req)
     (method req) (user req) (validatedQuery req).
Definition setParams (p : gmap string Js.Value) (req : t) : t :=
  mk (authorization req) p (query req) (body req) (path req)
     (method req) (user req) (validatedQuery req).
Definition setValidatedQuery (q : gmap string Js.Value) (req : t) : t :=
  mk (authorization req) (params req) (query req) (body req) (path req)
     (method req) (user req) (Some q).
End Request.

(* ===================================================================== *)
(** * Error taxonomy: [errors/AppError.ts] (first part of [part_000])      *)
(* ===================================================================== *)

Module AppError.

(** [this.name = this.constructor.name]: the class of the instance. *)
Inductive Class :=
| AppError | AuthError | AuthorizationError | ValidationError
| DatabaseError | NotFoundError | ConflictError | RateLimitError
| ExternalServiceError | ConfigurationError.

Record t := mk {
  class : Class;
  message : string;
  statusCode : Z;
  isOperational : bool;
  timestamp : Z;
  path : option string;
  method : option string;
  details : option (gmap string (list string))
}.

(** [if (path) this.path = path]: an absent or empty argument leaves the
    property undefined. *)
Definition ifTruthy (o : option string) : option string :=
  match o with
  | Some s => if Js.truthyString s then Some s else None
  | None => None
  end.

(** The constructor of the base class, run for an instance of [cls]. *)
Definition construct (cls : Class) (clock : Z) (message : string)
    (statusCode : Z) (isOperational : bool) (path method : option string) : t :=
  mk cls message statusCode isOperational clock
     (ifTruthy path) (ifTruthy method) None.

(** [new AppError(message, statusCode = 500, isOperational = true, path?, method?)] *)
Definition new (clock : Z) (message : string) (statusCode : option Z)
    (isOperational : option bool) (path method : option string) : t :=
  construct AppError clock message (default 500 statusCode)
            (default true isOperational) path method.

(** [new AuthError(message = 'Authentication failed', path?, method?)] *)
Definition newAuthError (clock : Z) (message : option string)
    (path method : option string) : t :=
  construct AuthError clock (default "Authentication failed" message)
            401 true path method.

(** [new AuthorizationError(message = 'Access denied', path?, method?)] *)
Definition newAuthorizationError (clock : Z) (message : option string)
    (path method : option string) : t :=
  construct AuthorizationError clock (default "Access denied" message)
            403 true path method.

(** [new ValidationError(message = 'Validation failed', details?, path?, method?)] *)
Definition newValidationError (clock : Z) (message : option string)
    (details : option (gmap string (list string)))
    (path method : option string) : t :=
  let e := construct ValidationError clock
             (default "Validation failed" message) 400 true path method in
  mk (class e) (AppError.message e) (statusCode e) (isOperational e)
     (timestamp e) (AppError.path e) (AppError.method e) details.

(** [new DatabaseError(message = 'Database operation failed', path?, method?)] *)
Definition newDatabaseError (clock : Z) (message : option string)
    (path method : option string) : t :=
  construct DatabaseError clock (default "Database operation failed" message)
            500 true path method.

(** [new NotFoundError(resource = 'Resource', path?, method?)] *)
Definition newNotFoundError (clock : Z) (resource : option string)
    (path method : option string) : t :=
  construct NotFoundError clock (default "Resource" resource +:+ " not found")
            404 true path method.

(** [new ConflictError(message = 'Resource already exists', path?, method?)] *)
Definition newConflictError (clock : Z) (message : option string)
    (path method : option string) : t :=
  construct ConflictError clock (default "Resource already exists" message)
            409 true path method.

(** [new RateLimitError(message = 'Too many requests', path?, method?)] *)
Definition newRateLimitError (clock : Z) (message : option string)
    (path method : option string) : t :=
  construct RateLimitError clock (default "Too many requests" message)
            429 true path method.

(** [new ExternalServiceError(service, message = 'External service error', path?, method?)] *)
Definition newExternalServiceError (clock : Z) (service : string)
    (message : option string) (path method : option string) : t :=
  construct ExternalServiceError clock
            (service +:+ ": " +:+ default "External service error" message)
            502 true path method.

(** [new ConfigurationError(message = 'Configuration error', path?, method?)] *)
Definition newConfigurationError (clock : Z) (message : option string)
    (path method : option string) : t :=
  construct ConfigurationError clock (default "Configuration error" message)
            500 false path method.

Definition setPath (p : option string) (e : t) : t :=
  mk (class e) (message e) (statusCode e) (isOperational e) (timestamp e)
     p (method e) (details e).
Definition setMethod (m : option string) (e : t) : t :=
  mk (class e) (message e) (statusCode e) (isOperational e) (timestamp e)
     (path e) m (details e).

End AppError.

(* ===================================================================== *)
(** * The [jsonwebtoken] package, as [utils/jwt.ts] uses it                *)
(* ===================================================================== *)

(** The primitives below the package's control flow.  [encode] renders the
    protected header and a payload as the signing input
    [base64url(header) "." base64url(payload)], [decode] reads a signing
    input back (and is undefined on anything that is not the encoding of a
    JOSE header with an HMAC algorithm and a payload object), [hs256] is
    the HMAC-SHA256 tag of a signing input under a key, base64url-encoded. *)
Class Jose := {
  hs256 : string -> string -> string;
  encode : JWTPayload.t -> string;
  decode : string -> option JWTPayload.t
}.

Module jwt.

Definition isBase64Url (c : ascii) : bool :=
  let n := Z.of_N (N_of_ascii c) in
  ((65 <=? n) && (n <=? 90)) || ((97 <=? n) && (n <=? 122))
  || ((48 <=? n) && (n <=? 57)) || (n =? 45) || (n =? 95).

(** A non-empty string over the base64url alphabet. *)
Fixpoint segmentTail (s : string) : bool :=
  match s with
  | EmptyString => true
  | String c rest => isBase64Url c && segmentTail rest
  end.

Definition segment (s : string) : bool :=
  Js.truthyString s && segmentTail s.

(** What the package's documentation promises of the primitives. *)
Class Laws `{Jose} : Prop := {
  decode_encode : forall c, decode (encode c) = Some c;
  encode_segments : forall c, exists h p,
      encode c = h +:+ String "." p /\ segment h = true /\ segment p = true;
  hs256_segment : forall k m, segment (hs256 k m) = true
}.

(** Two keys never give the same tag. *)
Definition Separated `{Jose} (k1 k2 : string) : Prop :=
  forall m, hs256 k1 m <> hs256 k2 m.

(** The idealisation of a message authentication code: different keys are
    separated. *)
Definition PerfectMac `{Jose} : Prop :=
  forall k1 k2, k1 <> k2 -> Separated k1 k2.

Definition JsonWebTokenError (msg : string) : Js.Error :=
  Js.mkError "JsonWebTokenError" msg.
Definition TokenExpiredError (msg : string) : Js.Error :=
  Js.mkError "TokenExpiredError" msg.
Definition NotBeforeError (msg : string) : Js.Error :=
  Js.mkError "NotBeforeError" msg.

Record SignOptions := mkSignOptions {
  expiresIn : string;
  sign_issuer : string;
  sign_audience : string
}.

Record VerifyOptions := mkVerifyOptions {
  issuer : string;
  audience : string
}.

Definition unitSeconds (c : ascii) : option Z :=
  match c with
  | "s"%char => Some 1
  | "m"%char => Some 60
  | "h"%char => Some 3600
  | "d"%char => Some 86400
  | _ => None
  end.

(** Seconds denoted by a string of the form the configuration loader
    admits ([jwtExpiration] in [config/env.ts]): [^\d+[smhd]$].  Any other
    string is treated as one the [ms] package cannot read. *)
Fixpoint spanSeconds (acc : option Z) (s : string) : option Z :=
  match s with
  | EmptyString => None
  | String c EmptyString =>
      match acc, unitSeconds c with
      | Some n, Some u => Some (n * u)
      | _, _ => None
      end
  | String c rest =>
      match Js.digitValue c with
      | Some d => spanSeconds (Some (10 * default 0 acc + d)) rest
      | None => None
      end
  end.

(** [timespan(time, iat)] for a string [time]: [ms] gives up on more than
    100 characters. *)
Definition timespan (time : string) (iat : Z) : option Z :=
  if 100 <? Z.of_nat (String.length time) then None
  else match spanSeconds None time with
       | Some seconds => Some (iat + seconds)
       | None => None
       end.

(** [Math.floor(Date.now() / 1000)] *)
Definition seconds (clock : Z) : Z := clock / 1000.

(** [jwt.sign(payload, secretOrPrivateKey, { expiresIn, issuer, audience })]
    with the default algorithm HS256. *)
Definition sign `{Jose} (payload : JWTPayload.t) (secretOrPrivateKey : string)
    (options : SignOptions) (clock : Z) : Js.result string :=
  if negb (Js.truthyString secretOrPrivateKey) then
    Js.throw (Js.newError "secretOrPrivateKey must have a value")
  else if bool_decide (JWTPayload.exp payload <> None) then
    Js.throw (Js.newError
      ("Bad " +:+ Js.quoted "options.expiresIn"
       +:+ " option the payload already has an " +:+ Js.quoted "exp" +:+ " property."))
  else if negb (Js.truthyString (expiresIn options)) then
    Js.throw (Js.newError
      (Js.quoted "expiresIn"
       +:+ " should be a number of seconds or string representing a timespan"))
  else
    let timestamp :=
      match JWTPayload.iat payload with
      | Some i => if i =? 0 then seconds clock else i
      | None => seconds clock
      end in
    match timespan (expiresIn options) timestamp with
    | None =>
        Js.throw (Js.newError
          (Js.quoted "expiresIn"
           +:+ " should be a number of seconds or string representing a timespan eg: "
           +:+ Js.quoted "1d" +:+ ", " +:+ Js.quoted "20h" +:+ ", 60"))
    | Some exp =>
        if bool_decide (JWTPayload.aud payload <> None) then
          Js.throw (Js.newError
            ("Bad " +:+ Js.quoted "options.audience"
             +:+ " option. The payload already has an " +:+ Js.quoted "aud" +:+ " property."))
        else if bool_decide (JWTPayload.iss payload <> None) then
          Js.throw (Js.newError
            ("Bad " +:+ Js.quoted "options.issuer"
             +:+ " option. The payload already has an " +:+ Js.quoted "iss" +:+ " property."))
        else
          let claims :=
            JWTPayload.mk (JWTPayload.userId payload) (JWTPayload.email payload)
                          (Some timestamp) (Some exp) (JWTPayload.nbf payload)
                          (Some (sign_audience options)) (Some (sign_issuer options)) in
          let signingInput := encode claims in
          Js.ret (signingInput +:+ String "." (hs256 secretOrPrivateKey signingInput))
    end.

(** The checks [jwt.verify] makes on the claims of a payload whose
    signature it has accepted: not-before, expiry, audience, issuer. *)
Definition checkClaims (payload : JWTPayload.t) (options : VerifyOptions)
    (clockTimestamp : Z) : Js.result JWTPayload.t :=
  if match JWTPayload.nbf payload with
     | Some nbf => clockTimestamp <? nbf
     | None => false
     end then
    Js.throw (NotBeforeError "jwt not active")
  else if match JWTPayload.exp payload with
          | Some exp => exp <=? clockTimestamp
          | None => false
          end then
    Js.throw (TokenExpiredError "jwt expired")
  else if Js.truthyString (audience options)
          && negb (bool_decide (JWTPayload.aud payload = Some (audience options))) then
    Js.throw (JsonWebTokenError
      ("jwt audience invalid. expected: " +:+ audience options))
  else if Js.truthyString (issuer options)
          && negb (bool_decide (JWTPayload.iss payload = Some (issuer options))) then
    Js.throw (JsonWebTokenError
      ("jwt issuer invalid. expected: " +:+ issuer options))
  else Js.ret payload.

(** [jwt.verify(jwtString, secretOrPublicKey, { issuer, audience })] *)
Definition verify `{Jose} (jwtString : string) (secretOrPublicKey : string)
    (options : VerifyOptions) (clock : Z) : Js.result JWTPayload.t :=
  let clockTimestamp := seconds clock in
  if negb (Js.truthyString jwtString) then
    Js.throw (JsonWebTokenError "jwt must be provided")
  else
    match Js.split "." jwtString with
    | [h; p; s] =>
        match decode (h +:+ String "." p) with
        | None => Js.throw (JsonWebTokenError "invalid token")
        | Some payload =>
            let hasSignature := Js.truthyString (Js.skipWhiteSpace s) in
            if negb hasSignature && Js.truthyString secretOrPublicKey then
              Js.throw (JsonWebTokenError "jwt signature is required")
            else if hasSignature && negb (Js.truthyString secretOrPublicKey) then
              Js.throw (JsonWebTokenError "secret or public key must be provided")
            else if negb hasSignature then
              Js.throw (JsonWebTokenError
                ("please specify " +:+ Js.quoted "none" +:+ " in " +:+ Js.quoted "algorithms"
                 +:+ " to verify unsigned tokens"))
            else if negb (String.eqb s (hs256 secretOrPublicKey (h +:+ String "." p))) then
              Js.throw (JsonWebTokenError "invalid signature")
            else checkClaims payload options clockTimestamp
        end
    | _ => Js.throw (JsonWebTokenError "jwt malformed")
    end.

End jwt.

(* ===================================================================== *)
(** * Token service: [utils/jwt.ts]                                        *)
(* ===================================================================== *)

Module JWTUtils.
Section WithConfig.
Context `{Jose}.
Variable config : Config.jwt.

(** The object literal [{ userId, email }] a caller passes as
    [Omit<JWTPayload, 'iat' | 'exp'>]. *)
Definition payloadOf (ctx : UserAuthContext.t) : JWTPayload.t :=
  JWTPayload.mk (UserAuthContext.userId ctx) (UserAuthContext.email ctx)
                None None None None None.

Definition generateToken (payload : UserAuthContext.t) (clock : Z) : Js.result string :=
  jwt.sign (payloadOf payload) (Config.secret config)
    (jwt.mkSignOptions (Config.expiresIn config) (Config.issuer config)
                       (Config.audience config))
    clock.

Definition verifyToken (token : string) (clock : Z) : Js.result JWTPayload.t :=
  Js.try_catch
    (jwt.verify token (Config.secret config)
       (jwt.mkVerifyOptions (Config.issuer config) (Config.audience config)) clock)
    (fun _error => Js.throw (Js.newError "Invalid or expired token")).

Definition extractTokenFromHeader (authHeader : option string) : Js.result string :=
  match authHeader with
  | None => Js.throw (Js.newError "Authorization header is required")
  | Some authHeader =>
      if negb (Js.truthyString authHeader) then
        Js.throw (Js.newError "Authorization header is required")
      else
        match Js.split " " authHeader with
        | [part0; part1] =>
            if negb (String.eqb part0 "Bearer") then
              Js.throw (Js.newError "Invalid authorization header format")
            else Js.ret part1
        | _ => Js.throw (Js.newError "Invalid authorization header format")
        end
  end.

Definition generateRefreshToken (payload : UserAuthContext.t) (clock : Z) : Js.result string :=
  jwt.sign (payloadOf payload) (Config.refreshSecret config)
    (jwt.mkSignOptions (Config.refreshExpiresIn config) (Config.issuer config)
                       (Config.audience config))
    clock.

Definition verifyRefreshToken (token : string) (clock : Z) : Js.result JWTPayload.t :=
  Js.try_catch
    (jwt.verify token (Config.refreshSecret config)
       (jwt.mkVerifyOptions (Config.issuer config) (Config.audience config)) clock)
    (fun _error => Js.throw (Js.newError "Invalid or expired refresh token")).

End WithConfig.
End JWTUtils.

(* ===================================================================== *)
(** * Error handler: [errors/errorHandler.ts] (second part of [part_000])  *)
(* ===================================================================== *)

(** What can reach [next(error)] or be thrown: an [AppError] instance, one
    of the four Prisma error classes, or any other [Error]. *)
Inductive Thrown :=
| ThrownAppError (e : AppError.t)
| PrismaClientKnownRequestError (code : string) (message : string)
| PrismaClientValidationError (message : string)
| PrismaClientInitializationError (message : string)
| PrismaClientRustPanicError (message : string)
| ThrownError (e : Js.Error).

Definition thrownMessage (error : Thrown) : string :=
  match error with
  | ThrownAppError e => AppError.message e
  | PrismaClientKnownRequestError _ m => m
  | PrismaClientValidationError m => m
  | PrismaClientInitializationError m => m
  | PrismaClientRustPanicError m => m
  | ThrownError e => Js.message e
  end.

(** What a middleware does with the request: [next()] with the request as
    it has left it, or [next(error)]. *)
Inductive Outcome :=
| Next (req : Request.t)
| NextError (error : Thrown).

(** What a route handler does: answer, or [next(error)]. *)
Inductive Reply (Body : Type) :=
| Respond (status : Z) (body : Body)
| Fail (error : Thrown).
Arguments Respond {Body} status body.
Arguments Fail {Body} error.

Module errorHandler.

Definition handlePrismaError (clock : Z) (error : Thrown) : AppError.t :=
  match error with
  | PrismaClientKnownRequestError code _ =>
      if String.eqb code "P2002" then
        AppError.new clock "A record with this information already exists"
                     (Some 409) None None None
      else if String.eqb code "P2025" then
        AppError.new clock "Record not found" (Some 404) None None None
      else if String.eqb code "P2003" then
        AppError.new clock "Foreign key constraint failed" (Some 400) None None None
      else if String.eqb code "P2014" then
        AppError.new clock "Invalid ID provided" (Some 400) None None None
      else
        AppError.new clock "Database operation failed" (Some 500) None None None
  | PrismaClientValidationError _ =>
      AppError.new clock "Invalid data provided" (Some 400) None None None
  | PrismaClientInitializationError _ =>
      AppError.new clock "Database connection failed" (Some 500) None None None
  | PrismaClientRustPanicError _ =>
      AppError.new clock "Database engine error" (Some 500) None None None
  | _ =>
      AppError.new clock "Database operation failed" (Some 500) None None None
  end.

Definition handleJWTError (clock : Z) (error : Js.Error) : AppError.t :=
  if String.eqb (Js.name error) "JsonWebTokenError" then
    AppError.new clock "Invalid token" (Some 401) None None None
  else if String.eqb (Js.name error) "TokenExpiredError" then
    AppError.new clock "Token expired" (Some 401) None None None
  else if String.eqb (Js.name error) "NotBeforeError" then
    AppError.new clock "Token not active" (Some 401) None None None
  else
    AppError.new clock "Authentication failed" (Some 401) None None None.

Inductive Severity := LogError | LogWarn.

(** The [error] member of the response envelope.  The [stack] member, which
    the handler adds only when [NODE_ENV] is [development], is left out. *)
Record ErrorBody := mkErrorBody {
  message : string;
  statusCode : Z;
  timestamp : Z;
  path : option string;
  method : option string;
  details : option (gmap string (list string))
}.

Record ErrorResponse := mkErrorResponse {
  status : Z;
  success : bool;
  error : ErrorBody;
  logged : Severity
}.

Definition globalErrorHandler (NODE_ENV : option string) (clock : Z)
    (error : Thrown) (req : Request.t) : ErrorResponse :=
  let appError :=
    match error with
    | ThrownAppError e => e
    | PrismaClientKnownRequestError _ _
    | PrismaClientValidationError _
    | PrismaClientInitializationError _
    | PrismaClientRustPanicError _ => handlePrismaError clock error
    | ThrownError e =>
        if String.eqb (Js.name e) "JsonWebTokenError"
           || String.eqb (Js.name e) "TokenExpiredError"
           || String.eqb (Js.name e) "NotBeforeError"
        then handleJWTError clock e
        else
          AppError.new clock
            (if bool_decide (NODE_ENV = Some "production")
             then "Something went wrong" else Js.message e)
            (Some 500) (Some false)
            (Some (Request.path req)) (Some (Request.method req))
    end in
  let appError :=
    match AppError.path appError with
    | None => AppError.setPath (Some (Request.path req)) appError
    | Some _ => appError
    end in
  let appError :=
    match AppError.method appError with
    | None => AppError.setMethod (Some (Request.method req)) appError
    | Some _ => appError
    end in
  mkErrorResponse
    (AppError.statusCode appError)
    false
    (mkErrorBody (AppError.message appError) (AppError.statusCode appError)
                 (AppError.timestamp appError) (AppError.path appError)
                 (AppError.method appError)
                 (AppError.details appError))
    (if 500 <=? AppError.statusCode appError then LogError else LogWarn).

End errorHandler.

(* ===================================================================== *)
(** * Authentication middleware: [middleware/auth.ts]                      *)
(**   (the second module in the file [services/userService.ts])            *)
(* ===================================================================== *)

Module auth.
Section WithConfig.
Context `{Jose}.
Variable config : Config.jwt.

Definition authenticateToken (req : Request.t) (clock : Z) : Outcome :=
  match
    (let! token := JWTUtils.extractTokenFromHeader (Request.authorization req) in
     let! payload := JWTUtils.verifyToken config token clock in
     Js.ret (Request.setUser payload req))
  with
  | inr req' => Next req'
  | inl _error =>
      NextError (ThrownAppError
        (AppError.newAuthError clock (Some "Authentication failed") None None))
  end.

Definition optionalAuth (req : Request.t) (clock : Z) : Outcome :=
  match
    (match Request.authorization req with
     | Some authHeader =>
         if Js.truthyString authHeader then
           let! token := JWTUtils.extractTokenFromHeader (Some authHeader) in
           let! payload := JWTUtils.verifyToken config token clock in
           Js.ret (Request.setUser payload req)
         else Js.ret req
     | None => Js.ret req
     end)
  with
  | inr req' => Next req'
  | inl _error => Next req
  end.

End WithConfig.

Definition requireRole (role : string) (req : Request.t) (clock : Z) : Outcome :=
  match Request.user req with
  | None =>
      NextError (ThrownAppError
        (AppError.newAuthError clock (Some "Authentication required") None None))
  | Some _ => Next req
  end.

Definition requireOwnership (userIdParam : option string)
    (req : Request.t) (clock : Z) : Outcome :=
  let userIdParam := default "userId" userIdParam in
  match Request.user req with
  | None =>
      NextError (ThrownAppError
        (AppError.newAuthError clock (Some "Authentication required") None None))
  | Some user =>
      let resourceUserId :=
        Js.or (Js.get (Request.params req) userIdParam)
              (Js.get (Request.body req) userIdParam) in
      if Js.stringStrictNe (JWTPayload.userId user) resourceUserId then
        NextError (ThrownAppError
          (AppError.newAuthError clock
             (Some "Access denied: You can only access your own resources")
             None None))
      else Next req
  end.

End auth.

(* ===================================================================== *)
(** * The [zod] package, as [validation/schemas.ts] uses it                *)
(* ===================================================================== *)

Module z.

Inductive PathSegment :=
| Key (k : string)
| Index (i : N).

Record ZodIssue := mkIssue { path : list PathSegment; message : string }.

(** The outcome of parsing one value: valid, valid with issues recorded
    (dirty), or aborted. *)
Inductive ParseReturn (A : Type) :=
| OK (value : A)
| DIRTY (value : A) (issues : list ZodIssue)
| INVALID (issues : list ZodIssue).
Arguments OK {A} value.
Arguments DIRTY {A} value issues.
Arguments INVALID {A} issues.

(** A schema: parses an input found at [path]. *)
Definition ZodType (A : Type) : Type := list PathSegment -> Js.Value -> ParseReturn A.

Definition issuesOf {A} (r : ParseReturn A) : list ZodIssue :=
  match r with
  | OK _ => []
  | DIRTY _ issues => issues
  | INVALID issues => issues
  end.

(** The name the package prints for the type of a received value. *)
Definition parsedType (v : Js.Value) : string :=
  match v with
  | Js.VUndefined => "undefined"
  | Js.VNull => "null"
  | Js.VBool _ => "boolean"
  | Js.VNumber Js.NaN => "nan"
  | Js.VNumber (Js.Int _) => "number"
  | Js.VString _ => "string"
  | Js.VObject typeName => typeName
  end.

(** [z.string()] *)
Definition string_ : ZodType string :=
  fun path v =>
    match v with
    | Js.VString s => OK s
    | Js.VUndefined => INVALID [mkIssue path "Required"]
    | _ => INVALID [mkIssue path ("Expected string, received " +:+ parsedType v)]
    end.

(** [schema.optional()] *)
Definition optional {A} (schema : ZodType A) : ZodType (option A) :=
  fun path v =>
    match v with
    | Js.VUndefined => OK None
    | _ =>
        match schema path v with
        | OK a => OK (Some a)
        | DIRTY a issues => DIRTY (Some a) issues
        | INVALID issues => INVALID issues
        end
    end.

(** [schema.transform(f)]: [f] runs on a valid value only.  No schema of
    this application transforms a schema that can come back dirty; the
    issues of such a result are kept and its value is not. *)
Definition transform {A B} (schema : ZodType A) (f : A -> B) : ZodType B :=
  fun path v =>
    match schema path v with
    | OK a => OK (f a)
    | DIRTY _ issues => INVALID issues
    | INVALID issues => INVALID issues
    end.

(** [schema.refine(check, message)]: the check runs unless the inner parse
    aborted; a failed check records one issue and leaves the value. *)
Definition refine {A} (schema : ZodType A) (check : A -> bool) (message : string)
    : ZodType A :=
  fun path v =>
    match schema path v with
    | OK a => if check a then OK a else DIRTY a [mkIssue path message]
    | DIRTY a issues =>
        if check a then DIRTY a issues else DIRTY a (issues ++ [mkIssue path message])
    | INVALID issues => INVALID issues
    end.

(** The parsed object receives [key] unless the parsed value is [undefined]
    and [key in data] is false. *)
Definition setField (data : gmap string Js.Value) (key : string) (v : Js.Value)
    (o : gmap string Js.Value) : gmap string Js.Value :=
  if String.eqb key "__proto__" then o
  else match v with
       | Js.VUndefined => if Js.has data key then <[key := v]> o else o
       | _ => <[key := v]> o
       end.

(** [z.object(shape)]: every key of the shape is parsed, in order, against
    [data[key]]; the issues of all keys are kept; keys outside the shape
    are dropped. *)
Fixpoint objectFields (shape : list (string * ZodType Js.Value))
    (path : list PathSegment) (data : gmap string Js.Value)
    : ParseReturn (gmap string Js.Value) :=
  match shape with
  | [] => OK ∅
  | (key, schema) :: shape' =>
      let field := schema (path ++ [Key key]) (Js.get data key) in
      let others := objectFields shape' path data in
      match field, others with
      | OK v, OK o => OK (setField data key v o)
      | OK v, DIRTY o issues => DIRTY (setField data key v o) issues
      | DIRTY v issues, OK o => DIRTY (setField data key v o) issues
      | DIRTY v issues, DIRTY o issues' => DIRTY (setField data key v o) (issues ++ issues')
      | _, _ => INVALID (issuesOf field ++ issuesOf others)
      end
  end.

(** A schema whose parsed value is stored as a number property. *)
Definition asNumber {A} (schema : ZodType A) (f : A -> Js.Number) : ZodType Js.Value :=
  fun path v =>
    match schema path v with
    | OK a => OK (Js.VNumber (f a))
    | DIRTY a issues => DIRTY (Js.VNumber (f a)) issues
    | INVALID issues => INVALID issues
    end.

(** [schema.parse(data)] for an object schema: the parsed object, or the
    thrown [ZodError] with its issues. *)
Definition parse (shape : list (string * ZodType Js.Value))
    (data : gmap string Js.Value) : list ZodIssue + gmap string Js.Value :=
  match objectFields shape [] data with
  | OK o => inr o
  | DIRTY _ issues => inl issues
  | INVALID issues => inl issues
  end.

End z.

(* ===================================================================== *)
(** * Schemas: [validation/schemas.ts] ([part_005])                        *)
(* ===================================================================== *)

Module schemas.

(** [val => (val ? parseInt(val, 10) : 1)] and its [limit] twin *)
Definition parseOr (fallback : Z) (val : option string) : Js.Number :=
  match val with
  | Some s => if Js.truthyString s then Js.parseInt s else Js.Int fallback
  | None => Js.Int fallback
  end.

Definition pageSchema : z.ZodType Js.Number :=
  z.refine
    (z.transform (z.optional z.string_) (parseOr 1))
    (fun val => Js.gt val 0)
    "Page must be a positive integer".

Definition limitSchema : z.ZodType Js.Number :=
  z.refine
    (z.transform (z.optional z.string_) (parseOr 10))
    (fun val => Js.gt val 0 && Js.le val 100)
    "Limit must be between 1 and 100".

Definition paginationSchema : list (string * z.ZodType Js.Value) :=
  [ ("page", z.asNumber pageSchema id); ("limit", z.asNumber limitSchema id) ].

End schemas.

(* ===================================================================== *)
(** * Validation gate: [validation/middleware.ts] ([part_004])             *)
(* ===================================================================== *)

Module validation.

Inductive Source := body | query | params.

(** [err.path.join('.')] *)
Definition joinPath (path : list z.PathSegment) : string :=
  Js.join "."
    (map (fun seg => match seg with
                     | z.Key k => k
                     | z.Index i => pretty i
                     end) path).

(** One turn of the [forEach] that fills [details].  The object starts as
    [{}], so a path that names an inherited property finds a truthy value
    that is not an array, and [push] on it throws. *)
Definition addIssue (details : gmap string (list string)) (err : z.ZodIssue)
    : Js.result (gmap string (list string)) :=
  let path := joinPath (z.path err) in
  match details !! path with
  | Some messages => Js.ret (<[path := messages ++ [z.message err]]> details)
  | None =>
      if Js.inherited path then
        Js.throw (Js.mkError "TypeError" "details[path].push is not a function")
      else Js.ret (<[path := [z.message err]]> details)
  end.

Fixpoint collectDetails (details : gmap string (list string)) (issues : list z.ZodIssue)
    : Js.result (gmap string (list string)) :=
  match issues with
  | [] => Js.ret details
  | err :: rest =>
      let! details' := addIssue details err in
      collectDetails details' rest
  end.

Definition validate (schema : list (string * z.ZodType Js.Value))
    (source : option Source) (req : Request.t) (clock : Z) : Outcome :=
  let source := default body source in
  let data :=
    match source with
    | body => Request.body req
    | query => Request.query req
    | params => Request.params req
    end in
  match z.parse schema data with
  | inr validatedData =>
      Next (match source with
            | body => Request.setBody validatedData req
            | query => Request.setValidatedQuery validatedData req
            | params => Request.setParams validatedData req
            end)
  | inl issues =>
      match collectDetails ∅ issues with
      | inr details =>
          NextError (ThrownAppError
            (AppError.newValidationError clock (Some "Validation failed")
               (Some details) (Some (Request.path req)) (Some (Request.method req))))
      | inl typeError =>
          (* thrown inside the catch block: it leaves the middleware, and
             the router hands it to the error handlers *)
          NextError (ThrownError typeError)
      end
  end.

Definition validateQuery schema := validate schema (Some query).
Definition validateParams schema := validate schema (Some params).

End validation.

(* ===================================================================== *)
(** * User service and login route: [services/userService.ts], [routes/auth.ts] *)
(* ===================================================================== *)

(** [bcrypt.compare(data, encrypted)] of the [bcryptjs] package. *)
Class Bcrypt := {
  compare : string -> string -> bool
}.

Module UserRepository.

(** The user collection; [email] is its unique key. *)
Definition findByEmail (users : list User.t) (email : string) : option User.t :=
  List.find (fun u => String.eqb (User.email u) email) users.

End UserRepository.

Module UserService.

(** Storage faults, which the method logs and rethrows, are not modelled:
    the collection is a list. *)
Definition verifyPassword `{Bcrypt} (users : list User.t) (email password : string)
    : option UserResponse.t :=
  match UserRepository.findByEmail users email with
  | None => None
  | Some user =>
      let isPasswordValid := compare password (User.password user) in
      if negb isPasswordValid then None
      else Some (userToResponse user)
  end.

End UserService.

Module routes.

(** [req.body] after [validateBody(loginSchema)] *)
Record LoginInput := mkLoginInput { email : string; password : string }.

Record LoginData := mkLoginData {
  user : UserResponse.t;
  accessToken : string;
  refreshToken : string
}.

Record LoginBody := mkLoginBody {
  success : bool;
  message : string;
  data : LoginData
}.

(** The handler of [POST /login]. *)
Definition login `{Jose} `{Bcrypt} (config : Config.jwt) (users : list User.t)
    (body : LoginInput) (clock : Z) : Reply LoginBody :=
  match UserService.verifyPassword users (email body) (password body) with
  | None =>
      Fail (ThrownAppError
        (AppError.newAuthError clock (Some "Invalid email or password") None None))
  | Some user =>
      let authContext := userToAuthContext user in
      match
        (let! accessToken := JWTUtils.generateToken config authContext clock in
         let! refreshToken := JWTUtils.generateRefreshToken config authContext clock in
         Js.ret (mkLoginData user accessToken refreshToken))
      with
      | inr data => Respond 200 (mkLoginBody true "Login successful" data)
      | inl error => Fail (ThrownError error)
      end
  end.

End routes.

(* ===================================================================== *)
(** * A reference instance of the primitives                               *)
(* ===================================================================== *)

(** A small self-delimiting code over the base64url alphabet, a tag that
    spells out its key, and a comparison of passwords by equality.  It
    shows that the laws assumed of the primitives can be met and lets the
    pipeline be run on concrete requests. *)
Module Reference.

Definition bitChar (b : bool) : ascii := if b then "1"%char else "0"%char.
Definition charBit (c : ascii) : bool := Ascii.eqb c "1".

(** A string, then the continuation [k]. *)
Fixpoint putString (s : string) (k : string) : string :=
  match s with
  | EmptyString => String "e" k
  | String (Ascii b0 b1 b2 b3 b4 b5 b6 b7) rest =>
      String "c" (String (bitChar b0) (String (bitChar b1) (String (bitChar b2)
        (String (bitChar b3) (String (bitChar b4) (String (bitChar b5)
          (String (bitChar b6) (String (bitChar b7) (putString rest k)))))))))
  end.

Fixpoint getString (s : string) : option (string * string) :=
  match s with
  | String "e" k => Some (EmptyString, k)
  | String "c" (String c0 (String c1 (String c2 (String c3 (String c4
      (String c5 (String c6 (String c7 rest)))))))) =>
      match getString rest with
      | Some (t, k) =>
          Some (String (Ascii (charBit c0) (charBit c1) (charBit c2) (charBit c3)
                              (charBit c4) (charBit c5) (charBit c6) (charBit c7)) t, k)
      | None => None
      end
  | _ => None
  end.

Fixpoint putPositive (p : positive) (k : string) : string :=
  match p with
  | xH => String "H" k
  | xO q => String "O" (putPositive q k)
  | xI q => String "I" (putPositive q k)
  end.

Fixpoint getPositive (s : string) : option (positive * string) :=
  match s with
  | String "H" k => Some (xH, k)
  | String "O" rest =>
      match getPositive rest with Some (q, k) => Some (xO q, k) | None => None end
  | String "I" rest =>
      match getPositive rest with Some (q, k) => Some (xI q, k) | None => None end
  | _ => None
  end.

Definition putZ (n : Z) (k : string) : string :=
  match n with
  | Z0 => String "z" k
  | Zpos p => String "p" (putPositive p k)
  | Zneg p => String "n" (putPositive p k)
  end.

Definition getZ (s : string) : option (Z * string) :=
  match s with
  | String "z" k => Some (Z0, k)
  | String "p" rest =>
      match getPositive rest with Some (p, k) => Some (Zpos p, k) | None => None end
  | String "n" rest =>
      match getPositive rest with Some (p, k) => Some (Zneg p, k) | None => None end
  | _ => None
  end.

Definition putOption {A} (put : A -> string -> string) (o : option A) (k : string) : string :=
  match o with
  | None => String "N" k
  | Some a => String "S" (put a k)
  end.

Definition getOption {A} (get : string -> option (A * string)) (s : string)
    : option (option A * string) :=
  match s with
  | String "N" k => Some (None, k)
  | String "S" rest =>
      match get rest with Some (a, k) => Some (Some a, k) | None => None end
  | _ => None
  end.

Definition putPayload (c : JWTPayload.t) (k : string) : string :=
  putString (JWTPayload.userId c)
    (putString (JWTPayload.email c)
      (putOption putZ (JWTPayload.iat c)
        (putOption putZ (JWTPayload.exp c)
          (putOption putZ (JWTPayload.nbf c)
            (putOption putString (JWTPayload.aud c)
              (putOption putString (JWTPayload.iss c) k)))))).

Definition getPayload (s : string) : option (JWTPayload.t * string) :=
  match getString s with
  | Some (userId, s) =>
  match getString s with
  | Some (email, s) =>
  match getOption getZ s with
  | Some (iat, s) =>
  match getOption getZ s with
  | Some (exp, s) =>
  match getOption getZ s with
  | Some (nbf, s) =>
  match getOption getString s with
  | Some (aud, s) =>
  match getOption getString s with
  | Some (iss, s) => Some (JWTPayload.mk userId email iat exp nbf aud iss, s)
  | None => None end
  | None => None end
  | None => None end
  | None => None end
  | None => None end
  | None => None end
  | None => None end.

Definition encode (c : JWTPayload.t) : string :=
  String "h" (String "." (putPayload c EmptyString)).

Definition decode (s : string) : option JWTPayload.t :=
  match s with
  | String "h" (String "." rest) =>
      match getPayload rest with
      | Some (c, EmptyString) => Some c
      | _ => None
      end
  | _ => None
  end.

Definition hs256 (key signingInput : string) : string :=
  String "s" (putString key EmptyString).

#[export] Instance jose : Jose := Build_Jose hs256 encode decode.

#[export] Instance bcrypt : Bcrypt := Build_Bcrypt String.eqb.

(** The configuration of [test/utils/jwt.test.ts]. *)
Definition config : Config.jwt :=
  Config.mkJwt "test-secret" "test-refresh-secret" "1h" "7d"
               "test-issuer" "test-audience".

Definition mockPayload : UserAuthContext.t :=
  UserAuthContext.mk "507f1f77bcf86cd799439011" "test@example.com".

Definition mockUser : User.t :=
  User.mk "507f1f77bcf86cd799439011" "test@example.com" (Some "Test User")
          "hashedPassword123" 1672531200000 1672531200000.

Definition request (authorization : option string)
    (params body : gmap string Js.Value) : Request.t :=
  Request.mk authorization params ∅ body "/api/v1/users" "GET" None None.

End Reference.

From stdpp Require Import sorting.

Open Scope Z_scope.

(* ===================================================================== *)
(** * More string primitives                                               *)
(* ===================================================================== *)

Module Text.

(** [s.trimEnd()], on the ASCII white space. *)
Fixpoint trimEnd (s : string) : string :=
  match s with
  | EmptyString => EmptyString
  | String c rest =>
      match trimEnd rest with
      | EmptyString => if Js.isWhiteSpace c then EmptyString else String c EmptyString
      | r => String c r
      end
  end.

(** [s.trim()] *)
Definition trim (s : string) : string := trimEnd (Js.skipWhiteSpace s).


(** The class [\d] of a regular expression without the unicode flag. *)
Definition isDigit (c : ascii) : bool :=
  match Js.digitValue c with Some _ => true | None => false end.

(** The class [[0-9a-fA-F]]. *)
Definition isHexDigit (c : ascii) : bool :=
  let n := Z.of_N (N_of_ascii c) in
  ((48 <=? n) && (n <=? 57)) || ((97 <=? n) && (n <=? 102))
  || ((65 <=? n) && (n <=? 70)).

Fixpoint all (p : ascii -> bool) (s : string) : bool :=
  match s with
  | EmptyString => true
  | String c rest => p c && all p rest
  end.

(** [s.length], for strings whose characters are single code units. *)
Definition length (s : string) : Z := Z.of_nat (String.length s).

End Text.

(* ===================================================================== *)
(** * Environment validators: [config/env.ts] ([part_006])                 *)
(* ===================================================================== *)

Module env.


(** [/^\d+[smhd]$/.test(input)], read from the left: after at least one
    digit ([seen]), more digits or one final unit letter. *)
Fixpoint validFormats (seen : bool) (input : string) : bool :=
  match input with
  | EmptyString => false
  | String c EmptyString =>
      seen && match jwt.unitSeconds c with Some _ => true | None => false end
  | String c rest => Text.isDigit c && validFormats true rest
  end.

(** [jwtExpiration] *)
Definition jwtExpiration (input : string) : Js.result string :=
  if negb (validFormats false input) then
    Js.throw (Js.newError "JWT expiration must be in format like 15m, 1h, 7d")
  else Js.ret input.

End env.

(* ===================================================================== *)
(** * More of the [zod] package: string checks                             *)
(* ===================================================================== *)

Module zs.

(** The checks a string schema accumulates, in the order they were
    chained.  [Regex] carries the test of its regular expression. *)
Inductive Check :=
| Min (value : Z) (message : string)
| Max (value : Z) (message : string)
| Regex (test : string -> bool) (message : string)
| Trim.

(** The checks run in order on the current data; a failed check records an
    issue and the loop goes on; [trim] replaces the data. *)
Fixpoint runChecks (checks : list Check) (path : list z.PathSegment)
    (data : string) (issues : list z.ZodIssue) : string * list z.ZodIssue :=
  match checks with
  | [] => (data, issues)
  | Min value message :: rest =>
      runChecks rest path data
        (if Text.length data <? value then issues ++ [z.mkIssue path message]
         else issues)
  | Max value message :: rest =>
      runChecks rest path data
        (if value <? Text.length data then issues ++ [z.mkIssue path message]
         else issues)
  | Regex test message :: rest =>
      runChecks rest path data
        (if negb (test data) then issues ++ [z.mkIssue path message] else issues)
  | Trim :: rest => runChecks rest path (Text.trim data) issues
  end.

(** [z.string()] with [checks] chained on it. *)
Definition string (checks : list Check) : z.ZodType String.string :=
  fun path v =>
    match z.string_ path v with
    | z.OK data =>
        match runChecks checks path data [] with
        | (data', []) => z.OK data'
        | (data', issues) => z.DIRTY data' issues
        end
    | other => other
    end.

(** A schema whose parsed value is stored as a string property, and an
    optional one whose absent value is stored as [undefined]. *)
Definition asString (schema : z.ZodType String.string) : z.ZodType Js.Value :=
  fun path v =>
    match schema path v with
    | z.OK a => z.OK (Js.VString a)
    | z.DIRTY a issues => z.DIRTY (Js.VString a) issues
    | z.INVALID issues => z.INVALID issues
    end.

Definition asOptionalString (schema : z.ZodType (option String.string))
    : z.ZodType Js.Value :=
  fun path v =>
    let store o := match o with Some a => Js.VString a | None => Js.VUndefined end in
    match schema path v with
    | z.OK a => z.OK (store a)
    | z.DIRTY a issues => z.DIRTY (store a) issues
    | z.INVALID issues => z.INVALID issues
    end.

End zs.

(** The formats the [zod] package tests with regular expressions of its
    own. *)
Class ZodFormats := {
  isEmail : string -> bool;
  isUuid : string -> bool
}.

(* ===================================================================== *)
(** * The other schemas: [validation/schemas.ts] ([part_005])              *)
(* ===================================================================== *)

Module schemas2.
Section WithFormats.
Context `{ZodFormats}.

Definition uuidSchema : z.ZodType string :=
  zs.string [zs.Regex isUuid "Invalid UUID format"].

Definition emailSchema : z.ZodType string :=
  zs.string [zs.Regex isEmail "Please provide a valid email address"].

Definition passwordSchema : z.ZodType string :=
  zs.string [ zs.Min 6 "Password must be at least 6 characters long";
              zs.Max 128 "Password must not exceed 128 characters" ].

Definition nameSchema : z.ZodType string :=
  zs.string [ zs.Min 2 "Name must be at least 2 characters long";
              zs.Max 50 "Name must not exceed 50 characters";
              zs.Trim ].


Definition loginSchema : list (string * z.ZodType Js.Value) :=
  [ ("email", zs.asString emailSchema);
    ("password", zs.asString (zs.string [zs.Min 1 "Password is required"])) ].

Definition refreshTokenSchema : list (string * z.ZodType Js.Value) :=
  [ ("refreshToken",
     zs.asString (zs.string [zs.Min 1 "Refresh token is required"])) ].

Definition updateProfileSchema : list (string * z.ZodType Js.Value) :=
  [ ("name", zs.asOptionalString (z.optional nameSchema));
    ("email", zs.asOptionalString (z.optional emailSchema));
    ("password", zs.asOptionalString (z.optional passwordSchema)) ].

Definition createUserSchema : list (string * z.ZodType Js.Value) :=
  [ ("email", zs.asString emailSchema);
    ("name", zs.asString nameSchema);
    ("password", zs.asString passwordSchema) ].

Definition updateUserSchema : list (string * z.ZodType Js.Value) :=
  [ ("name", zs.asOptionalString (z.optional nameSchema));
    ("email", zs.asOptionalString (z.optional emailSchema));
    ("password", zs.asOptionalString (z.optional passwordSchema)) ].

End WithFormats.
End schemas2.

Module validation2.

(** [/^[0-9a-fA-F]{24}$/.test(s)] *)
Definition isObjectId (s : string) : bool :=
  (Text.length s =? 24) && Text.all Text.isHexDigit s.

(** [validateMongoId(paramName = 'id')] *)
Definition validateMongoId (paramName : option string) : Request.t -> Z -> Outcome :=
  validation.validateParams
    [ (default "id" paramName,
       zs.asString (zs.string [zs.Regex isObjectId "Invalid MongoDB ObjectId"])) ].

End validation2.

(* ===================================================================== *)
(** * The rest of [errors/errorHandler.ts]                                 *)
(* ===================================================================== *)

Module errorHandler2.

(** An entry of the array [handleValidationError] receives. *)
Record FieldError := mkFieldError { msg : string; param : string }.

(** One turn of the [forEach] of [handleValidationError]; as in the
    validation gate, [details] starts as [{}]. *)
Definition addFieldError (details : gmap string (list string)) (error : FieldError)
    : Js.result (gmap string (list string)) :=
  match details !! param error with
  | Some messages => Js.ret (<[param error := messages ++ [msg error]]> details)
  | None =>
      if Js.inherited (param error) then
        Js.throw (Js.mkError "TypeError" "details[error.param].push is not a function")
      else Js.ret (<[param error := [msg error]]> details)
  end.

Fixpoint groupErrors (details : gmap string (list string)) (errors : list FieldError)
    : Js.result (gmap string (list string)) :=
  match errors with
  | [] => Js.ret details
  | error :: rest =>
      let! details' := addFieldError details error in
      groupErrors details' rest
  end.

Definition handleValidationError (clock : Z) (errors : list FieldError)
    : Js.result AppError.t :=
  let! details := groupErrors ∅ errors in
  Js.ret (AppError.newValidationError clock (Some "Validation failed")
            (Some details) None None).

(** [createErrorResponse(message, statusCode = 500, details?)] *)
Definition createErrorResponse (clock : Z) (message : string)
    (statusCode : option Z) (details : option (gmap string (list string)))
    : AppError.t :=
  let error := AppError.new clock message (Some (default 500 statusCode))
                            (Some true) None None in
  match details with
  | Some d =>
      AppError.mk (AppError.class error) (AppError.message error)
                  (AppError.statusCode error) (AppError.isOperational error)
                  (AppError.timestamp error) (AppError.path error)
                  (AppError.method error) (Some d)
  | None => error
  end.

End errorHandler2.

(* ===================================================================== *)
(** * User storage: [repositories/userRepository.ts] ([part_009])          *)
(* ===================================================================== *)

(** [interface CreateUserInput] *)
Module CreateUserInput.
Record t := mk { email : string; name : string; password : string }.
End CreateUserInput.

(** [interface UpdateUserInput] *)
Module UpdateUserInput.
Record t := mk {
  name : option string;
  email : option string;
  password : option string
}.
End UpdateUserInput.

(** The collection is the list of its documents in insertion order.  The
    Prisma schema is not part of the sources read here: the [id] and the
    timestamps the storage gives a document are arguments ([id], [now]);
    [id] and [email] are unique keys, whose violation is the fault [P2002];
    a write to a missing document is the fault [P2025]. *)
Module Repository.

Definition result (A : Type) : Type := Thrown + A.

Definition findById (users : list User.t) (id : string) : option User.t :=
  List.find (fun u => String.eqb (User.id u) id) users.

Definition existsById (users : list User.t) (id : string) : bool :=
  match findById users id with Some _ => true | None => false end.

Definition existsByEmail (users : list User.t) (email : string) : bool :=
  match UserRepository.findByEmail users email with Some _ => true | None => false end.

Definition create (users : list User.t) (id : string) (now : Z)
    (userData : CreateUserInput.t) : result (list User.t * User.t) :=
  if existsById users id || existsByEmail users (CreateUserInput.email userData) then
    inl (PrismaClientKnownRequestError "P2002" "Unique constraint failed")
  else
    let user := User.mk id (CreateUserInput.email userData)
                        (Some (CreateUserInput.name userData))
                        (CreateUserInput.password userData) now now in
    inr (users ++ [user], user).

(** The document [user] with the fields [userData] gives written over. *)
Definition applyUpdate (now : Z) (userData : UpdateUserInput.t) (user : User.t) : User.t :=
  User.mk (User.id user)
          (default (User.email user) (UpdateUserInput.email userData))
          (match UpdateUserInput.name userData with
           | Some n => Some n
           | None => User.name user
           end)
          (default (User.password user) (UpdateUserInput.password userData))
          (User.createdAt user) now.

Definition updateById (users : list User.t) (now : Z) (id : string)
    (userData : UpdateUserInput.t) : result (list User.t * User.t) :=
  match findById users id with
  | None => inl (PrismaClientKnownRequestError "P2025" "Record to update not found")
  | Some user =>
      let taken :=
        match UpdateUserInput.email userData with
        | Some e =>
            existsb (fun u => String.eqb (User.email u) e
                              && negb (String.eqb (User.id u) id)) users
        | None => false
        end in
      if taken then inl (PrismaClientKnownRequestError "P2002" "Unique constraint failed")
      else
        let user' := applyUpdate now userData user in
        inr (map (fun u => if String.eqb (User.id u) id then user' else u) users,
             user')
  end.

Definition deleteById (users : list User.t) (id : string) : result (list User.t) :=
  match findById users id with
  | None => inl (PrismaClientKnownRequestError "P2025" "Record to delete does not exist")
  | Some _ => inr (List.filter (fun u => negb (String.eqb (User.id u) id)) users)
  end.

(** [orderBy: { createdAt: 'desc' }]: newest first; documents created at
    the same instant stay in the order the sort leaves them. *)
Definition newerFirst (a b : User.t) : Prop := User.createdAt b <= User.createdAt a.

#[export] Instance newerFirst_dec : RelDecision newerFirst.
Proof. intros a b. unfold newerFirst. apply _. Defined.

Definition findMany (users : list User.t) (skip take : Z) : list User.t * Z :=
  (List.firstn (Z.to_nat take)
     (List.skipn (Z.to_nat skip) (merge_sort newerFirst users)),
   Z.of_nat (List.length users)).

End Repository.

(** [bcrypt.hash(data, rounds)] of the [bcryptjs] package. *)
Class BcryptHash := {
  hash : string -> Z -> string
}.

(* ===================================================================== *)
(** * The rest of [UserService]: [services/userService.ts]                 *)
(* ===================================================================== *)

Module UserService2.
Section WithHash.
Context `{BcryptHash}.

Definition createUser (users : list User.t) (id : string) (now : Z)
    (userData : CreateUserInput.t)
    : Repository.result (list User.t * UserResponse.t) :=
  let hashedPassword := hash (CreateUserInput.password userData) 12 in
  if Repository.existsByEmail users (CreateUserInput.email userData) then
    inl (ThrownError (Js.newError "User with this email already exists"))
  else
    match Repository.create users id now
            (CreateUserInput.mk (CreateUserInput.email userData)
                                (CreateUserInput.name userData) hashedPassword) with
    | inl error => inl error
    | inr (users', user) => inr (users', userToResponse user)
    end.

Definition getUserById (users : list User.t) (id : string) : option UserResponse.t :=
  match Repository.findById users id with
  | Some user => Some (userToResponse user)
  | None => None
  end.

Definition getUserByEmail (users : list User.t) (email : string)
    : option UserResponse.t :=
  match UserRepository.findByEmail users email with
  | Some user => Some (userToResponse user)
  | None => None
  end.

Record Page := mkPage {
  users : list UserResponse.t;
  total : Z;
  totalPages : Z
}.

(** [Math.ceil(a / b)] for integers with [b] positive. *)
Definition ceilDiv (a b : Z) : Z := (a + b - 1) / b.

(** [getUsers(page = 1, limit = 10)] *)
Definition getUsers (store : list User.t) (page limit : option Z) : Page :=
  let page := default 1 page in
  let limit := default 10 limit in
  let page := if page <? 1 then 1 else page in
  let limit := if limit <? 1 then 10 else limit in
  let limit := if 100 <? limit then 100 else limit in
  let skip := (page - 1) * limit in
  let '(found, total) := Repository.findMany store skip limit in
  let totalPages := ceilDiv total limit in
  mkPage (map userToResponse found) total totalPages.

Definition updateUser (users : list User.t) (now : Z) (id : string)
    (userData : UpdateUserInput.t)
    : Repository.result (list User.t * UserResponse.t) :=
  if negb (Repository.existsById users id) then
    inl (ThrownError (Js.newError "User not found"))
  else
    let taken :=
      match UpdateUserInput.email userData with
      | Some e =>
          if Js.truthyString e then
            match UserRepository.findByEmail users e with
            | Some existingUser => negb (String.eqb (User.id existingUser) id)
            | None => false
            end
          else false
      | None => false
      end in
    if taken then
      inl (ThrownError (Js.newError "Email is already taken by another user"))
    else
      let updateData :=
        match UpdateUserInput.password userData with
        | Some p =>
            if Js.truthyString p then
              UpdateUserInput.mk (UpdateUserInput.name userData)
                                 (UpdateUserInput.email userData) (Some (hash p 12))
            else userData
        | None => userData
        end in
      match Repository.updateById users now id updateData with
      | inl error => inl error
      | inr (users', user) => inr (users', userToResponse user)
      end.

Definition deleteUser (users : list User.t) (id : string)
    : Repository.result (list User.t) :=
  if negb (Repository.existsById users id) then
    inl (ThrownError (Js.newError "User not found"))
  else Repository.deleteById users id.

Definition userExists (users : list User.t) (id : string) : bool :=
  Repository.existsById users id.

Definition userExistsByEmail (users : list User.t) (email : string) : bool :=
  Repository.existsByEmail users email.

End WithHash.
End UserService2.

(* ===================================================================== *)
(** * The other routes: [routes/auth.ts], [routes/users.ts]                *)
(* ===================================================================== *)

(** A middleware followed by what comes after it on the route. *)
Definition andThen {A} (m : Outcome) (k : Request.t -> A) (stop : Thrown -> A) : A :=
  match m with
  | Next req => k req
  | NextError error => stop error
  end.

Module routes2.

Record TokenPair := mkTokenPair { accessToken : string; refreshToken : string }.

Record RefreshBody := mkRefreshBody {
  refresh_success : bool;
  refresh_message : string;
  refresh_data : TokenPair
}.

(** [{ success, message?, data: { user } }] *)
Record UserBody := mkUserBody {
  user_success : bool;
  user_message : option string;
  user_data : UserResponse.t
}.

(** [{ success, message }] *)
Record MessageBody := mkMessageBody {
  message_success : bool;
  message_text : string
}.

Record Pagination := mkPagination {
  page : Z;
  limit : Z;
  total : Z;
  totalPages : Z;
  hasNext : bool;
  hasPrev : bool
}.

Record ListBody := mkListBody {
  list_success : bool;
  list_data : UserService2.Page;
  pagination : Pagination
}.

Section WithServices.
Context `{Jose} `{Bcrypt} `{BcryptHash}.
Variable config : Config.jwt.

(** The two tokens every issuing route signs, in this order. *)
Definition issueTokens (user : UserResponse.t) (clock : Z) : Js.result TokenPair :=
  let authContext := userToAuthContext user in
  let! accessToken := JWTUtils.generateToken config authContext clock in
  let! refreshToken := JWTUtils.generateRefreshToken config authContext clock in
  Js.ret (mkTokenPair accessToken refreshToken).

(** The handler of [POST /register]; [body] is [req.body] after
    [validateBody(registerSchema)].  The second component is the
    collection the handler leaves. *)
Definition register (users : list User.t) (id : string) (now : Z)
    (body : CreateUserInput.t) (clock : Z)
    : Reply routes.LoginBody * list User.t :=
  if UserService2.userExistsByEmail users (CreateUserInput.email body) then
    (Fail (ThrownAppError
       (AppError.newConflictError clock
          (Some "User with this email already exists") None None)), users)
  else
    match UserService2.createUser users id now body with
    | inl error => (Fail error, users)
    | inr (users', user) =>
        match issueTokens user clock with
        | inr tokens =>
            (Respond 201
               (routes.mkLoginBody true "User registered successfully"
                  (routes.mkLoginData user (accessToken tokens) (refreshToken tokens))),
             users')
        | inl error => (Fail (ThrownError error), users')
        end
    end.

(** The handler of [POST /refresh]; [token] is [req.body.refreshToken]
    after [validateBody(refreshTokenSchema)].  The payload
    [verifyRefreshToken] returns is an object, so the branch for a falsy
    payload is never taken. *)
Definition refresh (users : list User.t) (token : string) (clock : Z)
    : Reply RefreshBody :=
  match JWTUtils.verifyRefreshToken config token clock with
  | inl error => Fail (ThrownError error)
  | inr payload =>
      match UserService2.getUserById users (JWTPayload.userId payload) with
      | None =>
          Fail (ThrownAppError
            (AppError.newAuthError clock (Some "User not found") None None))
      | Some user =>
          match issueTokens user clock with
          | inr tokens =>
              Respond 200 (mkRefreshBody true "Token refreshed successfully" tokens)
          | inl error => Fail (ThrownError error)
          end
      end
  end.

(** [req.user?.userId], and the 401 every profile handler passes on when it
    is missing or empty. *)
Definition authenticatedId (req : Request.t) (clock : Z) : Thrown + string :=
  match Request.user req with
  | Some user =>
      if Js.truthyString (JWTPayload.userId user) then inr (JWTPayload.userId user)
      else inl (ThrownAppError
             (AppError.newAuthError clock (Some "User not authenticated") None None))
  | None =>
      inl (ThrownAppError
             (AppError.newAuthError clock (Some "User not authenticated") None None))
  end.

(** The handler of [GET /profile]. *)
Definition getProfile (users : list User.t) (req : Request.t) (clock : Z)
    : Reply UserBody :=
  match authenticatedId req clock with
  | inl error => Fail error
  | inr userId =>
      match UserService2.getUserById users userId with
      | None =>
          Fail (ThrownAppError
            (AppError.newAuthError clock (Some "User not found") None None))
      | Some user => Respond 200 (mkUserBody true None user)
      end
  end.

(** [GET /profile] with its middleware. *)
Definition getProfileRoute (users : list User.t) (req : Request.t) (clock : Z)
    : Reply UserBody :=
  andThen (auth.authenticateToken config req clock)
          (fun req => getProfile users req clock) Fail.

(** The handler of [PUT /profile]; [body] is [req.body] after
    [validateBody(updateProfileSchema)]. *)
Definition updateProfile (users : list User.t) (now : Z) (req : Request.t)
    (body : UpdateUserInput.t) (clock : Z) : Reply UserBody * list User.t :=
  match authenticatedId req clock with
  | inl error => (Fail error, users)
  | inr userId =>
      match UserService2.updateUser users now userId body with
      | inl error => (Fail error, users)
      | inr (users', user) =>
          (Respond 200 (mkUserBody true (Some "Profile updated successfully") user),
           users')
      end
  end.

(** The handler of [POST /logout]. *)
Definition logout (req : Request.t) (clock : Z) : Reply MessageBody :=
  match authenticatedId req clock with
  | inl error => Fail error
  | inr _ => Respond 200 (mkMessageBody true "Logout successful")
  end.

(** The first middleware of the writing routes of [routes/users.ts]:
    [nodeEnv] is [config.nodeEnv], [adminKey] is [req.headers['x-admin-key']]. *)
Definition adminGuard (nodeEnv : string) (adminKey : option string)
    (req : Request.t) (clock : Z) : Outcome :=
  if String.eqb nodeEnv "development"
     && bool_decide (adminKey = Some (Config.secret config))
  then Next req
  else auth.authenticateToken config req clock.

End WithServices.

(** [validatedQuery?.page || 1]: a number property unless missing or 0. *)
Definition numberOr (q : option (gmap string Js.Value)) (key : string)
    (fallback : Z) : Z :=
  match q with
  | Some o =>
      match o !! key with
      | Some (Js.VNumber (Js.Int n)) => if n =? 0 then fallback else n
      | _ => fallback
      end
  | None => fallback
  end.

(** The handler of [GET /] of [routes/users.ts]. *)
Definition listUsers (users : list User.t) (req : Request.t) : Reply ListBody :=
  let page := numberOr (Request.validatedQuery req) "page" 1 in
  let limit := numberOr (Request.validatedQuery req) "limit" 10 in
  let result := UserService2.getUsers users (Some page) (Some limit) in
  Respond 200
    (mkListBody true result
       (mkPagination page limit (UserService2.total result)
          (UserService2.totalPages result)
          (page <? UserService2.totalPages result) (1 <? page))).

(** [GET /] with its middleware. *)
Definition listUsersRoute (users : list User.t) (req : Request.t) (clock : Z)
    : Reply ListBody :=
  andThen (validation.validateQuery schemas.paginationSchema req clock)
          (listUsers users) Fail.

(** [const { id } = req.params; if (!id) ...]: the id, or the 400 the
    handlers pass on. *)
Definition requiredId (req : Request.t) (clock : Z) : Thrown + string :=
  match Js.get (Request.params req) "id" with
  | Js.VString id =>
      if Js.truthyString id then inr id
      else inl (ThrownAppError
             (AppError.newValidationError clock (Some "User ID is required")
                None None None))
  | _ =>
      inl (ThrownAppError
             (AppError.newValidationError clock (Some "User ID is required")
                None None None))
  end.

(** The handler of [GET /:id]. *)
Definition getUser (users : list User.t) (req : Request.t) (clock : Z)
    : Reply UserBody :=
  match requiredId req clock with
  | inl error => Fail error
  | inr id =>
      match UserService2.getUserById users id with
      | None =>
          Fail (ThrownAppError
            (AppError.newNotFoundError clock (Some "User") None None))
      | Some user => Respond 200 (mkUserBody true None user)
      end
  end.

(** [GET /:id] with its middleware. *)
Definition getUserRoute (users : list User.t) (req : Request.t) (clock : Z)
    : Reply UserBody :=
  andThen (validation2.validateMongoId (Some "id") req clock)
          (fun req => getUser users req clock) Fail.

Section WithHash.
Context `{BcryptHash}.

(** The handler of [POST /]; [body] is [req.body] after
    [validateBody(createUserSchema)]. *)
Definition createUser (users : list User.t) (id : string) (now : Z)
    (body : CreateUserInput.t) : Reply UserBody * list User.t :=
  match UserService2.createUser users id now body with
  | inl error => (Fail error, users)
  | inr (users', user) =>
      (Respond 201 (mkUserBody true (Some "User created successfully") user), users')
  end.

(** The handler of [PUT /:id]; [body] is [req.body] after
    [validateBody(updateUserSchema)]. *)
Definition updateUser (users : list User.t) (now : Z) (req : Request.t)
    (body : UpdateUserInput.t) (clock : Z) : Reply UserBody * list User.t :=
  match requiredId req clock with
  | inl error => (Fail error, users)
  | inr id =>
      if negb (UserService2.userExists users id) then
        (Fail (ThrownAppError
           (AppError.newNotFoundError clock (Some "User") None None)), users)
      else
        match UserService2.updateUser users now id body with
        | inl error => (Fail error, users)
        | inr (users', user) =>
            (Respond 200 (mkUserBody true (Some "User updated successfully") user),
             users')
        end
  end.

End WithHash.

(** The handler of [DELETE /:id]. *)
Definition deleteUser (users : list User.t) (req : Request.t) (clock : Z)
    : Reply MessageBody * list User.t :=
  match requiredId req clock with
  | inl error => (Fail error, users)
  | inr id =>
      if negb (UserService2.userExists users id) then
        (Fail (ThrownAppError
           (AppError.newNotFoundError clock (Some "User") None None)), users)
      else
        match UserService2.deleteUser users id with
        | inl error => (Fail error, users)
        | inr users' =>
            (Respond 200 (mkMessageBody true "User deleted successfully"), users')
        end
  end.

Section Guarded.
Context `{Jose}.
Variable config : Config.jwt.

(** [DELETE /:id] with its middleware: the guard, the id check, the
    handler. *)
Definition deleteUserRoute (nodeEnv : string) (adminKey : option string)
    (users : list User.t) (req : Request.t) (clock : Z)
    : Reply MessageBody * list User.t :=
  andThen (adminGuard config nodeEnv adminKey req clock)
    (fun req =>
       andThen (validation2.validateMongoId (Some "id") req clock)
         (fun req => deleteUser users req clock)
         (fun error => (Fail error, users)))
    (fun error => (Fail error, users)).

End Guarded.

End routes2.

(* ===================================================================== *)
(** * More of the reference instance                                       *)
(* ===================================================================== *)

Module Reference2.

(** A hash that is the password itself, which the reference comparison
    accepts. *)
#[export] Instance bcryptHash : BcryptHash := Build_BcryptHash (fun data _ => data).

(** No string is an email or a UUID but these. *)
#[export] Instance formats : ZodFormats :=
  Build_ZodFormats (fun s => String.eqb s "test@example.com")
                   (fun s => String.eqb s "123e4567-e89b-12d3-a456-426614174000").

Definition newUser : CreateUserInput.t :=
  CreateUserInput.mk "newuser@example.com" "New User" "password123".

End Reference2.

(* ===================================================================== *)
(** * Vocabulary of the further statements                                 *)
(* ===================================================================== *)

(** The keys of the collection are unique. *)
Definition uniqueIds (users : list User.t) : Prop := NoDup (map User.id users).
Definition uniqueEmails (users : list User.t) : Prop := NoDup (map User.email users).

(** The document [createUser] stores for [userData]. *)
Definition storedUser `{BcryptHash} (id : string) (now : Z)
    (userData : CreateUserInput.t) : User.t :=
  User.mk id (CreateUserInput.email userData)
          (Some (CreateUserInput.name userData))
          (hash (CreateUserInput.password userData) 12) now now.

(** What [bcryptjs] promises: a password matches its own hash. *)
Definition HashLaw `{Bcrypt} `{BcryptHash} : Prop :=
  forall data rounds, compare data (hash data rounds) = true.

(** The 409 the registration route passes on. *)
Definition emailConflict (clock : Z) : AppError.t :=
  AppError.mk AppError.ConflictError "User with this email already exists"
              409 true clock None None None.

(** The 404 the user routes pass on. *)
Definition userNotFound (clock : Z) : AppError.t :=
  AppError.mk AppError.NotFoundError "User not found" 404 true clock
              None None None.

(** What [updateUser] hands to the storage: [userData] with a non-empty
    password replaced by its hash. *)
Definition hashedUpdate `{BcryptHash} (userData : UpdateUserInput.t)
    : UpdateUserInput.t :=
  match UpdateUserInput.password userData with
  | Some p =>
      if Js.truthyString p then
        UpdateUserInput.mk (UpdateUserInput.name userData)
                           (UpdateUserInput.email userData) (Some (hash p 12))
      else userData
  | None => userData
  end.

(** Another user holds the non-empty email [userData] asks for. *)
Definition emailTaken (users : list User.t) (id : string)
    (userData : UpdateUserInput.t) : bool :=
  match UpdateUserInput.email userData with
  | Some e =>
      if Js.truthyString e then
        match UserRepository.findByEmail users e with
        | Some existingUser => negb (String.eqb (User.id existingUser) id)
        | None => false
        end
      else false
  | None => false
  end.

(** The three error names the [jsonwebtoken] package throws under. *)
Definition jwtErrorNames : list string :=
  [ "JsonWebTokenError"; "TokenExpiredError"; "NotBeforeError" ].

(** The message the global handler shows for an error that is neither an
    [AppError] nor a storage or token error. *)
Definition shownMessage (NODE_ENV : option string) (e : Js.Error) : string :=
  if bool_decide (NODE_ENV = Some "production") then "Something went wrong"
  else Js.message e.

(** A field error as a schema issue at the path of its parameter. *)
Definition fieldIssue (error : errorHandler2.FieldError) : z.ZodIssue :=
  z.mkIssue [z.Key (errorHandler2.param error)] (errorHandler2.msg error).

(** The messages [handlePrismaError] can give. *)
Definition storageMessages : list string :=
  [ "A record with this information already exists"; "Record not found";
    "Foreign key constraint failed"; "Invalid ID provided";
    "Invalid data provided"; "Database connection failed";
    "Database engine error"; "Database operation failed" ].

(** No parameter of the field errors names an inherited property. *)
Definition ownParams (errors : list errorHandler2.FieldError) : Prop :=
  Forall (fun error => Js.inherited (errorHandler2.param error) = false) errors.

(** The messages, in order, of the field errors of parameter [k]. *)
Definition messagesOf (k : string) (errors : list errorHandler2.FieldError)
    : list string :=
  errorHandler2.msg <$> filter (fun error => errorHandler2.param error = k) errors.

(** The 401 [requireRole] and [requireOwnership] pass on without an
    identity. *)
Definition authenticationRequired (clock : Z) : AppError.t :=
  AppError.mk AppError.AuthError "Authentication required" 401 true clock
              None None None.


(** A 401 of class [AuthError] with [message]. *)
Definition unauthorized (clock : Z) (message : string) : AppError.t :=
  AppError.mk AppError.AuthError message 401 true clock None None None.

(** No document has the empty id. *)
Definition properIds (users : list User.t) : Prop :=
  Forall (fun u => User.id u <> "") users.

(** The error [verifyRefreshToken] throws. *)
Definition refreshRejected : Js.Error :=
  Js.newError "Invalid or expired refresh token".

(** The 400 the validation gate passes on for one message at one key. *)
Definition invalidField (clock : Z) (req : Request.t) (k message : string)
    : AppError.t :=
  AppError.mk AppError.ValidationError "Validation failed" 400 true clock
              (AppError.ifTruthy (Some (Request.path req)))
              (AppError.ifTruthy (Some (Request.method req)))
              (Some {[ k := [message] ]}).

(** The collection without the document of [id]. *)
Definition without (id : string) (users : list User.t) : list User.t :=
  List.filter (fun u => negb (String.eqb (User.id u) id)) users.

(** What [DELETE /:id] answers when it deleted. *)
Definition deleted : Reply routes2.MessageBody :=
  Respond 200 (routes2.mkMessageBody true "User deleted successfully").


(** Where the validation gate leaves the parsed object. *)
Definition validatedData (source : validation.Source) (req : Request.t)
    : gmap string Js.Value :=
  match source with
  | validation.body => Request.body req
  | validation.query => default ∅ (Request.validatedQuery req)
  | validation.params => Request.params req
  end.




(** A second document of the reference collection, and the collection. *)
Definition otherUser : User.t :=
  User.mk "507f1f77bcf86cd799439012" "other@example.com" (Some "Other User")
          "otherPassword123" 1672617600000 1672617600000.

Definition twoUsers : list User.t := [Reference.mockUser; otherUser].


(** A listing whose query has a property the schema does not know. *)
Definition sortedListing : Request.t :=
  Request.mk None ∅
    {[ "page" := Js.VString "2"; "limit" := Js.VString "25";
       "sort" := Js.VString "asc" ]}
    ∅ "/api/v1/users" "GET" None None.

(** A request for the user of [id]. *)
Definition byId (authorization : option string) (id : string) : Request.t :=
  Reference.request authorization {[ "id" := Js.VString id ]} ∅.

(* ===================================================================== *)
(** * Vocabulary of the statements                                         *)
(* ===================================================================== *)

(** The claims of a token signed at [clock] for [ctx] with expiry [exp]. *)
Definition issuedClaims (ctx : UserAuthContext.t) (issuer audience : string)
    (clock exp : Z) : JWTPayload.t :=
  JWTPayload.mk (UserAuthContext.userId ctx) (UserAuthContext.email ctx)
                (Some (jwt.seconds clock)) (Some exp) None
                (Some audience) (Some issuer).

(** The compact serialization of [claims] signed under [key]. *)
Definition compact `{Jose} (key : string) (claims : JWTPayload.t) : string :=
  encode claims +:+ String "." (hs256 key (encode claims)).

(** The one error the strict middleware passes on. *)
Definition authenticationFailed (clock : Z) : AppError.t :=
  AppError.mk AppError.AuthError "Authentication failed" 401 true clock
              None None None.

(** The error the ownership check passes on for a foreign resource. *)
Definition accessDenied (clock : Z) : AppError.t :=
  AppError.mk AppError.AuthError
              "Access denied: You can only access your own resources"
              401 true clock None None None.

(** The error the login route passes on when [verifyPassword] returns null. *)
Definition invalidCredentials (clock : Z) : AppError.t :=
  AppError.mk AppError.AuthError "Invalid email or password" 401 true clock
              None None None.

(** The messages, in order, of the issues whose joined path is [k]. *)
Definition messagesAt (k : string) (issues : list z.ZodIssue) : list string :=
  z.message <$> filter (fun err => validation.joinPath (z.path err) = k) issues.

(** No issue sits at a path that names an inherited property. *)
Definition ownPaths (issues : list z.ZodIssue) : Prop :=
  Forall (fun err => Js.inherited (validation.joinPath (z.path err)) = false) issues.

(** The input a schema is run on, by source. *)
Definition sourceData (source : validation.Source) (req : Request.t)
    : gmap string Js.Value :=
  match source with
  | validation.body => Request.body req
  | validation.query => Request.query req
  | validation.params => Request.params req
  end.

(** What an optional numeric query parameter is coerced to before its range
    is checked: the fallback when absent or empty, [parseInt] of a
    non-empty string, nothing for a value that is not a string. *)
Definition coerced (fallback : Z) (v : Js.Value) : option Js.Number :=
  match v with
  | Js.VUndefined => Some (Js.Int fallback)
  | Js.VString s => Some (schemas.parseOr fallback (Some s))
  | _ => None
  end.

(** The tokens the reference user is given at the instant 1700000000000. *)
Definition accessOfMockUser `{Jose} : string :=
  compact "test-secret"
    (issuedClaims Reference.mockPayload "test-issuer" "test-audience"
                  1700000000000 1700003600).

Definition refreshOfMockUser `{Jose} : string :=
  compact "test-refresh-secret"
    (issuedClaims Reference.mockPayload "test-issuer" "test-audience"
                  1700000000000 1700604800).

(* ===================================================================== *)
(** * Properties                                                           *)
(* ===================================================================== *)

(** ** Strings *)

Lemma append_nil_l (s : string) : EmptyString +:+ s = s.
Proof. reflexivity. Qed.

Lemma append_cons (c : ascii) (s t : string) :
  String c s +:+ t = String c (s +:+ t).
Proof. reflexivity. Qed.

Lemma split_not_nil (sep : ascii) (s : string) : Js.split sep s <> [].
Proof.
  destruct s as [|c s]; simpl; [discriminate|].
  destruct (Ascii.eqb c sep); [discriminate|].
  destruct (Js.split sep s); discriminate.
Qed.

Lemma join_cons_cons (sep : ascii) (c : ascii) (w : string) (ws : list string) :
  Js.join sep (String c w :: ws) = String c (Js.join sep (w :: ws)).
Proof. destruct ws; reflexivity. Qed.

(** [split] cuts at separators only: joining the parts gives the string back. *)
Lemma join_split (sep : ascii) (s : string) : Js.join sep (Js.split sep s) = s.
Proof.
  induction s as [|c s IH]; simpl; [reflexivity|].
  destruct (Ascii.eqb_spec c sep) as [->|Hne].
  - pose proof (split_not_nil sep s) as Hnil.
    destruct (Js.split sep s) as [|w ws] eqn:E; [congruence|].
    change (Js.join sep (EmptyString :: w :: ws))
      with (EmptyString +:+ String sep (Js.join sep (w :: ws))).
    rewrite append_nil_l. now rewrite IH.
  - pose proof (split_not_nil sep s) as Hnil.
    destruct (Js.split sep s) as [|w ws] eqn:E; [congruence|].
    rewrite join_cons_cons. now rewrite IH.
Qed.

(** No part contains the separator. *)
Lemma split_free_of (sep : ascii) (s : string) :
  Forall (Js.free_of sep) (Js.split sep s).
Proof.
  induction s as [|c s IH]; simpl.
  - repeat constructor.
  - destruct (Ascii.eqb_spec c sep) as [->|Hne].
    + constructor; [exact I | exact IH].
    + destruct (Js.split sep s) as [|w ws]; [repeat constructor; assumption|].
      inversion IH; subst. constructor; [split; assumption | assumption].
Qed.

Lemma split_free (sep : ascii) (s : string) :
  Js.free_of sep s -> Js.split sep s = [s].
Proof.
  induction s as [|c s IH]; simpl; [reflexivity|].
  intros [Hne Hs]. destruct (Ascii.eqb_spec c sep); [contradiction|].
  now rewrite (IH Hs).
Qed.

Lemma split_append (sep : ascii) (a b : string) :
  Js.free_of sep a ->
  Js.split sep (a +:+ String sep b) = a :: Js.split sep b.
Proof.
  induction a as [|c a IH]; intros Ha.
  - rewrite append_nil_l. simpl. now rewrite Ascii.eqb_refl.
  - destruct Ha as [Hne Ha]. rewrite append_cons. simpl.
    destruct (Ascii.eqb_spec c sep); [contradiction|].
    now rewrite (IH Ha).
Qed.

Lemma split_two (sep : ascii) (s a b : string) :
  Js.split sep s = [a; b] <->
  s = a +:+ String sep b /\ Js.free_of sep a /\ Js.free_of sep b.
Proof.
  split.
  - intros E. pose proof (join_split sep s) as J.
    pose proof (split_free_of sep s) as F. rewrite E in J, F.
    apply Forall_cons_1 in F as [Fa F]. apply Forall_cons_1 in F as [Fb _].
    split; [symmetry; exact J | split; assumption].
  - intros (-> & Ha & Hb). rewrite (split_append _ _ _ Ha).
    now rewrite (split_free _ _ Hb).
Qed.

Lemma truthyString_false (s : string) : Js.truthyString s = false <-> s = EmptyString.
Proof. destruct s; simpl; split; congruence. Qed.

(** ** [JWTUtils.extractTokenFromHeader] *)

Lemma extractTokenFromHeader_required (authHeader : option string) :
  JWTUtils.extractTokenFromHeader authHeader
  = inl (Js.newError "Authorization header is required") <->
  authHeader = None \/ authHeader = Some "".
Proof.
  unfold JWTUtils.extractTokenFromHeader. split.
  - destruct authHeader as [[|c h]|]; [now right| |now left].
    simpl. destruct (Ascii.eqb c " ").
    + destruct (Js.split " " h) as [|p1 [|? ?]]; simpl; discriminate.
    + destruct (Js.split " " h) as [|p0 [|p1 [|? ?]]]; try discriminate.
      destruct (String.eqb (String c p0) "Bearer"); discriminate.
  - intros [->| ->]; reflexivity.
Qed.

Lemma extractTokenFromHeader_ok (authHeader : option string) (token : string) :
  JWTUtils.extractTokenFromHeader authHeader = inr token <->
  authHeader = Some ("Bearer " +:+ token) /\ Js.free_of " " token.
Proof.
  unfold JWTUtils.extractTokenFromHeader. split.
  - destruct authHeader as [h|]; [|discriminate].
    destruct (Js.truthyString h); simpl; [|discriminate].
    destruct (Js.split " " h) as [|p0 [|p1 [|? ?]]] eqn:E; try discriminate.
    destruct (String.eqb_spec p0 "Bearer") as [->|]; simpl; [|discriminate].
    intros [= ->]. apply split_two in E as (-> & _ & Ht). split; [reflexivity | exact Ht].
  - intros [-> Ht].
    assert (Js.truthyString ("Bearer " +:+ token) = true) as -> by reflexivity.
    assert (Js.split " " ("Bearer " +:+ token) = ["Bearer"; token]) as ->.
    { apply split_two. repeat split; try assumption; discriminate. }
    reflexivity.
Qed.

Lemma extractTokenFromHeader_errors (authHeader : option string) (e : Js.Error) :
  JWTUtils.extractTokenFromHeader authHeader = inl e ->
  e = Js.newError "Authorization header is required"
  \/ e = Js.newError "Invalid authorization header format".
Proof.
  unfold JWTUtils.extractTokenFromHeader.
  destruct authHeader as [h|]; [|intros [= <-]; now left].
  destruct (Js.truthyString h); simpl; [|intros [= <-]; now left].
  destruct (Js.split " " h) as [|p0 [|p1 [|? ?]]]; try (intros [= <-]; now right).
  destruct (String.eqb p0 "Bearer"); simpl; [discriminate | intros [= <-]; now right].
Qed.

(** ** The [jsonwebtoken] model *)

Lemma append_assoc (a b c : string) : (a +:+ b) +:+ c = a +:+ (b +:+ c).
Proof.
  induction a as [|x a IH]; [reflexivity|].
  rewrite !append_cons. now rewrite IH.
Qed.

Lemma isBase64Url_not_dot (c : ascii) : jwt.isBase64Url c = true -> c <> "."%char.
Proof. intros Hc ->. vm_compute in Hc. discriminate. Qed.

Lemma isBase64Url_not_space (c : ascii) :
  jwt.isBase64Url c = true -> Js.isWhiteSpace c = false.
Proof.
  destruct c as [[] [] [] [] [] [] [] []]; vm_compute; congruence.
Qed.

Lemma segmentTail_free (s : string) : jwt.segmentTail s = true -> Js.free_of "." s.
Proof.
  induction s as [|c s IH]; simpl; [trivial|].
  intros [Hc Hs]%andb_prop. split; [now apply isBase64Url_not_dot | auto].
Qed.

Lemma segment_free (s : string) : jwt.segment s = true -> Js.free_of "." s.
Proof. intros [_ Hs]%andb_prop. now apply segmentTail_free. Qed.

Lemma segment_truthy (s : string) : jwt.segment s = true -> Js.truthyString s = true.
Proof. now intros [Hs _]%andb_prop. Qed.

Lemma segment_hasSignature (s : string) :
  jwt.segment s = true -> Js.truthyString (Js.skipWhiteSpace s) = true.
Proof.
  destruct s as [|c s]; [discriminate|].
  intros [_ [Hc _]%andb_prop]%andb_prop. simpl.
  now rewrite (isBase64Url_not_space c Hc).
Qed.

Lemma timespan_truthy (time : string) (iat exp : Z) :
  jwt.timespan time iat = Some exp -> Js.truthyString time = true.
Proof.
  destruct time; [|reflexivity]. unfold jwt.timespan. simpl. discriminate.
Qed.

Section TokenService.
Context `{Jose} `{!jwt.Laws}.

Lemma split_compact (c : JWTPayload.t) (sig : string) :
  jwt.segment sig = true ->
  exists h p, encode c = h +:+ String "." p
              /\ Js.truthyString h = true
              /\ Js.split "." (encode c +:+ String "." sig) = [h; p; sig].
Proof.
  intros Hsig. destruct (jwt.encode_segments c) as (h & p & E & Hh & Hp).
  exists h, p. split; [exact E|]. split; [now apply segment_truthy|].
  rewrite E, append_assoc, append_cons.
  rewrite split_append by now apply segment_free.
  rewrite split_append by now apply segment_free.
  rewrite split_free by now apply segment_free. reflexivity.
Qed.

(** Verifying a compact serialization: the key must be present, the tag
    must match, and then the claims are checked. *)
Lemma verify_compact (c : JWTPayload.t) (sig key : string)
    (options : jwt.VerifyOptions) (clock : Z) :
  jwt.segment sig = true ->
  jwt.verify (encode c +:+ String "." sig) key options clock =
    if negb (Js.truthyString key) then
      inl (jwt.JsonWebTokenError "secret or public key must be provided")
    else if negb (String.eqb sig (hs256 key (encode c))) then
      inl (jwt.JsonWebTokenError "invalid signature")
    else jwt.checkClaims c options (jwt.seconds clock).
Proof.
  intros Hsig. destruct (split_compact c sig Hsig) as (h & p & E & Hh & S).
  unfold jwt.verify. rewrite S.
  assert (Js.truthyString (encode c +:+ String "." sig) = true) as ->.
  { rewrite E. destruct h; [discriminate|reflexivity]. }
  rewrite <- E, jwt.decode_encode, (segment_hasSignature _ Hsig).
  simpl. destruct (Js.truthyString key); reflexivity.
Qed.

(** Signing an identity: the token is the compact serialization of the
    issued claims, provided the key is present and the lifetime parses. *)
Lemma sign_identity (ctx : UserAuthContext.t) (key time issuer audience : string)
    (clock : Z) (token : string) :
  jwt.sign (JWTUtils.payloadOf ctx) key
           (jwt.mkSignOptions time issuer audience) clock = inr token <->
  Js.truthyString key = true /\
  exists exp, jwt.timespan time (jwt.seconds clock) = Some exp
              /\ token = compact key (issuedClaims ctx issuer audience clock exp).
Proof.
  unfold jwt.sign, compact, issuedClaims. simpl. split.
  - destruct (Js.truthyString key); simpl; [|discriminate].
    destruct (Js.truthyString time); simpl; [|discriminate].
    destruct (jwt.timespan time (jwt.seconds clock)) as [exp|]; [|discriminate].
    intros [= <-]. split; [reflexivity|]. now exists exp.
  - intros (-> & exp & Hexp & ->). simpl.
    rewrite (timespan_truthy _ _ _ Hexp), Hexp. reflexivity.
Qed.

End TokenService.

(** ** The reference instance meets the laws *)

Lemma charBit_bitChar (b : bool) : Reference.charBit (Reference.bitChar b) = b.
Proof. now destruct b. Qed.

Lemma getString_putString (s k : string) :
  Reference.getString (Reference.putString s k) = Some (s, k).
Proof.
  induction s as [|[b0 b1 b2 b3 b4 b5 b6 b7] s IH]; [reflexivity|].
  cbn [Reference.putString Reference.getString].
  rewrite IH. now rewrite !charBit_bitChar.
Qed.

Lemma getPositive_putPositive (p : positive) (k : string) :
  Reference.getPositive (Reference.putPositive p k) = Some (p, k).
Proof. induction p as [p IH|p IH|]; simpl; now rewrite ?IH. Qed.

Lemma getZ_putZ (n : Z) (k : string) :
  Reference.getZ (Reference.putZ n k) = Some (n, k).
Proof. destruct n; simpl; now rewrite ?getPositive_putPositive. Qed.

Lemma getOption_putOption {A} (put : A -> string -> string)
    (get : string -> option (A * string)) (o : option A) (k : string) :
  (forall a k, get (put a k) = Some (a, k)) ->
  Reference.getOption get (Reference.putOption put o k) = Some (o, k).
Proof. intros Hget. destruct o; simpl; now rewrite ?Hget. Qed.

Lemma getPayload_putPayload (c : JWTPayload.t) (k : string) :
  Reference.getPayload (Reference.putPayload c k) = Some (c, k).
Proof.
  destruct c. unfold Reference.getPayload, Reference.putPayload. simpl.
  rewrite !getString_putString.
  rewrite !(getOption_putOption _ _ _ _ getZ_putZ).
  rewrite !(getOption_putOption _ _ _ _ getString_putString).
  reflexivity.
Qed.

Lemma segmentTail_putString (s k : string) :
  jwt.segmentTail (Reference.putString s k) = jwt.segmentTail k.
Proof.
  induction s as [|[b0 b1 b2 b3 b4 b5 b6 b7] s IH]; [reflexivity|].
  cbn [Reference.putString jwt.segmentTail]. rewrite IH.
  now destruct b0, b1, b2, b3, b4, b5, b6, b7.
Qed.

Lemma segmentTail_putPositive (p : positive) (k : string) :
  jwt.segmentTail (Reference.putPositive p k) = jwt.segmentTail k.
Proof. induction p as [p IH|p IH|]; simpl; now rewrite ?IH. Qed.

Lemma segmentTail_putZ (n : Z) (k : string) :
  jwt.segmentTail (Reference.putZ n k) = jwt.segmentTail k.
Proof. destruct n; simpl; now rewrite ?segmentTail_putPositive. Qed.

Lemma segmentTail_putOption {A} (put : A -> string -> string) (o : option A) (k : string) :
  (forall a k, jwt.segmentTail (put a k) = jwt.segmentTail k) ->
  jwt.segmentTail (Reference.putOption put o k) = jwt.segmentTail k.
Proof. intros Hput. destruct o; simpl; now rewrite ?Hput. Qed.

Lemma putString_truthy (s k : string) :
  Js.truthyString (Reference.putString s k) = true.
Proof. now destruct s as [|[]]. Qed.

Lemma reference_laws : @jwt.Laws Reference.jose.
Proof.
  constructor.
  - intros c. simpl. unfold Reference.decode, Reference.encode.
    now rewrite getPayload_putPayload.
  - intros c. exists "h", (Reference.putPayload c EmptyString).
    split; [reflexivity|]. split; [reflexivity|].
    unfold jwt.segment, Reference.putPayload.
    rewrite putString_truthy, !segmentTail_putString.
    rewrite !(segmentTail_putOption _ _ _ segmentTail_putZ).
    rewrite !(segmentTail_putOption _ _ _ segmentTail_putString).
    reflexivity.
  - intros k m. simpl. unfold Reference.hs256, jwt.segment.
    cbn [Js.truthyString jwt.segmentTail andb].
    now rewrite segmentTail_putString.
Qed.

Lemma reference_perfect_mac : @jwt.PerfectMac Reference.jose.
Proof.
  intros k1 k2 Hne m E. apply Hne. simpl in E. unfold Reference.hs256 in E.
  injection E as E. apply (f_equal Reference.getString) in E.
  rewrite !getString_putString in E. congruence.
Qed.

(** ** Token service and strict middleware *)

Section TokenProperties.
Context `{Jose} `{!jwt.Laws}.
Variable config : Config.jwt.

Let verifyOptions : jwt.VerifyOptions :=
  jwt.mkVerifyOptions (Config.issuer config) (Config.audience config).

Lemma checkClaims_live (ctx : UserAuthContext.t) (issued exp now : Z) :
  now < exp ->
  jwt.checkClaims
    (issuedClaims ctx (Config.issuer config) (Config.audience config) issued exp)
    verifyOptions now
  = inr (issuedClaims ctx (Config.issuer config) (Config.audience config) issued exp).
Proof.
  intros Hlive. unfold jwt.checkClaims, issuedClaims, verifyOptions. simpl.
  destruct (Z.leb_spec exp now); [lia|].
  rewrite !bool_decide_eq_true_2 by reflexivity.
  simpl. now rewrite !andb_false_r.
Qed.

Lemma checkClaims_expired (ctx : UserAuthContext.t) (issued exp now : Z) :
  exp <= now ->
  jwt.checkClaims
    (issuedClaims ctx (Config.issuer config) (Config.audience config) issued exp)
    verifyOptions now
  = inl (jwt.TokenExpiredError "jwt expired").
Proof.
  intros Hexp. unfold jwt.checkClaims, issuedClaims. simpl.
  destruct (Z.leb_spec exp now); [reflexivity | lia].
Qed.

(** Verification of a token this service signed under [key], under the same
    key: the claims are checked. *)
Lemma verify_own (key : string) (c : JWTPayload.t) (clock : Z) :
  Js.truthyString key = true ->
  jwt.verify (compact key c) key verifyOptions clock
  = jwt.checkClaims c verifyOptions (jwt.seconds clock).
Proof.
  intros Hkey. unfold compact.
  rewrite verify_compact by apply jwt.hs256_segment.
  now rewrite Hkey, String.eqb_refl.
Qed.

(** Verification under a key whose tag differs: rejected before any claim
    is looked at. *)
Lemma verify_other (key key' : string) (c : JWTPayload.t) (clock : Z) :
  hs256 key (encode c) <> hs256 key' (encode c) ->
  exists e, jwt.verify (compact key c) key' verifyOptions clock = inl e.
Proof.
  intros Htag. unfold compact.
  rewrite verify_compact by apply jwt.hs256_segment.
  destruct (Js.truthyString key'); simpl; [|eauto].
  destruct (String.eqb_spec (hs256 key (encode c)) (hs256 key' (encode c)));
    [contradiction | simpl; eauto].
Qed.

Lemma verifyToken_error (token : string) (clock : Z) (e : Js.Error) :
  JWTUtils.verifyToken config token clock = inl e ->
  e = Js.newError "Invalid or expired token".
Proof.
  unfold JWTUtils.verifyToken, Js.try_catch.
  destruct (jwt.verify _ _ _ _); [intros [= <-]; reflexivity | discriminate].
Qed.

Lemma verifyRefreshToken_error (token : string) (clock : Z) (e : Js.Error) :
  JWTUtils.verifyRefreshToken config token clock = inl e ->
  e = Js.newError "Invalid or expired refresh token".
Proof.
  unfold JWTUtils.verifyRefreshToken, Js.try_catch.
  destruct (jwt.verify _ _ _ _); [intros [= <-]; reflexivity | discriminate].
Qed.

Lemma authenticateToken_cases (req : Request.t) (clock : Z) :
  (exists token payload,
      JWTUtils.extractTokenFromHeader (Request.authorization req) = inr token
      /\ JWTUtils.verifyToken config token clock = inr payload
      /\ auth.authenticateToken config req clock = Next (Request.setUser payload req))
  \/ ((forall token,
         JWTUtils.extractTokenFromHeader (Request.authorization req) = inr token ->
         exists e, JWTUtils.verifyToken config token clock = inl e)
      /\ auth.authenticateToken config req clock
         = NextError (ThrownAppError (authenticationFailed clock))).
Proof.
  unfold auth.authenticateToken.
  destruct (JWTUtils.extractTokenFromHeader (Request.authorization req)) as [e|token];
    simpl.
  - right. split; [discriminate | reflexivity].
  - destruct (JWTUtils.verifyToken config token clock) as [e|payload] eqn:V; simpl.
    + right. split; [|reflexivity]. intros ? [= <-]. eauto.
    + left. eauto.
Qed.

(** C1.  A token issued for an identity verifies, under the issuer that
    made it, to a payload with the same [userId] and [email]: for access
    tokens with [generateToken]/[verifyToken] and for refresh tokens with
    [generateRefreshToken]/[verifyRefreshToken].  The signing secret must
    be present, the configured lifetime must parse, and the clock at
    verification must be before the expiry the lifetime gives. *)
Theorem C1_token_round_trip (identity : UserAuthContext.t) (issued checked : Z) :
  (forall exp,
      Js.truthyString (Config.secret config) = true ->
      jwt.timespan (Config.expiresIn config) (jwt.seconds issued) = Some exp ->
      jwt.seconds checked < exp ->
      exists token payload,
        JWTUtils.generateToken config identity issued = inr token
        /\ JWTUtils.verifyToken config token checked = inr payload
        /\ JWTPayload.userId payload = UserAuthContext.userId identity
        /\ JWTPayload.email payload = UserAuthContext.email identity)
  /\ (forall exp,
      Js.truthyString (Config.refreshSecret config) = true ->
      jwt.timespan (Config.refreshExpiresIn config) (jwt.seconds issued) = Some exp ->
      jwt.seconds checked < exp ->
      exists token payload,
        JWTUtils.generateRefreshToken config identity issued = inr token
        /\ JWTUtils.verifyRefreshToken config token checked = inr payload
        /\ JWTPayload.userId payload = UserAuthContext.userId identity
        /\ JWTPayload.email payload = UserAuthContext.email identity).
Proof.
  split; intros exp Hkey Hexp Hlive.
  - exists (compact (Config.secret config)
              (issuedClaims identity (Config.issuer config) (Config.audience config)
                            issued exp)).
    eexists. split.
    { unfold JWTUtils.generateToken. apply sign_identity. eauto. }
    unfold JWTUtils.verifyToken.
    rewrite (verify_own _ _ _ Hkey), (checkClaims_live _ _ _ _ Hlive).
    repeat split.
  - exists (compact (Config.refreshSecret config)
              (issuedClaims identity (Config.issuer config) (Config.audience config)
                            issued exp)).
    eexists. split.
    { unfold JWTUtils.generateRefreshToken. apply sign_identity. eauto. }
    unfold JWTUtils.verifyRefreshToken.
    rewrite (verify_own _ _ _ Hkey), (checkClaims_live _ _ _ _ Hlive).
    repeat split.
Qed.

(** C4.  Secret isolation.  When the access secret and the refresh secret
    never give the same tag (as distinct secrets do under an ideal message
    authentication code), every token [generateToken] issues is rejected
    by [verifyRefreshToken], and every token [generateRefreshToken] issues
    is rejected by [verifyToken]. *)
Theorem C4_secret_isolation (identity : UserAuthContext.t) (issued checked : Z)
    (token : string) :
  jwt.Separated (Config.secret config) (Config.refreshSecret config) ->
  (JWTUtils.generateToken config identity issued = inr token ->
   JWTUtils.verifyRefreshToken config token checked
   = inl (Js.newError "Invalid or expired refresh token"))
  /\ (JWTUtils.generateRefreshToken config identity issued = inr token ->
      JWTUtils.verifyToken config token checked
      = inl (Js.newError "Invalid or expired token")).
Proof.
  intros Hsep. split; intros Hgen.
  - apply sign_identity in Hgen as (_ & exp & _ & ->).
    unfold JWTUtils.verifyRefreshToken.
    destruct (verify_other (Config.secret config) (Config.refreshSecret config)
                (issuedClaims identity (Config.issuer config) (Config.audience config)
                              issued exp) checked) as [e He]; [apply Hsep|].
    unfold verifyOptions in He. now rewrite He.
  - apply sign_identity in Hgen as (_ & exp & _ & ->).
    unfold JWTUtils.verifyToken.
    destruct (verify_other (Config.refreshSecret config) (Config.secret config)
                (issuedClaims identity (Config.issuer config) (Config.audience config)
                              issued exp) checked) as [e He].
    { intros E. exact (Hsep _ (eq_sym E)). }
    unfold verifyOptions in He. now rewrite He.
Qed.

(** C3.  Verification failure is uniform.
    (1) Every failure of [verifyToken] is the same error, whatever the
        token and the clock.
    (2) A token of this service whose expiry has passed is rejected by the
        library as expired, a well-formed token whose signature is not the
        tag of its content is rejected by the library for its signature,
        and [verifyToken] turns both into that one error.
    (3) Whenever the strict middleware does not pass the request on, for a
        missing header, a malformed header or a token that fails
        verification, it passes on one and the same [AuthError]: message
        [Authentication failed], status 401.
    (4) The responses the global handler renders for two such failures on
        the same route are equal. *)
Theorem C3_uniform_verification_failure :
  (forall token1 clock1 e1 token2 clock2 e2,
      JWTUtils.verifyToken config token1 clock1 = inl e1 ->
      JWTUtils.verifyToken config token2 clock2 = inl e2 ->
      e1 = e2)
  /\ (forall identity issued exp checked,
      Js.truthyString (Config.secret config) = true ->
      exp <= jwt.seconds checked ->
      let token := compact (Config.secret config)
                     (issuedClaims identity (Config.issuer config)
                                   (Config.audience config) issued exp) in
      jwt.verify token (Config.secret config) verifyOptions checked
      = inl (jwt.TokenExpiredError "jwt expired")
      /\ JWTUtils.verifyToken config token checked
         = inl (Js.newError "Invalid or expired token"))
  /\ (forall claims signature checked,
      Js.truthyString (Config.secret config) = true ->
      jwt.segment signature = true ->
      signature <> hs256 (Config.secret config) (encode claims) ->
      let token := encode claims +:+ String "." signature in
      jwt.verify token (Config.secret config) verifyOptions checked
      = inl (jwt.JsonWebTokenError "invalid signature")
      /\ JWTUtils.verifyToken config token checked
         = inl (Js.newError "Invalid or expired token"))
  /\ (forall req clock,
      (forall token,
          JWTUtils.extractTokenFromHeader (Request.authorization req) = inr token ->
          exists e, JWTUtils.verifyToken config token clock = inl e) ->
      auth.authenticateToken config req clock
      = NextError (ThrownAppError (authenticationFailed clock)))
  /\ (forall req clock error,
      auth.authenticateToken config req clock = NextError error ->
      error = ThrownAppError (authenticationFailed clock)
      /\ AppError.statusCode (authenticationFailed clock) = 401
      /\ AppError.message (authenticationFailed clock) = "Authentication failed")
  /\ (forall NODE_ENV handled clock req1 req2 error1 error2,
      Request.path req1 = Request.path req2 ->
      Request.method req1 = Request.method req2 ->
      auth.authenticateToken config req1 clock = NextError error1 ->
      auth.authenticateToken config req2 clock = NextError error2 ->
      errorHandler.globalErrorHandler NODE_ENV handled error1 req1
      = errorHandler.globalErrorHandler NODE_ENV handled error2 req2).
Proof.
  assert (Hfail : forall req clock error,
             auth.authenticateToken config req clock = NextError error ->
             error = ThrownAppError (authenticationFailed clock)).
  { intros req clock error E.
    destruct (authenticateToken_cases req clock) as [(t & p & _ & _ & E')|[_ E']];
      congruence. }
  split; [|split; [|split; [|split; [|split]]]].
  - intros token1 clock1 e1 token2 clock2 e2 E1 E2.
    apply verifyToken_error in E1, E2. congruence.
  - intros identity issued exp checked Hkey Hexp token. subst token.
    unfold JWTUtils.verifyToken. fold verifyOptions.
    rewrite (verify_own _ _ _ Hkey), checkClaims_expired by assumption.
    split; reflexivity.
  - intros claims signature checked Hkey Hsig Hforged token. subst token.
    unfold JWTUtils.verifyToken. fold verifyOptions.
    rewrite verify_compact by assumption. rewrite Hkey. simpl.
    destruct (String.eqb_spec signature (hs256 (Config.secret config) (encode claims)));
      [contradiction | split; reflexivity].
  - intros req clock Hbad.
    destruct (authenticateToken_cases req clock) as [(t & p & Ex & V & _)|[_ E]];
      [|exact E].
    destruct (Hbad t Ex) as [e He]. congruence.
  - intros req clock error E. split; [|split; reflexivity].
    eapply Hfail; eassumption.
  - intros NODE_ENV handled clock req1 req2 error1 error2 Hp Hm E1 E2.
    apply Hfail in E1, E2. subst.
    unfold errorHandler.globalErrorHandler. simpl. now rewrite Hp, Hm.
Qed.

End TokenProperties.

Section TokenRuns.
#[local] Existing Instance Reference.jose.

(** C1 on the configuration and identity of the token tests: issued at one
    instant, verified a minute later. *)
Lemma C1_token_round_trip_witness :
  (exists token payload,
      JWTUtils.generateToken Reference.config Reference.mockPayload 1700000000000
      = inr token
      /\ JWTUtils.verifyToken Reference.config token 1700000060000 = inr payload
      /\ JWTPayload.userId payload = "507f1f77bcf86cd799439011"
      /\ JWTPayload.email payload = "test@example.com")
  /\ (exists token payload,
      JWTUtils.generateRefreshToken Reference.config Reference.mockPayload 1700000000000
      = inr token
      /\ JWTUtils.verifyRefreshToken Reference.config token 1700000060000 = inr payload
      /\ JWTPayload.userId payload = "507f1f77bcf86cd799439011"
      /\ JWTPayload.email payload = "test@example.com").
Proof.
  destruct (@C1_token_round_trip Reference.jose reference_laws Reference.config
              Reference.mockPayload 1700000000000 1700000060000) as [Ha Hr].
  split.
  - apply (Ha (1700000000 + 3600)); reflexivity.
  - apply (Hr (1700000000 + 7 * 86400)); reflexivity.
Defined.

(** C4 on the configuration of the token tests. *)
Lemma C4_secret_isolation_witness :
  let access :=
    compact "test-secret"
      (issuedClaims Reference.mockPayload "test-issuer" "test-audience"
                    1700000000000 1700003600) in
  JWTUtils.generateToken Reference.config Reference.mockPayload 1700000000000
  = inr access
  /\ JWTUtils.verifyRefreshToken Reference.config access 1700000060000
     = inl (Js.newError "Invalid or expired refresh token").
Proof.
  intros access. split; [reflexivity|].
  apply (proj1 (@C4_secret_isolation Reference.jose reference_laws Reference.config
                  Reference.mockPayload 1700000000000 1700000060000 access
                  (reference_perfect_mac "test-secret" "test-refresh-secret"
                     ltac:(discriminate)))).
  reflexivity.
Defined.

(** C3 on the configuration of the token tests: a token checked two hours
    after it was issued with a lifetime of one hour. *)
Lemma C3_uniform_verification_failure_witness :
  let token :=
    compact "test-secret"
      (issuedClaims Reference.mockPayload "test-issuer" "test-audience"
                    1700000000000 1700003600) in
  jwt.verify token "test-secret"
             (jwt.mkVerifyOptions "test-issuer" "test-audience") 1700007200000
  = inl (jwt.TokenExpiredError "jwt expired")
  /\ JWTUtils.verifyToken Reference.config token 1700007200000
     = inl (Js.newError "Invalid or expired token").
Proof.
  intros token.
  apply (proj1 (proj2 (@C3_uniform_verification_failure Reference.jose reference_laws
                         Reference.config))
           Reference.mockPayload 1700000000000 1700003600 1700007200000).
  - reflexivity.
  - vm_compute. discriminate.
Defined.

End TokenRuns.

(** ** The header format [extractTokenFromHeader] accepts *)

(** C5, as the code has it.  [extractTokenFromHeader] returns a token
    exactly for the header values that are [Bearer], one space, and a token
    without a space in it; the token may be empty and may contain other
    white space.  A missing or empty header, and no other, fails with
    [Authorization header is required]; every other header that is not of
    that form fails with [Invalid authorization header format]. *)
Theorem C5_bearer_header_format :
  (forall authHeader token,
      JWTUtils.extractTokenFromHeader authHeader = inr token <->
      authHeader = Some ("Bearer " +:+ token) /\ Js.free_of " " token)
  /\ (forall authHeader,
      JWTUtils.extractTokenFromHeader authHeader
      = inl (Js.newError "Authorization header is required") <->
      authHeader = None \/ authHeader = Some "")
  /\ (forall authHeader,
      authHeader <> None -> authHeader <> Some "" ->
      ~ (exists token, authHeader = Some ("Bearer " +:+ token)
                       /\ Js.free_of " " token) ->
      JWTUtils.extractTokenFromHeader authHeader
      = inl (Js.newError "Invalid authorization header format")).
Proof.
  split; [exact extractTokenFromHeader_ok|].
  split; [exact extractTokenFromHeader_required|].
  intros authHeader Hsome Hfull Hform.
  destruct (JWTUtils.extractTokenFromHeader authHeader) as [e|token] eqn:E.
  - destruct (extractTokenFromHeader_errors _ _ E) as [->| ->]; [|reflexivity].
    apply extractTokenFromHeader_required in E as [?|?]; contradiction.
  - exfalso. apply Hform. exists token. now apply extractTokenFromHeader_ok.
Qed.

(** The header [Bearer ] with an empty token is accepted, and so is a token
    with a tab inside: the extractor neither fails on an empty token nor
    cuts at white space other than the space character. *)
Lemma C5_empty_token_is_extracted :
  JWTUtils.extractTokenFromHeader (Some "Bearer ") = inr ""
  /\ JWTUtils.extractTokenFromHeader
       (Some ("Bearer a" +:+ String (ascii_of_N 9) "b"))
     = inr ("a" +:+ String (ascii_of_N 9) "b").
Proof. split; reflexivity. Qed.

(** ** Ownership check *)

Lemma requireOwnership_unfold (userIdParam : option string) (req : Request.t)
    (clock : Z) (user : JWTPayload.t) :
  Request.user req = Some user ->
  auth.requireOwnership userIdParam req clock =
    if Js.stringStrictNe (JWTPayload.userId user)
         (Js.or (Js.get (Request.params req) (default "userId" userIdParam))
                (Js.get (Request.body req) (default "userId" userIdParam)))
    then NextError (ThrownAppError (accessDenied clock))
    else Next req.
Proof. intros Hu. unfold auth.requireOwnership. now rewrite Hu. Qed.

Lemma stringStrictNe_false (s : string) (v : Js.Value) :
  Js.stringStrictNe s v = false <-> v = Js.VString s.
Proof.
  destruct v; simpl; try (split; discriminate).
  destruct (String.eqb_spec s s0); simpl; split; congruence.
Qed.

Lemma get_missing (o : gmap string Js.Value) (k : string) :
  o !! k = None ->
  Js.get o k = Js.VUndefined \/ Js.get o k = Js.VObject "function".
Proof. intros E. unfold Js.get. rewrite E. destruct (Js.inherited k); auto. Qed.

(** C2, as the code has it.  When the authenticated [userId] differs from
    the resource id the check reads (the route parameter under the
    configured key if it is a non-empty string, otherwise the body value
    under that key), the check passes on an [AuthError] with status 401
    and message [Access denied: You can only access your own resources],
    whatever else the request carries, and the global handler answers 401
    with that message. *)
Theorem C2_ownership_mismatch_is_401 (userIdParam : option string)
    (req : Request.t) (clock : Z) (user : JWTPayload.t) (id : string) :
  Request.user req = Some user ->
  id <> JWTPayload.userId user ->
  (Js.get (Request.params req) (default "userId" userIdParam) = Js.VString id
   /\ id <> "")
  \/ (Js.truthy (Js.get (Request.params req) (default "userId" userIdParam)) = false
       /\ Js.get (Request.body req) (default "userId" userIdParam) = Js.VString id) ->
  auth.requireOwnership userIdParam req clock
  = NextError (ThrownAppError (accessDenied clock))
  /\ AppError.class (accessDenied clock) = AppError.AuthError
  /\ AppError.statusCode (accessDenied clock) = 401
  /\ AppError.message (accessDenied clock)
     = "Access denied: You can only access your own resources"
  /\ forall NODE_ENV handled,
      let response :=
        errorHandler.globalErrorHandler NODE_ENV handled
          (ThrownAppError (accessDenied clock)) req in
      errorHandler.status response = 401
      /\ errorHandler.message (errorHandler.error response)
         = "Access denied: You can only access your own resources".
Proof.
  intros Hu Hne Hid. split; [|repeat split].
  rewrite (requireOwnership_unfold _ _ _ _ Hu).
  assert (Js.or (Js.get (Request.params req) (default "userId" userIdParam))
                (Js.get (Request.body req) (default "userId" userIdParam))
          = Js.VString id) as ->.
  { unfold Js.or. destruct Hid as [[-> Hid]|[-> ->]]; [|reflexivity].
    destruct id; [contradiction | reflexivity]. }
  simpl. destruct (String.eqb_spec (JWTPayload.userId user) id); [congruence | reflexivity].
Qed.

(** C2 on the requests of the middleware tests: the id in the path is not
    the authenticated one. *)
Lemma C2_ownership_mismatch_is_401_witness :
  let user := JWTPayload.mk "507f1f77bcf86cd799439011" "test@example.com"
                            (Some 1234567890) (Some 1234567890) None None None in
  let req := Request.setUser user
               (Reference.request None
                  {[ "userId" := Js.VString "507f1f77bcf86cd799439012" ]} ∅) in
  auth.requireOwnership (Some "userId") req 0
  = NextError (ThrownAppError (accessDenied 0)).
Proof.
  intros user req.
  apply (C2_ownership_mismatch_is_401 (Some "userId") req 0 user
           "507f1f77bcf86cd799439012").
  - reflexivity.
  - discriminate.
  - left. split; [reflexivity | discriminate].
Defined.

(** The check does not produce status 403: on the request of the
    middleware test the error is an [AuthError] carrying 401, and so does
    the response. *)
Lemma C2_ownership_mismatch_is_not_403 :
  let user := JWTPayload.mk "507f1f77bcf86cd799439011" "test@example.com"
                            (Some 1234567890) (Some 1234567890) None None None in
  let req := Request.setUser user
               (Reference.request None
                  {[ "userId" := Js.VString "507f1f77bcf86cd799439012" ]} ∅) in
  exists e,
    auth.requireOwnership (Some "userId") req 0 = NextError (ThrownAppError e)
    /\ AppError.statusCode e = 401
    /\ AppError.statusCode e <> 403
    /\ AppError.class e <> AppError.AuthorizationError
    /\ errorHandler.status
         (errorHandler.globalErrorHandler None 0 (ThrownAppError e) req) <> 403.
Proof.
  intros user req. exists (accessDenied 0).
  split; [reflexivity|]. repeat split; discriminate.
Qed.

(** C10.  For a request with an authenticated identity the ownership check
    passes the request on exactly when the id it reads is the
    authenticated [userId]: the route parameter under the configured key
    when that is a non-empty string, and otherwise (parameter absent or
    falsy) the body value under that key.  When neither the route
    parameters nor the body have the key, the check fails; and whenever it
    fails it is with the access-denied error. *)
Theorem C10_ownership_only_on_match (userIdParam : option string)
    (req : Request.t) (clock : Z) (user : JWTPayload.t) :
  Request.user req = Some user ->
  let key := default "userId" userIdParam in
  let userId := JWTPayload.userId user in
  (auth.requireOwnership userIdParam req clock = Next req <->
   (Js.get (Request.params req) key = Js.VString userId /\ userId <> "")
   \/ (Js.truthy (Js.get (Request.params req) key) = false
        /\ Js.get (Request.body req) key = Js.VString userId))
  /\ (Request.params req !! key = None ->
      Request.body req !! key = None ->
      auth.requireOwnership userIdParam req clock
      = NextError (ThrownAppError (accessDenied clock)))
  /\ (auth.requireOwnership userIdParam req clock <> Next req ->
      auth.requireOwnership userIdParam req clock
      = NextError (ThrownAppError (accessDenied clock))).
Proof.
  intros Hu key userId. rewrite (requireOwnership_unfold _ _ _ _ Hu).
  fold key. fold userId.
  set (p := Js.get (Request.params req) key).
  set (b := Js.get (Request.body req) key).
  split; [|split].
  - destruct (Js.stringStrictNe userId (Js.or p b)) eqn:E.
    + split; [discriminate|]. intros Hid. exfalso.
      assert (Js.or p b = Js.VString userId) as Hor.
      { unfold Js.or. destruct Hid as [[-> Hid]|[-> ->]]; [|reflexivity].
        destruct userId; [contradiction | reflexivity]. }
      apply stringStrictNe_false in Hor. congruence.
    + split; [intros _ | reflexivity].
      apply stringStrictNe_false in E. unfold Js.or in E.
      destruct (Js.truthy p) eqn:T; [left | right; now split].
      split; [exact E|]. intros Hempty. rewrite E, Hempty in T. discriminate.
  - intros Hp Hb.
    destruct (get_missing _ _ Hp) as [Ep|Ep]; fold p in Ep; rewrite Ep;
      [|reflexivity].
    destruct (get_missing _ _ Hb) as [Eb|Eb]; fold b in Eb; unfold Js.or; simpl;
      rewrite Eb; reflexivity.
  - destruct (Js.stringStrictNe userId (Js.or p b)); [reflexivity | congruence].
Qed.

(** C10 on the request of the middleware test that supplies the id in the
    body only. *)
Lemma C10_ownership_only_on_match_witness :
  let user := JWTPayload.mk "507f1f77bcf86cd799439011" "test@example.com"
                            (Some 1234567890) (Some 1234567890) None None None in
  let req := Request.setUser user
               (Reference.request None ∅
                  {[ "userId" := Js.VString "507f1f77bcf86cd799439011" ]}) in
  auth.requireOwnership None req 0 = Next req.
Proof.
  intros user req.
  apply (proj1 (C10_ownership_only_on_match None req 0 user eq_refl)).
  right. split; reflexivity.
Defined.

(** ** Storage-fault translation *)

(** C6, as the code has it.  A known-request fault with code [P2002]
    becomes a 409 error with message
    [A record with this information already exists]; a known-request fault
    whose code is none of [P2002], [P2025], [P2003] and [P2014] becomes the
    default: status 500, message [Database operation failed],
    [isOperational] true.  The global handler answers with these statuses
    and messages. *)
Theorem C6_storage_fault_translation (clock : Z) (code message : string) :
  (code = "P2002" ->
   errorHandler.handlePrismaError clock (PrismaClientKnownRequestError code message)
   = AppError.mk AppError.AppError "A record with this information already exists"
                 409 true clock None None None)
  /\ (code <> "P2002" -> code <> "P2025" -> code <> "P2003" -> code <> "P2014" ->
      errorHandler.handlePrismaError clock (PrismaClientKnownRequestError code message)
      = AppError.mk AppError.AppError "Database operation failed"
                    500 true clock None None None)
  /\ (forall NODE_ENV req,
      let response :=
        errorHandler.globalErrorHandler NODE_ENV clock
          (PrismaClientKnownRequestError code message) req in
      (code = "P2002" ->
       errorHandler.status response = 409
       /\ errorHandler.message (errorHandler.error response)
          = "A record with this information already exists")
      /\ (code <> "P2002" -> code <> "P2025" -> code <> "P2003" -> code <> "P2014" ->
          errorHandler.status response = 500
          /\ errorHandler.message (errorHandler.error response)
             = "Database operation failed")).
Proof.
  assert (Hdefault : code <> "P2002" -> code <> "P2025" -> code <> "P2003" ->
                     code <> "P2014" ->
                     errorHandler.handlePrismaError clock
                       (PrismaClientKnownRequestError code message)
                     = AppError.mk AppError.AppError "Database operation failed"
                                   500 true clock None None None).
  { intros H1 H2 H3 H4. unfold errorHandler.handlePrismaError.
    destruct (String.eqb_spec code "P2002"); [contradiction|].
    destruct (String.eqb_spec code "P2025"); [contradiction|].
    destruct (String.eqb_spec code "P2003"); [contradiction|].
    destruct (String.eqb_spec code "P2014"); [contradiction|].
    reflexivity. }
  split; [intros ->; reflexivity|]. split; [exact Hdefault|].
  intros NODE_ENV req response. subst response. split.
  - intros ->. split; reflexivity.
  - intros H1 H2 H3 H4. unfold errorHandler.globalErrorHandler.
    rewrite (Hdefault H1 H2 H3 H4). split; reflexivity.
Qed.

(** C6 on the unique-constraint code and on a code no rule names. *)
Lemma C6_storage_fault_translation_witness :
  errorHandler.handlePrismaError 0 (PrismaClientKnownRequestError "P2002" "")
  = AppError.mk AppError.AppError "A record with this information already exists"
                409 true 0 None None None
  /\ errorHandler.handlePrismaError 0 (PrismaClientKnownRequestError "P2021" "")
     = AppError.mk AppError.AppError "Database operation failed"
                   500 true 0 None None None.
Proof.
  split.
  - apply (proj1 (C6_storage_fault_translation 0 "P2002" "")). reflexivity.
  - apply (proj1 (proj2 (C6_storage_fault_translation 0 "P2021" ""))); discriminate.
Defined.

(** The code [P2014] is matched by none of the unique-constraint,
    record-missing and foreign-key rules, yet it is not translated to the
    default: it becomes a 400 error with message [Invalid ID provided]. *)
Lemma C6_P2014_is_not_the_default :
  let e := errorHandler.handlePrismaError 0
             (PrismaClientKnownRequestError "P2014" "") in
  "P2014" <> "P2002" /\ "P2014" <> "P2025" /\ "P2014" <> "P2003"
  /\ AppError.statusCode e = 400
  /\ AppError.message e = "Invalid ID provided"
  /\ AppError.statusCode e <> 500
  /\ AppError.message e <> "Database operation failed".
Proof. intros e. repeat split; discriminate. Qed.

(** ** Validation gate *)

Lemma addIssue_own (details : gmap string (list string)) (err : z.ZodIssue) :
  Js.inherited (validation.joinPath (z.path err)) = false ->
  validation.addIssue details err
  = inr (<[validation.joinPath (z.path err) :=
             default [] (details !! validation.joinPath (z.path err))
             ++ [z.message err]]> details).
Proof.
  intros Hown. unfold validation.addIssue.
  destruct (details !! validation.joinPath (z.path err)); simpl; [reflexivity|].
  now rewrite Hown.
Qed.

Lemma messagesAt_cons (k : string) (err : z.ZodIssue) (issues : list z.ZodIssue) :
  messagesAt k (err :: issues)
  = if decide (validation.joinPath (z.path err) = k)
    then z.message err :: messagesAt k issues
    else messagesAt k issues.
Proof.
  unfold messagesAt. rewrite filter_cons.
  destruct (decide (validation.joinPath (z.path err) = k)); reflexivity.
Qed.

(** The loop that fills [details], started from any object: each key ends
    with what it had followed by the messages of its own issues, in order. *)
Lemma collectDetails_lookup (issues : list z.ZodIssue) :
  forall details0, ownPaths issues ->
  exists details,
    validation.collectDetails details0 issues = inr details
    /\ forall k, details !! k =
                 match details0 !! k, messagesAt k issues with
                 | Some ms0, ms => Some (ms0 ++ ms)
                 | None, [] => None
                 | None, ms => Some ms
                 end.
Proof.
  induction issues as [|err issues IH]; intros details0 Hown.
  - exists details0. split; [reflexivity|]. intros k.
    destruct (details0 !! k); [now rewrite app_nil_r | reflexivity].
  - apply Forall_cons_1 in Hown as [Herr Hown].
    cbn [validation.collectDetails]. rewrite (addIssue_own _ _ Herr).
    set (details1 := <[validation.joinPath (z.path err) := _]> details0).
    destruct (IH details1 Hown) as (details & Hc & Hk). exists details.
    split; [exact Hc|]. intros k. rewrite Hk, messagesAt_cons. subst details1.
    destruct (decide (validation.joinPath (z.path err) = k)) as [<-|Hne].
    + rewrite lookup_insert_eq.
      destruct (details0 !! validation.joinPath (z.path err)); simpl.
      * now rewrite <- app_assoc.
      * reflexivity.
    + rewrite lookup_insert_ne by assumption.
      destruct (details0 !! k); reflexivity.
Qed.

Lemma pageField (path : list z.PathSegment) (v : Js.Value) :
  z.asNumber schemas.pageSchema id path v =
    match coerced 1 v with
    | Some n =>
        if Js.gt n 0 then z.OK (Js.VNumber n)
        else z.DIRTY (Js.VNumber n) [z.mkIssue path "Page must be a positive integer"]
    | None => z.INVALID (z.issuesOf (z.string_ path v))
    end.
Proof.
  unfold z.asNumber, schemas.pageSchema, z.refine, z.transform, z.optional.
  destruct v as [| | |[]| |]; simpl; try reflexivity.
  destruct (Js.gt _ 0); reflexivity.
Qed.

Lemma limitField (path : list z.PathSegment) (v : Js.Value) :
  z.asNumber schemas.limitSchema id path v =
    match coerced 10 v with
    | Some n =>
        if Js.gt n 0 && Js.le n 100 then z.OK (Js.VNumber n)
        else z.DIRTY (Js.VNumber n) [z.mkIssue path "Limit must be between 1 and 100"]
    | None => z.INVALID (z.issuesOf (z.string_ path v))
    end.
Proof.
  unfold z.asNumber, schemas.limitSchema, z.refine, z.transform, z.optional.
  destruct v as [| | |[]| |]; simpl; try reflexivity.
  destruct (Js.gt _ 0 && Js.le _ 100); reflexivity.
Qed.

Lemma string_issue_path (path : list z.PathSegment) (v : Js.Value) :
  Forall (fun err => z.path err = path) (z.issuesOf (z.string_ path v)).
Proof. destruct v as [| | |[]| |]; simpl; repeat constructor. Qed.

(** The pagination schema, field by field. *)
Lemma paginationSchema_fields (data : gmap string Js.Value) :
  z.objectFields schemas.paginationSchema [] data =
    let page := z.asNumber schemas.pageSchema id [z.Key "page"] (Js.get data "page") in
    let limit := z.asNumber schemas.limitSchema id [z.Key "limit"] (Js.get data "limit") in
    match page, limit with
    | z.OK p, z.OK l => z.OK (z.setField data "page" p (z.setField data "limit" l ∅))
    | z.OK p, z.DIRTY l issues =>
        z.DIRTY (z.setField data "page" p (z.setField data "limit" l ∅)) issues
    | z.DIRTY p issues, z.OK l =>
        z.DIRTY (z.setField data "page" p (z.setField data "limit" l ∅)) issues
    | z.DIRTY p issues, z.DIRTY l issues' =>
        z.DIRTY (z.setField data "page" p (z.setField data "limit" l ∅))
                (issues ++ issues')
    | _, _ => z.INVALID (z.issuesOf page ++ z.issuesOf limit)
    end.
Proof.
  cbn [z.objectFields schemas.paginationSchema app].
  destruct (z.asNumber schemas.pageSchema id [z.Key "page"] (Js.get data "page"));
    destruct (z.asNumber schemas.limitSchema id [z.Key "limit"] (Js.get data "limit"));
    cbn [z.issuesOf]; rewrite ?app_nil_r; reflexivity.
Qed.

Lemma paginationSchema_ok (data o : gmap string Js.Value) :
  z.parse schemas.paginationSchema data = inr o <->
  exists p l,
    coerced 1 (Js.get data "page") = Some (Js.Int p)
    /\ coerced 10 (Js.get data "limit") = Some (Js.Int l)
    /\ 0 < p /\ 0 < l <= 100
    /\ o = {[ "page" := Js.VNumber (Js.Int p); "limit" := Js.VNumber (Js.Int l) ]}.
Proof.
  unfold z.parse. rewrite paginationSchema_fields, pageField, limitField.
  cbv zeta. split.
  - destruct (coerced 1 (Js.get data "page")) as [[|p]|];
      destruct (coerced 10 (Js.get data "limit")) as [[|l]|]; simpl;
      try discriminate;
      try (destruct (0 <? p); discriminate);
      try (destruct (0 <? l); simpl; try discriminate;
           destruct (l <=? 100); discriminate).
    destruct (Z.ltb_spec 0 p); [|destruct ((0 <? l) && (l <=? 100)); discriminate].
    destruct (Z.ltb_spec 0 l); simpl; [|discriminate].
    destruct (Z.leb_spec l 100); [|discriminate].
    intros [= <-]. exists p, l. repeat split; try assumption; try lia.
  - intros (p & l & -> & -> & Hp & [Hl Hl'] & ->). simpl.
    destruct (Z.ltb_spec 0 p); [|lia].
    destruct (Z.ltb_spec 0 l); [|lia].
    destruct (Z.leb_spec l 100); [|lia]. reflexivity.
Qed.

(** Every issue of the pagination schema sits at [page] or [limit]. *)
Lemma paginationSchema_issue_paths (data : gmap string Js.Value)
    (issues : list z.ZodIssue) :
  z.parse schemas.paginationSchema data = inl issues ->
  Forall (fun err => z.path err = [z.Key "page"] \/ z.path err = [z.Key "limit"]) issues.
Proof.
  unfold z.parse. rewrite paginationSchema_fields, pageField, limitField.
  cbv zeta.
  pose proof (string_issue_path [z.Key "page"] (Js.get data "page")) as Hp.
  pose proof (string_issue_path [z.Key "limit"] (Js.get data "limit")) as Hl.
  assert (Hp' : Forall (fun err => z.path err = [z.Key "page"] \/ z.path err = [z.Key "limit"])
                  (z.issuesOf (z.string_ [z.Key "page"] (Js.get data "page")))).
  { eapply Forall_impl; [exact Hp | auto]. }
  assert (Hl' : Forall (fun err => z.path err = [z.Key "page"] \/ z.path err = [z.Key "limit"])
                  (z.issuesOf (z.string_ [z.Key "limit"] (Js.get data "limit")))).
  { eapply Forall_impl; [exact Hl | auto]. }
  destruct (coerced 1 (Js.get data "page")) as [n|];
    destruct (coerced 10 (Js.get data "limit")) as [m|];
    try destruct (Js.gt n 0); try destruct (Js.gt m 0 && Js.le m 100);
    cbn [z.issuesOf]; intros [= <-];
    rewrite ?app_nil_l, ?app_nil_r;
    repeat (apply Forall_app; split); trivial;
    repeat match goal with
           | |- Forall _ (_ :: _) => constructor
           | |- Forall _ [] => constructor
           end; simpl; auto.
Qed.

Lemma paginationSchema_ownPaths (data : gmap string Js.Value)
    (issues : list z.ZodIssue) :
  z.parse schemas.paginationSchema data = inl issues -> ownPaths issues.
Proof.
  intros Hp. apply paginationSchema_issue_paths in Hp.
  eapply Forall_impl; [exact Hp|]. intros err [-> | ->]; reflexivity.
Qed.

Lemma validate_fails (schema : list (string * z.ZodType Js.Value))
    (source : validation.Source) (req : Request.t) (clock : Z)
    (issues : list z.ZodIssue) :
  z.parse schema (sourceData source req) = inl issues ->
  ownPaths issues ->
  exists details,
    validation.validate schema (Some source) req clock
    = NextError (ThrownAppError
        (AppError.mk AppError.ValidationError "Validation failed" 400 true clock
           (AppError.ifTruthy (Some (Request.path req)))
           (AppError.ifTruthy (Some (Request.method req)))
           (Some details)))
    /\ forall k, details !! k =
                 match messagesAt k issues with
                 | [] => None
                 | ms => Some ms
                 end.
Proof.
  intros Hparse Hown.
  destruct (collectDetails_lookup issues ∅ Hown) as (details & Hc & Hk).
  exists details. split.
  - unfold validation.validate. simpl.
    replace (match source with
             | validation.body => Request.body req
             | validation.query => Request.query req
             | validation.params => Request.params req
             end) with (sourceData source req) by now destruct source.
    now rewrite Hparse, Hc.
  - intros k. rewrite Hk, lookup_empty. reflexivity.
Qed.

Lemma messagesAt_elem (err : z.ZodIssue) (issues : list z.ZodIssue) :
  err ∈ issues ->
  z.message err ∈ messagesAt (validation.joinPath (z.path err)) issues.
Proof.
  intros Hin. unfold messagesAt. apply list_elem_of_fmap_2.
  apply list_elem_of_filter. split; [reflexivity | exact Hin].
Qed.

(** C7.  A failed validation is surfaced as one [ValidationError] with
    status 400 whose [details] maps each dot-joined path to the messages,
    in order, of exactly the issues at that path; so every issue's path is
    a key and holds that issue's message.  This holds for any schema whose
    issue paths do not name inherited properties, and in particular for
    every input of the pagination schema; for the query
    [{page: "-1", limit: "0"}] both [page] and [limit] are keys. *)
Theorem C7_every_failing_field_is_collected :
  (forall schema source req clock issues,
      z.parse schema (sourceData source req) = inl issues ->
      ownPaths issues ->
      exists details,
        validation.validate schema (Some source) req clock
        = NextError (ThrownAppError
            (AppError.mk AppError.ValidationError "Validation failed" 400 true clock
               (AppError.ifTruthy (Some (Request.path req)))
               (AppError.ifTruthy (Some (Request.method req)))
               (Some details)))
        /\ (forall k, details !! k =
                      match messagesAt k issues with
                      | [] => None
                      | ms => Some ms
                      end)
        /\ (forall err, err ∈ issues ->
              exists ms, details !! validation.joinPath (z.path err) = Some ms
                         /\ z.message err ∈ ms))
  /\ (forall data issues,
      z.parse schemas.paginationSchema data = inl issues -> ownPaths issues)
  /\ (forall req clock,
      Request.query req
      = {[ "page" := Js.VString "-1"; "limit" := Js.VString "0" ]} ->
      validation.validateQuery schemas.paginationSchema req clock
      = NextError (ThrownAppError
          (AppError.mk AppError.ValidationError "Validation failed" 400 true clock
             (AppError.ifTruthy (Some (Request.path req)))
             (AppError.ifTruthy (Some (Request.method req)))
             (Some {[ "page" := (["Page must be a positive integer"]);
                      "limit" := (["Limit must be between 1 and 100"]) ]})))).
Proof.
  split; [|split].
  - intros schema source req clock issues Hparse Hown.
    destruct (validate_fails schema source req clock issues Hparse Hown)
      as (details & Hv & Hk).
    exists details. split; [exact Hv|]. split; [exact Hk|].
    intros err Hin. apply messagesAt_elem in Hin. rewrite Hk.
    destruct (messagesAt (validation.joinPath (z.path err)) issues) as [|m ms].
    + inversion Hin.
    + eauto.
  - exact paginationSchema_ownPaths.
  - intros req clock Hq.
    unfold validation.validateQuery, validation.validate. simpl. rewrite Hq.
    assert (z.parse schemas.paginationSchema
              {[ "page" := Js.VString "-1"; "limit" := Js.VString "0" ]}
            = inl [ z.mkIssue [z.Key "page"] "Page must be a positive integer";
                    z.mkIssue [z.Key "limit"] "Limit must be between 1 and 100" ])
      as -> by reflexivity.
    assert (validation.collectDetails ∅
              [ z.mkIssue [z.Key "page"] "Page must be a positive integer";
                z.mkIssue [z.Key "limit"] "Limit must be between 1 and 100" ]
            = inr {[ "page" := (["Page must be a positive integer"]);
                     "limit" := (["Limit must be between 1 and 100"]) ]})
      as -> by reflexivity.
    reflexivity.
Qed.

(** C7 on the query of the validation tests, through the general part. *)
Lemma C7_every_failing_field_is_collected_witness :
  let req := Request.mk None ∅
               {[ "page" := Js.VString "-1"; "limit" := Js.VString "0" ]}
               ∅ "/api/v1/users" "GET" None None in
  exists details,
    validation.validate schemas.paginationSchema (Some validation.query) req 0
    = NextError (ThrownAppError
        (AppError.mk AppError.ValidationError "Validation failed" 400 true 0
           (Some "/api/v1/users") (Some "GET") (Some details)))
    /\ details !! "page" = Some ["Page must be a positive integer"]
    /\ details !! "limit" = Some ["Limit must be between 1 and 100"].
Proof.
  intros req.
  destruct (proj1 C7_every_failing_field_is_collected
              schemas.paginationSchema validation.query req 0
              [ z.mkIssue [z.Key "page"] "Page must be a positive integer";
                z.mkIssue [z.Key "limit"] "Limit must be between 1 and 100" ]
              eq_refl
              ltac:(repeat constructor))
    as (details & Hv & Hk & _).
  exists details. split; [exact Hv|]. split; rewrite Hk; reflexivity.
Defined.

(** A query whose page is zero is rejected. *)
Lemma paginationSchema_rejects_page_zero (o : gmap string Js.Value) :
  z.parse schemas.paginationSchema {[ "page" := Js.VString "0" ]} <> inr o.
Proof.
  intros Hparse. apply paginationSchema_ok in Hparse as (p & l & Hp & _ & Hpos & _).
  vm_compute in Hp. injection Hp as <-. lia.
Qed.


(** ** Login *)

Section Login.
Context `{Jose} `{Bcrypt}.
Variable config : Config.jwt.

Lemma verifyPassword_none (users : list User.t) (email password : string) :
  UserService.verifyPassword users email password = None <->
  UserRepository.findByEmail users email = None
  \/ exists user, UserRepository.findByEmail users email = Some user
                  /\ compare password (User.password user) = false.
Proof.
  unfold UserService.verifyPassword.
  destruct (UserRepository.findByEmail users email) as [user|]; [|tauto].
  destruct (compare password (User.password user)) eqn:E; simpl.
  - split; [discriminate|]. intros [?|(u & [= <-] & ?)]; congruence.
  - split; [|reflexivity]. intros _. right. eauto.
Qed.

(** C9.  [verifyPassword] returns null when no user has the email and when
    a user has it but the password does not match the stored hash (and in
    no other case); the login route then passes on the same [AuthError],
    status 401 and message [Invalid email or password], and the global
    handler renders the same response for both. *)
Theorem C9_login_failure_is_cause_blind
    (users1 users2 : list User.t) (input1 input2 : routes.LoginInput)
    (user : User.t) (clock : Z) :
  UserRepository.findByEmail users1 (routes.email input1) = None ->
  UserRepository.findByEmail users2 (routes.email input2) = Some user ->
  compare (routes.password input2) (User.password user) = false ->
  UserService.verifyPassword users1 (routes.email input1) (routes.password input1) = None
  /\ UserService.verifyPassword users2 (routes.email input2) (routes.password input2) = None
  /\ routes.login config users1 input1 clock
     = Fail (ThrownAppError (invalidCredentials clock))
  /\ routes.login config users2 input2 clock
     = Fail (ThrownAppError (invalidCredentials clock))
  /\ AppError.statusCode (invalidCredentials clock) = 401
  /\ AppError.message (invalidCredentials clock) = "Invalid email or password"
  /\ (forall users email password,
        UserService.verifyPassword users email password = None <->
        UserRepository.findByEmail users email = None
        \/ exists u, UserRepository.findByEmail users email = Some u
                     /\ compare password (User.password u) = false)
  /\ forall NODE_ENV handled req,
      let response :=
        errorHandler.globalErrorHandler NODE_ENV handled
          (ThrownAppError (invalidCredentials clock)) req in
      errorHandler.status response = 401
      /\ errorHandler.message (errorHandler.error response)
         = "Invalid email or password".
Proof.
  intros Hmissing Hfound Hwrong.
  assert (V1 : UserService.verifyPassword users1 (routes.email input1)
                 (routes.password input1) = None).
  { apply verifyPassword_none. now left. }
  assert (V2 : UserService.verifyPassword users2 (routes.email input2)
                 (routes.password input2) = None).
  { apply verifyPassword_none. right. eauto. }
  split; [exact V1|]. split; [exact V2|].
  split; [unfold routes.login; now rewrite V1|].
  split; [unfold routes.login; now rewrite V2|].
  split; [reflexivity|]. split; [reflexivity|].
  split; [exact verifyPassword_none|].
  intros NODE_ENV handled req response. subst response. split; reflexivity.
Qed.

End Login.

Section LoginRuns.
#[local] Existing Instance Reference.jose.
#[local] Existing Instance Reference.bcrypt.

(** C9 on a collection holding the user of the service tests: an unknown
    email, and the known email with a wrong password. *)
Lemma C9_login_failure_is_cause_blind_witness :
  routes.login Reference.config [Reference.mockUser]
    (routes.mkLoginInput "nobody@example.com" "password123") 0
  = Fail (ThrownAppError (invalidCredentials 0))
  /\ routes.login Reference.config [Reference.mockUser]
       (routes.mkLoginInput "test@example.com" "wrongPassword") 0
     = Fail (ThrownAppError (invalidCredentials 0)).
Proof.
  destruct (@C9_login_failure_is_cause_blind Reference.jose Reference.bcrypt
              Reference.config [Reference.mockUser] [Reference.mockUser]
              (routes.mkLoginInput "nobody@example.com" "password123")
              (routes.mkLoginInput "test@example.com" "wrongPassword")
              Reference.mockUser 0 eq_refl eq_refl eq_refl)
    as (_ & _ & L1 & L2 & _).
  split; [exact L1 | exact L2].
Defined.

End LoginRuns.

(** ** The repository's tests, replayed on the model *)

Section Replay.
#[local] Existing Instance Reference.jose.

(** [test/utils/jwt.test.ts], [extractTokenFromHeader] *)
Example extract_valid_header :
  JWTUtils.extractTokenFromHeader (Some "Bearer valid.jwt.token") = inr "valid.jwt.token".
Proof. reflexivity. Qed.

Example extract_invalid_format :
  JWTUtils.extractTokenFromHeader (Some "InvalidFormat token")
  = inl (Js.newError "Invalid authorization header format")
  /\ JWTUtils.extractTokenFromHeader (Some "Basic token")
     = inl (Js.newError "Invalid authorization header format")
  /\ JWTUtils.extractTokenFromHeader (Some "Bearer a b")
     = inl (Js.newError "Invalid authorization header format").
Proof. repeat split. Qed.

(** [test/utils/jwt.test.ts], [verifyToken] on a string that is no token *)
Example verify_invalid_token :
  JWTUtils.verifyToken Reference.config "invalid.token.here" 1700000000000
  = inl (Js.newError "Invalid or expired token")
  /\ JWTUtils.verifyRefreshToken Reference.config "invalid.refresh.token" 1700000000000
     = inl (Js.newError "Invalid or expired refresh token").
Proof. split; reflexivity. Qed.

(** The lifetimes of the default configuration, in seconds. *)
Example timespan_defaults :
  jwt.timespan "15m" 0 = Some 900 /\ jwt.timespan "7d" 0 = Some 604800
  /\ jwt.timespan "1h" 0 = Some 3600 /\ jwt.timespan "15" 0 = None.
Proof. repeat split. Qed.

Example parseInt_examples :
  Js.parseInt "25" = Js.Int 25 /\ Js.parseInt "-1" = Js.Int (-1)
  /\ Js.parseInt " 12abc" = Js.Int 12 /\ Js.parseInt "abc" = Js.NaN
  /\ Js.parseInt "1.5" = Js.Int 1.
Proof. repeat split. Qed.

(** [test/validation/schemas.test.ts], [paginationSchema] *)
Example pagination_valid :
  z.parse schemas.paginationSchema
    {[ "page" := Js.VString "100"; "limit" := Js.VString "50" ]}
  = inr {[ "page" := Js.VNumber (Js.Int 100); "limit" := Js.VNumber (Js.Int 50) ]}
  /\ z.parse schemas.paginationSchema {[ "limit" := Js.VString "20" ]}
     = inr {[ "page" := Js.VNumber (Js.Int 1); "limit" := Js.VNumber (Js.Int 20) ]}.
Proof. split; reflexivity. Qed.

Example pagination_limit_maximum :
  z.parse schemas.paginationSchema {[ "limit" := Js.VString "150" ]}
  = inl [ z.mkIssue [z.Key "limit"] "Limit must be between 1 and 100" ].
Proof. reflexivity. Qed.

(** [test/middleware/auth.test.ts], [requireOwnership] without an identity *)
Example ownership_unauthenticated :
  auth.requireOwnership (Some "userId")
    (Reference.request None {[ "userId" := Js.VString "507f1f77bcf86cd799439011" ]} ∅) 0
  = NextError (ThrownAppError
      (AppError.mk AppError.AuthError "Authentication required" 401 true 0
                   None None None)).
Proof. reflexivity. Qed.

End Replay.

(* ===================================================================== *)
(** * Further properties                                                   *)
(* ===================================================================== *)

#[local] Existing Instance Repository.newerFirst_dec.

(** ** The user collection *)

Lemma find_app_none {A} (f : A -> bool) (l1 l2 : list A) :
  List.find f l1 = None -> List.find f (l1 ++ l2) = List.find f l2.
Proof.
  induction l1 as [|a l1 IH]; simpl; [reflexivity|].
  destruct (f a); [discriminate | exact IH].
Qed.


Lemma findByEmail_none (users : list User.t) (email : string) :
  UserRepository.findByEmail users email = None <->
  email ∉ map User.email users.
Proof.
  unfold UserRepository.findByEmail.
  induction users as [|u users IH]; simpl.
  - split; [intros _ Hin; inversion Hin | reflexivity].
  - destruct (String.eqb_spec (User.email u) email) as [E|E].
    + split; [discriminate|]. intros Hn. exfalso. apply Hn. rewrite E. left.
    + rewrite IH. rewrite not_elem_of_cons. split; [intros; split; congruence | tauto].
Qed.

Lemma findByEmail_some (users : list User.t) (email : string) (u : User.t) :
  UserRepository.findByEmail users email = Some u ->
  u ∈ users /\ User.email u = email.
Proof.
  unfold UserRepository.findByEmail.
  induction users as [|v users IH]; simpl; [discriminate|].
  destruct (String.eqb_spec (User.email v) email) as [E|E].
  - intros [= <-]. split; [left | exact E].
  - intros Hf. destruct (IH Hf) as [Hin He]. split; [now right | exact He].
Qed.

Lemma findById_none (users : list User.t) (id : string) :
  Repository.findById users id = None <-> id ∉ map User.id users.
Proof.
  unfold Repository.findById.
  induction users as [|u users IH]; simpl.
  - split; [intros _ Hin; inversion Hin | reflexivity].
  - destruct (String.eqb_spec (User.id u) id) as [E|E].
    + split; [discriminate|]. intros Hn. exfalso. apply Hn. rewrite E. left.
    + rewrite IH. rewrite not_elem_of_cons. split; [intros; split; congruence | tauto].
Qed.

Lemma findById_some (users : list User.t) (id : string) (u : User.t) :
  Repository.findById users id = Some u -> u ∈ users /\ User.id u = id.
Proof.
  unfold Repository.findById.
  induction users as [|v users IH]; simpl; [discriminate|].
  destruct (String.eqb_spec (User.id v) id) as [E|E].
  - intros [= <-]. split; [left | exact E].
  - intros Hf. destruct (IH Hf) as [Hin He]. split; [now right | exact He].
Qed.

Lemma existsByEmail_false (users : list User.t) (email : string) :
  Repository.existsByEmail users email = false <->
  UserRepository.findByEmail users email = None.
Proof.
  unfold Repository.existsByEmail.
  destruct (UserRepository.findByEmail users email); split; congruence.
Qed.

Lemma existsById_false (users : list User.t) (id : string) :
  Repository.existsById users id = false <-> Repository.findById users id = None.
Proof.
  unfold Repository.existsById.
  destruct (Repository.findById users id); split; congruence.
Qed.

Section Accounts.
Context `{Bcrypt} `{BcryptHash}.

(** [createUser] in full: it fails exactly when the email is held or the
    storage rejects the id, and otherwise appends the stored document. *)
Lemma createUser_cases (users : list User.t) (id : string) (now : Z)
    (userData : CreateUserInput.t) :
  UserService2.createUser users id now userData =
    if Repository.existsByEmail users (CreateUserInput.email userData) then
      inl (ThrownError (Js.newError "User with this email already exists"))
    else if Repository.existsById users id then
      inl (PrismaClientKnownRequestError "P2002" "Unique constraint failed")
    else inr (users ++ [storedUser id now userData],
              userToResponse (storedUser id now userData)).
Proof.
  unfold UserService2.createUser, Repository.create, storedUser. simpl.
  destruct (Repository.existsByEmail users (CreateUserInput.email userData));
    [reflexivity|].
  destruct (Repository.existsById users id); reflexivity.
Qed.


(** X21.  A user just created can log in: [verifyPassword] with the email
    and the password given to [createUser] returns that user, provided a
    password matches its own hash. *)
Theorem X21_created_user_verifies (users users' : list User.t) (id : string)
    (now : Z) (userData : CreateUserInput.t) (created : UserResponse.t) :
  HashLaw ->
  UserService2.createUser users id now userData = inr (users', created) ->
  UserService.verifyPassword users' (CreateUserInput.email userData)
                             (CreateUserInput.password userData)
  = Some created.
Proof.
  intros Hlaw. rewrite createUser_cases.
  destruct (Repository.existsByEmail users (CreateUserInput.email userData)) eqn:Ee;
    [discriminate|].
  destruct (Repository.existsById users id) eqn:Ei; [discriminate|].
  intros [= <- <-]. apply existsByEmail_false in Ee.
  unfold UserService.verifyPassword, UserRepository.findByEmail in *.
  rewrite find_app_none by exact Ee. simpl. rewrite String.eqb_refl.
  unfold storedUser. simpl. now rewrite Hlaw.
Qed.

End Accounts.

Lemma existsb_false {A} (f : A -> bool) (l : list A) :
  existsb f l = false -> forall a, a ∈ l -> f a = false.
Proof.
  induction l as [|b l IH]; simpl; intros E a Hin; [inversion Hin|].
  apply orb_false_elim in E as [Eb El].
  apply elem_of_cons in Hin as [->|Hin]; [exact Eb | now apply IH].
Qed.

Lemma NoDup_map_filter {A B} (f : A -> B) (p : A -> bool) (l : list A) :
  NoDup (map f l) -> NoDup (map f (List.filter p l)).
Proof.
  induction l as [|a l IH]; simpl; [trivial|].
  intros Hnd. apply NoDup_cons in Hnd as [Hn Hnd].
  destruct (p a); simpl; [|now apply IH].
  apply NoDup_cons. split; [|now apply IH].
  intros Hin. apply Hn.
  apply list_elem_of_fmap in Hin as (b & Hb & Hin).
  apply list_elem_of_fmap. exists b. split; [exact Hb|].
  apply list_elem_of_In in Hin. apply filter_In in Hin as [Hin _].
  now apply list_elem_of_In.
Qed.

Lemma NoDup_map_eq {A B} (f : A -> B) (l : list A) (a b : A) :
  NoDup (map f l) -> a ∈ l -> b ∈ l -> f a = f b -> a = b.
Proof.
  induction l as [|c l IH]; simpl; intros Hnd Ha Hb E; [inversion Ha|].
  apply NoDup_cons in Hnd as [Hn Hnd].
  apply elem_of_cons in Ha as [->|Ha]; apply elem_of_cons in Hb as [->|Hb].
  - reflexivity.
  - exfalso. apply Hn. rewrite E. now apply list_elem_of_fmap_2.
  - exfalso. apply Hn. rewrite <- E. now apply list_elem_of_fmap_2.
  - now apply IH.
Qed.

(** Writing one new email over the documents with a given id keeps the
    emails distinct when no other document holds it. *)
Lemma NoDup_email_update (users : list User.t) (id e' : string) :
  uniqueIds users -> uniqueEmails users ->
  (forall u, u ∈ users -> User.email u = e' -> User.id u = id) ->
  NoDup (map (fun u => if String.eqb (User.id u) id then e' else User.email u) users).
Proof.
  unfold uniqueIds, uniqueEmails.
  induction users as [|u users IH]; simpl; intros Hid Hem Hown; [constructor|].
  apply NoDup_cons in Hid as [Hidu Hid]. apply NoDup_cons in Hem as [Hemu Hem].
  apply NoDup_cons. split.
  - intros Hin. apply list_elem_of_fmap in Hin as (v & Hv & Hin).
    destruct (String.eqb_spec (User.id u) id) as [Eu|Eu];
      destruct (String.eqb_spec (User.id v) id) as [Ev|Ev].
    + apply Hidu. apply list_elem_of_fmap. exists v. split; [congruence | exact Hin].
    + apply Ev. apply Hown; [now right | congruence].
    + apply Eu. apply Hown; [left | congruence].
    + apply Hemu. apply list_elem_of_fmap. exists v. split; [exact Hv | exact Hin].
  - apply IH; try assumption. intros v Hin. apply Hown. now right.
Qed.

Section Maintenance.
Context `{BcryptHash}.

Lemma updateUser_unfold (users : list User.t) (now : Z) (id : string)
    (userData : UpdateUserInput.t) :
  UserService2.updateUser users now id userData =
    if negb (Repository.existsById users id) then
      inl (ThrownError (Js.newError "User not found"))
    else if emailTaken users id userData then
      inl (ThrownError (Js.newError "Email is already taken by another user"))
    else
      match Repository.updateById users now id (hashedUpdate userData) with
      | inl error => inl error
      | inr (users', user) => inr (users', userToResponse user)
      end.
Proof. reflexivity. Qed.

Lemma hashedUpdate_email (userData : UpdateUserInput.t) :
  UpdateUserInput.email (hashedUpdate userData) = UpdateUserInput.email userData.
Proof.
  unfold hashedUpdate. destruct (UpdateUserInput.password userData) as [p|];
    [|reflexivity].
  now destruct (Js.truthyString p).
Qed.

Lemma hashedUpdate_name (userData : UpdateUserInput.t) :
  UpdateUserInput.name (hashedUpdate userData) = UpdateUserInput.name userData.
Proof.
  unfold hashedUpdate. destruct (UpdateUserInput.password userData) as [p|];
    [|reflexivity].
  now destruct (Js.truthyString p).
Qed.

(** A successful [updateUser], unfolded: the target exists, no other
    document holds the new email, and the documents with the id are
    replaced by the updated one. *)
Lemma updateUser_success (users users' : list User.t) (now : Z) (id : string)
    (userData : UpdateUserInput.t) (updated : UserResponse.t) :
  UserService2.updateUser users now id userData = inr (users', updated) ->
  exists user,
    Repository.findById users id = Some user
    /\ (forall e u, UpdateUserInput.email userData = Some e -> u ∈ users ->
          User.email u = e -> User.id u = id)
    /\ users' = map (fun u => if String.eqb (User.id u) id
                              then Repository.applyUpdate now (hashedUpdate userData) user
                              else u) users
    /\ updated = userToResponse
                   (Repository.applyUpdate now (hashedUpdate userData) user).
Proof.
  rewrite updateUser_unfold.
  destruct (Repository.existsById users id) eqn:Ex; simpl; [|discriminate].
  destruct (emailTaken users id userData); [discriminate|].
  unfold Repository.updateById.
  destruct (Repository.findById users id) as [user|] eqn:F; [|discriminate].
  rewrite hashedUpdate_email.
  destruct (match UpdateUserInput.email userData with
            | Some e => existsb _ users | None => false end) eqn:T; [discriminate|].
  intros [= <- <-]. exists user.
  split; [reflexivity|]. split; [|split; reflexivity].
  intros e u He Hin Hu. rewrite He in T.
  pose proof (existsb_false _ _ T u Hin) as Hf. simpl in Hf.
  rewrite <- Hu, String.eqb_refl in Hf. simpl in Hf.
  apply negb_false_iff in Hf. now apply String.eqb_eq.
Qed.

(** X22.  The unique keys of the collection are an invariant of the
    service: when ids and emails are pairwise distinct before a successful
    [createUser], [updateUser] or [deleteUser], they are afterwards. *)
Theorem X22_unique_keys_are_kept (users users' : list User.t) :
  uniqueIds users -> uniqueEmails users ->
  (forall id now userData created,
      UserService2.createUser users id now userData = inr (users', created) ->
      uniqueIds users' /\ uniqueEmails users')
  /\ (forall now id userData updated,
      UserService2.updateUser users now id userData = inr (users', updated) ->
      uniqueIds users' /\ uniqueEmails users')
  /\ (forall id,
      UserService2.deleteUser users id = inr users' ->
      uniqueIds users' /\ uniqueEmails users').
Proof.
  intros Hid Hem. split; [|split].
  - intros id now userData created. unfold UserService2.createUser, Repository.create.
    destruct (Repository.existsByEmail users (CreateUserInput.email userData)) eqn:Ee;
      [discriminate|].
    destruct (Repository.existsById users id) eqn:Ei; [discriminate|]. simpl.
    rewrite Ee. intros [= <- _].
    apply existsByEmail_false, findByEmail_none in Ee.
    apply existsById_false, findById_none in Ei.
    unfold uniqueIds, uniqueEmails. rewrite !map_app. simpl.
    split; apply NoDup_app; (split; [assumption|]);
      (split; [|apply NoDup_singleton]);
      intros x Hx Hin; apply list_elem_of_singleton in Hin; subst; contradiction.
  - intros now id userData updated Hu.
    apply updateUser_success in Hu as (user & F & Hown & -> & _).
    pose proof (hashedUpdate_email userData) as Hemail.
    set (written := hashedUpdate userData) in *.
    apply findById_some in F as [Hin Hidu].
    unfold uniqueIds, uniqueEmails. rewrite !map_map. split.
    + erewrite map_ext; [exact Hid|]. intros u. simpl.
      destruct (String.eqb_spec (User.id u) id); [simpl; congruence | reflexivity].
    + erewrite map_ext.
      * apply (NoDup_email_update users id
                 (default (User.email user) (UpdateUserInput.email written)));
          try assumption.
        intros u Hu He. rewrite Hemail in He.
        destruct (UpdateUserInput.email userData) as [e|] eqn:Ed; simpl in He.
        -- now apply (Hown e u).
        -- rewrite <- Hidu. f_equal.
           apply (NoDup_map_eq User.email users u user); assumption.
      * intros u. simpl. now destruct (String.eqb (User.id u) id).
  - intros id. unfold UserService2.deleteUser, Repository.deleteById.
    destruct (Repository.existsById users id); [|discriminate]. simpl.
    destruct (Repository.findById users id); [|discriminate].
    intros [= <-]. split; now apply NoDup_map_filter.
Qed.

End Maintenance.

Lemma findById_filter_other (users : list User.t) (id id' : string) :
  id' <> id ->
  Repository.findById
    (List.filter (fun u => negb (String.eqb (User.id u) id)) users) id'
  = Repository.findById users id'.
Proof.
  intros Hne. unfold Repository.findById.
  induction users as [|u users IH]; simpl; [reflexivity|].
  destruct (String.eqb_spec (User.id u) id) as [E|E]; simpl.
  - destruct (String.eqb_spec (User.id u) id'); [congruence | exact IH].
  - destruct (String.eqb (User.id u) id'); [reflexivity | exact IH].
Qed.

Lemma findById_filter_same (users : list User.t) (id : string) :
  Repository.findById
    (List.filter (fun u => negb (String.eqb (User.id u) id)) users) id = None.
Proof.
  unfold Repository.findById.
  induction users as [|u users IH]; simpl; [reflexivity|].
  destruct (String.eqb_spec (User.id u) id) as [E|E]; simpl; [exact IH|].
  destruct (String.eqb_spec (User.id u) id); [contradiction | exact IH].
Qed.

Lemma findById_map (users : list User.t) (g : User.t -> User.t) (id : string) :
  (forall u, User.id (g u) = User.id u) ->
  Repository.findById (map g users) id
  = match Repository.findById users id with
    | Some u => Some (g u)
    | None => None
    end.
Proof.
  intros Hg. unfold Repository.findById.
  induction users as [|u users IH]; simpl; [reflexivity|].
  rewrite Hg. destruct (String.eqb (User.id u) id); [reflexivity | exact IH].
Qed.

Section Maintenance2.
Context `{Bcrypt} `{BcryptHash}.

(** X23.  [deleteUser] fails with [User not found] exactly when no stored
    user has the id.  Otherwise the user is gone afterwards, every other
    id is looked up as before, and no document is added. *)
Theorem X23_deleteUser_removes (users : list User.t) (id : string) :
  (Repository.findById users id = None <->
   UserService2.deleteUser users id = inl (ThrownError (Js.newError "User not found")))
  /\ (forall users',
      UserService2.deleteUser users id = inr users' ->
      UserService2.getUserById users' id = None
      /\ UserService2.userExists users' id = false
      /\ (forall id', id' <> id ->
            UserService2.getUserById users' id' = UserService2.getUserById users id')
      /\ (List.length users' < List.length users)%nat)
  /\ (forall error,
      UserService2.deleteUser users id = inl error ->
      error = ThrownError (Js.newError "User not found")).
Proof.
  unfold UserService2.deleteUser, Repository.deleteById, Repository.existsById.
  destruct (Repository.findById users id) as [user|] eqn:F; simpl.
  - split; [split; discriminate|]. split; [|discriminate].
    intros users' [= <-].
    unfold UserService2.getUserById, UserService2.userExists, Repository.existsById.
    rewrite findById_filter_same. split; [reflexivity|]. split; [reflexivity|].
    split.
    + intros id' Hne. now rewrite findById_filter_other.
    + apply findById_some in F as [Hin Hid]. clear -Hin Hid.
      induction users as [|u users IH]; [inversion Hin|]. simpl.
      apply elem_of_cons in Hin as [<-|Hin].
      * rewrite Hid, String.eqb_refl. simpl.
        pose proof (List.filter_length_le
                      (fun u => negb (String.eqb (User.id u) id)) users). lia.
      * specialize (IH Hin).
        destruct (negb (String.eqb (User.id u) id)); simpl; lia.
  - split; [split; reflexivity|]. split; [discriminate|].
    now intros error [= <-].
Qed.

(** X24.  With unique ids and emails, [updateUser] fails with
    [Email is already taken by another user] exactly when the target
    exists and a different user holds the non-empty email asked for; a
    user may keep its own email.  Unless the email asked for is the empty
    string, [updateUser] fails in no other way than with this error or
    [User not found]: the storage's own faults are never reached. *)
Theorem X24_updateUser_email_conflict (users : list User.t) (now : Z)
    (id : string) (userData : UpdateUserInput.t) :
  uniqueIds users -> uniqueEmails users ->
  (UserService2.updateUser users now id userData
   = inl (ThrownError (Js.newError "Email is already taken by another user"))
   <-> is_Some (Repository.findById users id)
       /\ exists e other,
            UpdateUserInput.email userData = Some e /\ e <> ""
            /\ other ∈ users /\ User.email other = e /\ User.id other <> id)
  /\ (UpdateUserInput.email userData <> Some "" ->
      forall error,
        UserService2.updateUser users now id userData = inl error ->
        (error = ThrownError (Js.newError "User not found")
         /\ Repository.findById users id = None)
        \/ error = ThrownError (Js.newError "Email is already taken by another user")).
Proof.
  intros Hid Hem. rewrite updateUser_unfold. unfold Repository.existsById.
  destruct (Repository.findById users id) as [user|] eqn:F; simpl.
  2:{ split.
      - split; [discriminate|]. intros [[? Hs] _]. discriminate.
      - intros _ error [= <-]. left. split; reflexivity. }
  assert (Htaken : emailTaken users id userData = true <->
                   exists e other,
                     UpdateUserInput.email userData = Some e /\ e <> ""
                     /\ other ∈ users /\ User.email other = e
                     /\ User.id other <> id).
  { unfold emailTaken. destruct (UpdateUserInput.email userData) as [e|].
    2:{ split; [discriminate|]. intros (e & o & Hd & _). discriminate. }
    destruct e as [|c e]; simpl.
    { split; [discriminate|]. intros (e & o & [= <-] & Hne & _). contradiction. }
    destruct (UserRepository.findByEmail users (String c e)) as [existing|] eqn:Fe.
    - apply findByEmail_some in Fe as [Hin He]. split.
      + intros Hn. apply negb_true_iff, String.eqb_neq in Hn.
        exists (String c e), existing. repeat split; try assumption. discriminate.
      + intros (e' & other & [= <-] & _ & Hino & Heo & Hido).
        apply negb_true_iff, String.eqb_neq.
        rewrite (NoDup_map_eq User.email users existing other Hem Hin Hino);
          [exact Hido | congruence].
    - split; [discriminate|].
      intros (e' & other & [= <-] & _ & Hino & Heo & _).
      apply findByEmail_none in Fe. exfalso. apply Fe. rewrite <- Heo.
      now apply list_elem_of_fmap_2. }
  split.
  - destruct (emailTaken users id userData) eqn:T.
    + split; [|reflexivity]. intros _. split; [eauto|]. now apply Htaken.
    + split.
      * unfold Repository.updateById. rewrite F, hashedUpdate_email.
        destruct (match UpdateUserInput.email userData with
                  | Some e => existsb _ users | None => false end); discriminate.
      * intros [_ Ht]. apply Htaken in Ht. discriminate.
  - intros Hempty error. destruct (emailTaken users id userData) eqn:T.
    + intros [= <-]. now right.
    + unfold Repository.updateById. rewrite F, hashedUpdate_email.
      destruct (UpdateUserInput.email userData) as [e|] eqn:Ed; [|discriminate].
      destruct (existsb _ users) eqn:Ex; [|discriminate].
      exfalso. apply existsb_exists in Ex as (other & Hino & Hc).
      apply andb_prop in Hc as [He Hi].
      apply String.eqb_eq in He. apply negb_true_iff, String.eqb_neq in Hi.
      assert (false = true) as Habs; [|discriminate Habs].
      apply Htaken. exists e, other.
      repeat split; try assumption; [congruence | now apply list_elem_of_In].
Qed.

End Maintenance2.

(** ** Listing users *)


Lemma ceilDiv_bounds (a b : Z) :
  0 < b ->
  (UserService2.ceilDiv a b - 1) * b < a <= UserService2.ceilDiv a b * b.
Proof.
  intros Hb. unfold UserService2.ceilDiv.
  pose proof (Z.div_mod (a + b - 1) b ltac:(lia)) as Hdm.
  pose proof (Z.mod_pos_bound (a + b - 1) b Hb) as Hm. nia.
Qed.

Lemma ceilDiv_lt (a b p : Z) :
  0 < b -> (p < UserService2.ceilDiv a b <-> p * b < a).
Proof.
  intros Hb. pose proof (ceilDiv_bounds a b Hb) as [Hl Hu]. split; intros Hp; nia.
Qed.

Lemma merge_sort_length {A} (R : relation A) `{!RelDecision R} (l : list A) :
  List.length (merge_sort R l) = List.length l.
Proof. apply Permutation_length, merge_sort_Permutation. Qed.

(** The slice the storage returns for a page. *)
Lemma getUsers_unfold (store : list User.t) (page limit : option Z) :
  let p := if default 1 page <? 1 then 1 else default 1 page in
  let l0 := if default 10 limit <? 1 then 10 else default 10 limit in
  let l := if 100 <? l0 then 100 else l0 in
  UserService2.getUsers store page limit =
    UserService2.mkPage
      (map userToResponse
         (List.firstn (Z.to_nat l)
            (List.skipn (Z.to_nat ((p - 1) * l))
               (merge_sort Repository.newerFirst store))))
      (Z.of_nat (List.length store))
      (UserService2.ceilDiv (Z.of_nat (List.length store)) l).
Proof. reflexivity. Qed.


Lemma chunks_firstn {A} (k : nat) (xs : list A) (n : nat) :
  concat (map (fun i => List.firstn k (List.skipn (i * k) xs)) (seq 0 n))
  = List.firstn (n * k) xs.
Proof.
  induction n as [|n IH]; [reflexivity|].
  rewrite seq_S, map_app, concat_app, IH. simpl. rewrite app_nil_r.
  rewrite take_take_drop. f_equal. lia.
Qed.

(** X18.  The pages partition the collection: for a limit from 1 to 100,
    the users of pages 1 to [totalPages], one page after the other, are
    the whole collection, newest first, each user once. *)
Theorem X18_pages_cover_the_collection (store : list User.t) (limit : Z) :
  1 <= limit <= 100 ->
  let pages := Z.to_nat (UserService2.totalPages
                           (UserService2.getUsers store (Some 1) (Some limit))) in
  concat (map (fun i => UserService2.users
                          (UserService2.getUsers store
                             (Some (Z.of_nat i + 1)) (Some limit)))
              (seq 0 pages))
  = map userToResponse (merge_sort Repository.newerFirst store)
  /\ merge_sort Repository.newerFirst store ≡ₚ store.
Proof.
  intros Hl pages. split; [|apply merge_sort_Permutation].
  set (sorted := merge_sort Repository.newerFirst store).
  assert (Hpage : forall i : nat,
             UserService2.users
               (UserService2.getUsers store (Some (Z.of_nat i + 1)) (Some limit))
             = map userToResponse
                 (List.firstn (Z.to_nat limit)
                    (List.skipn (i * Z.to_nat limit) sorted))).
  { intros i. rewrite getUsers_unfold. cbv zeta. simpl.
    destruct (Z.ltb_spec (Z.of_nat i + 1) 1); [lia|].
    destruct (Z.ltb_spec limit 1); [lia|].
    destruct (Z.ltb_spec 100 limit); [lia|].
    do 3 f_equal. nia. }
  erewrite map_ext by (intros i; apply Hpage).
  assert (Hmap : forall ns,
             concat (map (fun i => map userToResponse
                                     (List.firstn (Z.to_nat limit)
                                        (List.skipn (i * Z.to_nat limit) sorted))) ns)
             = map userToResponse
                 (concat (map (fun i => List.firstn (Z.to_nat limit)
                                          (List.skipn (i * Z.to_nat limit) sorted)) ns))).
  { induction ns as [|i ns IH]; simpl; [reflexivity|]. now rewrite IH, map_app. }
  rewrite Hmap, chunks_firstn. f_equal.
  apply List.firstn_all2. subst pages sorted. rewrite merge_sort_length.
  rewrite getUsers_unfold. cbv zeta. simpl.
  destruct (Z.ltb_spec limit 1); [lia|].
  destruct (Z.ltb_spec 100 limit); [lia|].
  pose proof (ceilDiv_bounds (Z.of_nat (List.length store)) limit ltac:(lia)) as [Hlo Hu].
  assert (0 <= UserService2.ceilDiv (Z.of_nat (List.length store)) limit) by nia.
  nia.
Qed.

Lemma validateQuery_pagination_ok (req : Request.t) (clock : Z)
    (o : gmap string Js.Value) :
  z.parse schemas.paginationSchema (Request.query req) = inr o ->
  validation.validateQuery schemas.paginationSchema req clock
  = Next (Request.setValidatedQuery o req).
Proof.
  intros Hparse. unfold validation.validateQuery, validation.validate. simpl.
  now rewrite Hparse.
Qed.

(** X19.  [GET /users] after its query validation: when the query passes
    the pagination schema with page [p] and limit [l], the answer is 200,
    reports [p] and [l] unchanged, holds the slice of at most [l] users
    the service returns for them, says [hasNext] exactly when users remain
    beyond this page ([p * l] below the total) and [hasPrev] exactly when
    [p] is above 1.  When the query fails the schema the storage is not
    consulted: the route passes the validation error on. *)
Theorem X19_listUsers_pagination (users : list User.t) (req : Request.t) (clock : Z) :
  (forall o,
      z.parse schemas.paginationSchema (Request.query req) = inr o ->
      exists p l body,
        o = {[ "page" := Js.VNumber (Js.Int p); "limit" := Js.VNumber (Js.Int l) ]}
        /\ 1 <= p /\ 1 <= l <= 100
        /\ routes2.listUsersRoute users req clock = Respond 200 body
        /\ routes2.list_data body = UserService2.getUsers users (Some p) (Some l)
        /\ routes2.page (routes2.pagination body) = p
        /\ routes2.limit (routes2.pagination body) = l
        /\ routes2.total (routes2.pagination body) = Z.of_nat (List.length users)
        /\ (routes2.hasNext (routes2.pagination body) = true
            <-> p * l < Z.of_nat (List.length users))
        /\ (routes2.hasPrev (routes2.pagination body) = true <-> 1 < p)
        /\ Z.of_nat (List.length (UserService2.users (routes2.list_data body))) <= l)
  /\ (forall issues,
      z.parse schemas.paginationSchema (Request.query req) = inl issues ->
      exists e, routes2.listUsersRoute users req clock = Fail (ThrownAppError e)
                /\ AppError.statusCode e = 400
                /\ AppError.class e = AppError.ValidationError).
Proof.
  split.
  - intros o Hparse.
    pose proof (validateQuery_pagination_ok req clock o Hparse) as Hv.
    apply paginationSchema_ok in Hparse as (p & l & _ & _ & Hp & Hl & ->).
    exists p, l. eexists. split; [reflexivity|]. split; [lia|]. split; [lia|].
    unfold routes2.listUsersRoute, andThen. rewrite Hv.
    unfold routes2.listUsers.
    cbn [Request.validatedQuery Request.setValidatedQuery].
    assert (routes2.numberOr
              (Some {[ "page" := Js.VNumber (Js.Int p);
                       "limit" := Js.VNumber (Js.Int l) ]}) "page" 1 = p) as ->.
    { unfold routes2.numberOr. rewrite lookup_insert_eq.
      destruct (Z.eqb_spec p 0); [lia | reflexivity]. }
    assert (routes2.numberOr
              (Some {[ "page" := Js.VNumber (Js.Int p);
                       "limit" := Js.VNumber (Js.Int l) ]}) "limit" 10 = l) as ->.
    { unfold routes2.numberOr. rewrite lookup_insert_ne by discriminate.
      rewrite lookup_singleton_eq. destruct (Z.eqb_spec l 0); [lia | reflexivity]. }
    split; [reflexivity|].
    cbn [routes2.list_data routes2.pagination routes2.page routes2.limit
         routes2.total routes2.hasNext routes2.hasPrev].
    split; [reflexivity|]. split; [reflexivity|]. split; [reflexivity|].
    rewrite getUsers_unfold. cbv zeta.
    change (default 1 (Some p)) with p. change (default 10 (Some l)) with l.
    destruct (Z.ltb_spec p 1); [lia|].
    destruct (Z.ltb_spec l 1); [lia|].
    destruct (Z.ltb_spec 100 l); [lia|].
    cbn [UserService2.total UserService2.totalPages UserService2.users].
    split; [reflexivity|]. split; [|split].
    + rewrite Z.ltb_lt. apply ceilDiv_lt. lia.
    + apply Z.ltb_lt.
    + rewrite length_map, List.length_firstn. lia.
  - intros issues Hparse.
    destruct (validate_fails schemas.paginationSchema validation.query req clock
                issues Hparse (paginationSchema_ownPaths _ _ Hparse))
      as (details & Hv & _).
    eexists. unfold routes2.listUsersRoute, validation.validateQuery, andThen.
    rewrite Hv. split; [reflexivity|]. split; reflexivity.
Qed.

(** ** The global error handler *)

(** The response in terms of the [AppError] the handler settles on. *)
Lemma globalErrorHandler_shape (NODE_ENV : option string) (clock : Z)
    (error : Thrown) (req : Request.t) :
  exists appError,
    (forall e, error = ThrownAppError e -> appError = e)
    /\ errorHandler.globalErrorHandler NODE_ENV clock error req
       = errorHandler.mkErrorResponse (AppError.statusCode appError) false
           (errorHandler.mkErrorBody (AppError.message appError)
              (AppError.statusCode appError) (AppError.timestamp appError)
              (Some (default (Request.path req) (AppError.path appError)))
              (Some (default (Request.method req) (AppError.method appError)))
              (AppError.details appError))
           (if 500 <=? AppError.statusCode appError
            then errorHandler.LogError else errorHandler.LogWarn).
Proof.
  unfold errorHandler.globalErrorHandler.
  match goal with
  | |- context [match error with
                | ThrownAppError e => e
                | _ => _ end] =>
      set (appError := match error with ThrownAppError e => e | _ => _ end)
  end.
  exists appError. split; [intros e ->; reflexivity|].
  destruct appError as [c m s o t [p|] [q|] d]; reflexivity.
Qed.

(** X3.  Whatever is thrown, the response of the global handler is well
    formed: [success] is false, the HTTP status is the [statusCode] of the
    body, [path] and [method] are always present, and the error is logged
    at error severity exactly when the status is 500 or more.  An
    [AppError] keeps its message, status, timestamp and details, and its
    own path and method when it has them, the request's otherwise. *)
Theorem X3_error_response_is_well_formed (NODE_ENV : option string) (clock : Z)
    (error : Thrown) (req : Request.t) :
  let r := errorHandler.globalErrorHandler NODE_ENV clock error req in
  errorHandler.success r = false
  /\ errorHandler.status r = errorHandler.statusCode (errorHandler.error r)
  /\ is_Some (errorHandler.path (errorHandler.error r))
  /\ is_Some (errorHandler.method (errorHandler.error r))
  /\ (errorHandler.logged r = errorHandler.LogError <-> 500 <= errorHandler.status r)
  /\ (forall e, error = ThrownAppError e ->
        errorHandler.status r = AppError.statusCode e
        /\ errorHandler.message (errorHandler.error r) = AppError.message e
        /\ errorHandler.timestamp (errorHandler.error r) = AppError.timestamp e
        /\ errorHandler.details (errorHandler.error r) = AppError.details e
        /\ errorHandler.path (errorHandler.error r)
           = Some (default (Request.path req) (AppError.path e))
        /\ errorHandler.method (errorHandler.error r)
           = Some (default (Request.method req) (AppError.method e))).
Proof.
  intros r. subst r.
  destruct (globalErrorHandler_shape NODE_ENV clock error req) as (a & Ha & ->).
  cbn [errorHandler.success errorHandler.status errorHandler.error
       errorHandler.statusCode errorHandler.path errorHandler.method
       errorHandler.logged errorHandler.message errorHandler.timestamp
       errorHandler.details].
  split; [reflexivity|]. split; [reflexivity|].
  split; [eauto|]. split; [eauto|]. split.
  - destruct (Z.leb_spec 500 (AppError.statusCode a)); split;
      try reflexivity; try discriminate; lia.
  - intros e He. rewrite (Ha e He). repeat split; reflexivity.
Qed.

(** Membership in an explicit list. *)
Ltac in_list := unfold jwtErrorNames; rewrite ?elem_of_cons; auto 8.

Lemma name_not_jwt (e : Js.Error) :
  Js.name e ∉ jwtErrorNames ->
  String.eqb (Js.name e) "JsonWebTokenError"
  || String.eqb (Js.name e) "TokenExpiredError"
  || String.eqb (Js.name e) "NotBeforeError" = false.
Proof.
  intros Hn. unfold jwtErrorNames in Hn.
  destruct (String.eqb_spec (Js.name e) "JsonWebTokenError") as [E|_];
    [exfalso; apply Hn; rewrite E; in_list|].
  destruct (String.eqb_spec (Js.name e) "TokenExpiredError") as [E|_];
    [exfalso; apply Hn; rewrite E; in_list|].
  destruct (String.eqb_spec (Js.name e) "NotBeforeError") as [E|_];
    [exfalso; apply Hn; rewrite E; in_list|].
  reflexivity.
Qed.

Lemma globalErrorHandler_unknown (NODE_ENV : option string) (clock : Z)
    (e : Js.Error) (req : Request.t) :
  Js.name e ∉ jwtErrorNames ->
  errorHandler.globalErrorHandler NODE_ENV clock (ThrownError e) req
  = errorHandler.mkErrorResponse 500 false
      (errorHandler.mkErrorBody (shownMessage NODE_ENV e) 500 clock
         (Some (Request.path req)) (Some (Request.method req)) None)
      errorHandler.LogError.
Proof.
  intros Hn. unfold errorHandler.globalErrorHandler.
  rewrite (name_not_jwt e Hn). unfold AppError.new, AppError.construct, shownMessage.
  simpl.
  destruct (Js.truthyString (Request.path req));
    destruct (Js.truthyString (Request.method req)); reflexivity.
Qed.

(** X4.  An error that is neither an [AppError] nor a storage or token
    error is answered 500 and logged at error severity; its message is
    replaced by [Something went wrong] when [NODE_ENV] is [production] and
    is shown as it is in every other environment. *)
Theorem X4_unknown_errors_are_masked_in_production (NODE_ENV : option string)
    (clock : Z) (e : Js.Error) (req : Request.t) :
  Js.name e ∉ jwtErrorNames ->
  let r := errorHandler.globalErrorHandler NODE_ENV clock (ThrownError e) req in
  errorHandler.status r = 500
  /\ errorHandler.logged r = errorHandler.LogError
  /\ errorHandler.details (errorHandler.error r) = None
  /\ (NODE_ENV = Some "production" ->
      errorHandler.message (errorHandler.error r) = "Something went wrong")
  /\ (NODE_ENV <> Some "production" ->
      errorHandler.message (errorHandler.error r) = Js.message e).
Proof.
  intros Hn r. subst r. rewrite (globalErrorHandler_unknown _ _ _ _ Hn).
  cbn [errorHandler.status errorHandler.logged errorHandler.error
       errorHandler.details errorHandler.message]. unfold shownMessage.
  split; [reflexivity|]. split; [reflexivity|]. split; [reflexivity|].
  split; intros Hp.
  - now rewrite bool_decide_eq_true_2.
  - now rewrite bool_decide_eq_false_2.
Qed.

(** X4 on a plain [Error] in production. *)
Lemma X4_unknown_errors_are_masked_in_production_witness :
  errorHandler.message
    (errorHandler.error
       (errorHandler.globalErrorHandler (Some "production") 0
          (ThrownError (Js.newError "connect ECONNREFUSED"))
          (Reference.request None ∅ ∅)))
  = "Something went wrong".
Proof.
  apply (X4_unknown_errors_are_masked_in_production (Some "production") 0
           (Js.newError "connect ECONNREFUSED") (Reference.request None ∅ ∅)).
  - unfold jwtErrorNames. simpl. rewrite !elem_of_cons, elem_of_nil.
    intros [E|[E|[E|[]]]]; discriminate E.
  - reflexivity.
Defined.

Lemma checkClaims_error_name (payload : JWTPayload.t) (options : jwt.VerifyOptions)
    (now : Z) (e : Js.Error) :
  jwt.checkClaims payload options now = inl e -> Js.name e ∈ jwtErrorNames.
Proof.
  unfold jwt.checkClaims, jwtErrorNames.
  repeat match goal with
         | |- (if ?c then _ else _) = _ -> _ => destruct c
         end; intros [= <-]; simpl; in_list.
Qed.

Lemma verify_error_name `{Jose} (token key : string) (options : jwt.VerifyOptions)
    (clock : Z) (e : Js.Error) :
  jwt.verify token key options clock = inl e -> Js.name e ∈ jwtErrorNames.
Proof.
  unfold jwt.verify.
  destruct (Js.truthyString token); simpl; [|intros [= <-]; simpl; in_list].
  destruct (Js.split "." token) as [|h [|p [|s [|? ?]]]];
    try (intros [= <-]; simpl; in_list).
  match goal with |- context [decode ?x] => destruct (decode x) end;
    [|intros [= <-]; simpl; in_list].
  repeat match goal with
         | |- (if ?c then _ else _) = _ -> _ =>
             destruct c; [intros [= <-]; simpl; in_list|]
         end.
  apply checkClaims_error_name.
Qed.

Lemma globalErrorHandler_jwt (NODE_ENV : option string) (clock : Z)
    (e : Js.Error) (req : Request.t) :
  Js.name e ∈ jwtErrorNames ->
  errorHandler.globalErrorHandler NODE_ENV clock (ThrownError e) req
  = errorHandler.mkErrorResponse 401 false
      (errorHandler.mkErrorBody
         (if String.eqb (Js.name e) "TokenExpiredError" then "Token expired"
          else if String.eqb (Js.name e) "NotBeforeError" then "Token not active"
          else "Invalid token")
         401 clock (Some (Request.path req)) (Some (Request.method req)) None)
      errorHandler.LogWarn.
Proof.
  destruct e as [n m]. unfold jwtErrorNames. simpl.
  rewrite !elem_of_cons, elem_of_nil. intros [->|[->|[->|[]]]]; reflexivity.
Qed.

(** X5.  An error the [jsonwebtoken] package throws, when it reaches the
    global handler unwrapped, is answered 401 with a message that tells the
    cause: [Token expired] for an expired token, [Token not active] for one
    not yet valid, [Invalid token] for every other defect.  The errors
    [verifyToken] and [verifyRefreshToken] throw instead are plain errors:
    the handler answers them 500. *)
Theorem X5_token_errors_at_the_handler `{Jose} (config : Config.jwt)
    (NODE_ENV : option string) (handled : Z) (req : Request.t)
    (token key : string) (options : jwt.VerifyOptions) (clock : Z) :
  (forall e,
      jwt.verify token key options clock = inl e ->
      let r := errorHandler.globalErrorHandler NODE_ENV handled (ThrownError e) req in
      errorHandler.status r = 401
      /\ errorHandler.message (errorHandler.error r)
         = (if String.eqb (Js.name e) "TokenExpiredError" then "Token expired"
            else if String.eqb (Js.name e) "NotBeforeError" then "Token not active"
            else "Invalid token"))
  /\ (forall e,
      JWTUtils.verifyToken config token clock = inl e
      \/ JWTUtils.verifyRefreshToken config token clock = inl e ->
      errorHandler.status
        (errorHandler.globalErrorHandler NODE_ENV handled (ThrownError e) req) = 500).
Proof.
  split.
  - intros e He r. subst r. apply verify_error_name in He.
    rewrite (globalErrorHandler_jwt _ _ _ _ He). split; reflexivity.
  - intros e [He|He].
    + apply verifyToken_error in He as ->.
      now rewrite globalErrorHandler_unknown
        by (unfold jwtErrorNames; simpl; rewrite !elem_of_cons, elem_of_nil;
            intros [E|[E|[E|[]]]]; discriminate E).
    + apply verifyRefreshToken_error in He as ->.
      now rewrite globalErrorHandler_unknown
        by (unfold jwtErrorNames; simpl; rewrite !elem_of_cons, elem_of_nil;
            intros [E|[E|[E|[]]]]; discriminate E).
Qed.

(** X6.  The translation of a storage fault never shows the fault's own
    message: the result depends on the class of the fault and, for a
    known-request fault, on its code only.  Its message is one of eight
    fixed texts, its status is 400, 404, 409 or 500, it is operational,
    and it carries neither path, method nor details. *)
Theorem X6_storage_faults_do_not_leak (clock : Z) :
  (forall error,
      let e := errorHandler.handlePrismaError clock error in
      AppError.message e ∈ storageMessages
      /\ AppError.statusCode e ∈ [400; 404; 409; 500]
      /\ AppError.isOperational e = true
      /\ AppError.class e = AppError.AppError
      /\ AppError.timestamp e = clock
      /\ AppError.path e = None /\ AppError.method e = None
      /\ AppError.details e = None)
  /\ (forall code m1 m2,
      errorHandler.handlePrismaError clock (PrismaClientKnownRequestError code m1)
      = errorHandler.handlePrismaError clock (PrismaClientKnownRequestError code m2))
  /\ (forall m1 m2,
      errorHandler.handlePrismaError clock (PrismaClientValidationError m1)
      = errorHandler.handlePrismaError clock (PrismaClientValidationError m2)
      /\ errorHandler.handlePrismaError clock (PrismaClientInitializationError m1)
         = errorHandler.handlePrismaError clock (PrismaClientInitializationError m2)
      /\ errorHandler.handlePrismaError clock (PrismaClientRustPanicError m1)
         = errorHandler.handlePrismaError clock (PrismaClientRustPanicError m2)).
Proof.
  split; [|split; [reflexivity | intros; repeat split; reflexivity]].
  intros error e. subst e. unfold storageMessages.
  destruct error as [a|code m|m|m|m|a]; simpl;
    try solve [repeat split; rewrite ?elem_of_cons; auto 12].
  destruct (String.eqb code "P2002");
    [repeat split; rewrite ?elem_of_cons; auto 12|].
  destruct (String.eqb code "P2025");
    [repeat split; rewrite ?elem_of_cons; auto 12|].
  destruct (String.eqb code "P2003");
    [repeat split; rewrite ?elem_of_cons; auto 12|].
  destruct (String.eqb code "P2014");
    repeat split; rewrite ?elem_of_cons; auto 12.
Qed.

Lemma groupErrors_collect (errors : list errorHandler2.FieldError)
    (details : gmap string (list string)) :
  ownParams errors ->
  errorHandler2.groupErrors details errors
  = validation.collectDetails details (map fieldIssue errors).
Proof.
  revert details. induction errors as [|error errors IH]; intros details Hown;
    [reflexivity|].
  apply Forall_cons_1 in Hown as [Herr Hown].
  cbn [errorHandler2.groupErrors validation.collectDetails map].
  assert (errorHandler2.addFieldError details error
          = validation.addIssue details (fieldIssue error)) as ->.
  { unfold errorHandler2.addFieldError, validation.addIssue.
    change (validation.joinPath (z.path (fieldIssue error)))
      with (errorHandler2.param error).
    destruct (details !! errorHandler2.param error); [reflexivity|].
    now rewrite Herr. }
  destruct (validation.addIssue details (fieldIssue error)); simpl;
    [reflexivity | now apply IH].
Qed.

Lemma messagesAt_fieldIssue (k : string) (errors : list errorHandler2.FieldError) :
  messagesAt k (map fieldIssue errors) = messagesOf k errors.
Proof.
  induction errors as [|error errors IH]; [reflexivity|].
  cbn [map]. rewrite messagesAt_cons, IH.
  change (validation.joinPath (z.path (fieldIssue error)))
    with (errorHandler2.param error).
  unfold messagesOf. rewrite filter_cons.
  destruct (decide (errorHandler2.param error = k)); reflexivity.
Qed.

(** X7.  [handleValidationError] gathers field errors as the validation
    gate gathers schema issues: the result is one [ValidationError] with
    status 400 whose [details] maps each parameter to the messages of its
    own errors, in order, and has no other key, provided no parameter
    names an inherited property; when the first error's parameter does,
    the function throws a [TypeError] instead. *)
Theorem X7_field_errors_are_grouped (clock : Z)
    (errors : list errorHandler2.FieldError) :
  (ownParams errors ->
   exists details,
     errorHandler2.handleValidationError clock errors
     = inr (AppError.mk AppError.ValidationError "Validation failed" 400 true
              clock None None (Some details))
     /\ (forall k, details !! k =
                   match messagesOf k errors with
                   | [] => None
                   | ms => Some ms
                   end)
     /\ validation.collectDetails ∅ (map fieldIssue errors) = inr details)
  /\ (forall error rest,
      errors = error :: rest ->
      Js.inherited (errorHandler2.param error) = true ->
      exists e, errorHandler2.handleValidationError clock errors = inl e
                /\ Js.name e = "TypeError").
Proof.
  split.
  - intros Hown.
    assert (Hown' : ownPaths (map fieldIssue errors)).
    { unfold ownPaths, ownParams in *. apply Forall_fmap.
      eapply Forall_impl; [exact Hown|]. intros error He. exact He. }
    destruct (collectDetails_lookup _ ∅ Hown') as (details & Hc & Hk).
    exists details. unfold errorHandler2.handleValidationError.
    rewrite groupErrors_collect, Hc by exact Hown.
    split; [reflexivity|]. split; [|reflexivity].
    intros k. rewrite Hk, lookup_empty, messagesAt_fieldIssue. reflexivity.
  - intros error rest -> Hin.
    unfold errorHandler2.handleValidationError.
    cbn [errorHandler2.groupErrors]. unfold errorHandler2.addFieldError.
    rewrite lookup_empty, Hin. simpl. eauto.
Qed.

(** X7 on two errors of one field and one of another. *)
Lemma X7_field_errors_are_grouped_witness :
  exists details,
    errorHandler2.handleValidationError 0
      [ errorHandler2.mkFieldError "too short" "password";
        errorHandler2.mkFieldError "invalid" "email";
        errorHandler2.mkFieldError "no digit" "password" ]
    = inr (AppError.mk AppError.ValidationError "Validation failed" 400 true
             0 None None (Some details))
    /\ details !! "password" = Some ["too short"; "no digit"]
    /\ details !! "email" = Some ["invalid"]
    /\ details !! "name" = None.
Proof.
  destruct (proj1 (X7_field_errors_are_grouped 0
              [ errorHandler2.mkFieldError "too short" "password";
                errorHandler2.mkFieldError "invalid" "email";
                errorHandler2.mkFieldError "no digit" "password" ])
              ltac:(repeat constructor))
    as (details & He & Hk & _).
  exists details. split; [exact He|]. rewrite !Hk. repeat split.
Defined.

(** X8.  An error made by [createErrorResponse] is rendered as given: the
    global handler answers with its status (500 when none is given), its
    message and its details, for the path and method of the request. *)
Theorem X8_createErrorResponse_is_rendered (NODE_ENV : option string)
    (clock handled : Z) (message : string) (statusCode : option Z)
    (details : option (gmap string (list string))) (req : Request.t) :
  errorHandler.globalErrorHandler NODE_ENV handled
    (ThrownAppError
       (errorHandler2.createErrorResponse clock message statusCode details)) req
  = errorHandler.mkErrorResponse (default 500 statusCode) false
      (errorHandler.mkErrorBody message (default 500 statusCode) clock
         (Some (Request.path req)) (Some (Request.method req)) details)
      (if 500 <=? default 500 statusCode
       then errorHandler.LogError else errorHandler.LogWarn).
Proof.
  destruct (globalErrorHandler_shape NODE_ENV handled
              (ThrownAppError
                 (errorHandler2.createErrorResponse clock message statusCode details))
              req) as (a & Ha & ->).
  rewrite (Ha _ eq_refl). unfold errorHandler2.createErrorResponse.
  destruct details; reflexivity.
Qed.

(** ** Optional authentication, roles and the admin guard *)

Section Middleware.
Context `{Jose}.
Variable config : Config.jwt.

Lemma optionalAuth_strict (req : Request.t) (clock : Z) :
  match auth.authenticateToken config req clock with
  | Next req' => auth.optionalAuth config req clock = Next req'
  | NextError _ => auth.optionalAuth config req clock = Next req
  end.
Proof.
  unfold auth.optionalAuth, auth.authenticateToken.
  destruct (Request.authorization req) as [[|c h]|]; try reflexivity.
  cbn [Js.truthyString].
  destruct (Js.bind (JWTUtils.extractTokenFromHeader (Some (String c h))) _);
    reflexivity.
Qed.

(** X1.  [optionalAuth] never passes an error on.  Where the strict
    middleware would pass the request on with an identity, it does the
    same; where the strict middleware would fail, for a missing or empty
    header as for a bad token, it passes the request on untouched. *)
Theorem X1_optionalAuth_never_fails (req : Request.t) (clock : Z) :
  (forall error, auth.optionalAuth config req clock <> NextError error)
  /\ (forall req',
      auth.authenticateToken config req clock = Next req' ->
      auth.optionalAuth config req clock = Next req')
  /\ (forall error,
      auth.authenticateToken config req clock = NextError error ->
      auth.optionalAuth config req clock = Next req).
Proof.
  pose proof (optionalAuth_strict req clock) as Hs.
  destruct (auth.authenticateToken config req clock) as [r|e]; rewrite Hs.
  - split; [discriminate|]. split; [trivial | discriminate].
  - split; [discriminate|]. split; [discriminate | reflexivity].
Qed.

(** X2.  On a request that carries no identity yet, [optionalAuth]
    followed by [requireRole] lets through exactly the requests the strict
    middleware lets through, with the same identity attached and whatever
    the role asked for; the others it rejects with the 401
    [Authentication required]. *)
Theorem X2_optionalAuth_then_requireRole (role : string) (req : Request.t)
    (clock : Z) :
  Request.user req = None ->
  let chain :=
    andThen (auth.optionalAuth config req clock)
            (fun r => auth.requireRole role r clock) NextError in
  (forall req',
      auth.authenticateToken config req clock = Next req' -> chain = Next req')
  /\ (forall error,
      auth.authenticateToken config req clock = NextError error ->
      chain = NextError (ThrownAppError (authenticationRequired clock))).
Proof.
  intros Hnone chain. subst chain.
  pose proof (optionalAuth_strict req clock) as Hs.
  destruct (authenticateToken_cases config req clock)
    as [(token & payload & _ & _ & Ha)|[_ Ha]]; rewrite Ha in *; rewrite Hs.
  - split; [|discriminate]. now intros req' [= <-].
  - split; [discriminate|]. intros error _.
    unfold andThen, auth.requireRole. now rewrite Hnone.
Qed.

End Middleware.

(** ** Tokens across configurations and routes *)

Lemma free_of_append (c : ascii) (a b : string) :
  Js.free_of c a -> Js.free_of c b -> Js.free_of c (a +:+ b).
Proof.
  induction a as [|x a IH]; [trivial|]. intros [Hx Ha] Hb.
  rewrite append_cons. split; [exact Hx | now apply IH].
Qed.

Lemma segmentTail_no_space (s : string) :
  jwt.segmentTail s = true -> Js.free_of " " s.
Proof.
  induction s as [|c s IH]; simpl; [trivial|].
  intros [Hc Hs]%andb_prop. split; [|auto].
  intros ->. vm_compute in Hc. discriminate.
Qed.

Section TokensAcross.
Context `{Jose} `{!jwt.Laws}.

(** A token of the service has no space in it. *)
Lemma compact_no_space (key : string) (c : JWTPayload.t) :
  Js.free_of " " (compact key c).
Proof.
  unfold compact. destruct (jwt.encode_segments c) as (h & p & -> & Hh & Hp).
  apply andb_prop in Hh as [_ Hh]. apply andb_prop in Hp as [_ Hp].
  pose proof (jwt.hs256_segment key (h +:+ String "." p)) as Hs.
  apply andb_prop in Hs as [_ Hs].
  repeat (apply free_of_append || split || discriminate
          || (apply segmentTail_no_space; assumption)).
Qed.

(** X30.  The issuer and the audience of the configuration are part of
    what a token is checked against: a token signed under one
    configuration is rejected under another with the same secret whose
    non-empty audience or non-empty issuer differs.  A configuration whose
    issuer and audience are both empty checks neither and accepts the
    token until it expires. *)
Theorem X30_issuer_and_audience_are_checked (issuing verifying : Config.jwt)
    (identity : UserAuthContext.t) (issued checked : Z) (token : string) :
  Config.secret verifying = Config.secret issuing ->
  JWTUtils.generateToken issuing identity issued = inr token ->
  (Config.audience verifying <> "" ->
   Config.audience verifying <> Config.audience issuing ->
   JWTUtils.verifyToken verifying token checked
   = inl (Js.newError "Invalid or expired token"))
  /\ (Config.issuer verifying <> "" ->
      Config.issuer verifying <> Config.issuer issuing ->
      JWTUtils.verifyToken verifying token checked
      = inl (Js.newError "Invalid or expired token"))
  /\ (Config.audience verifying = "" -> Config.issuer verifying = "" ->
      forall exp,
        jwt.timespan (Config.expiresIn issuing) (jwt.seconds issued) = Some exp ->
        jwt.seconds checked < exp ->
        exists payload,
          JWTUtils.verifyToken verifying token checked = inr payload
          /\ JWTPayload.userId payload = UserAuthContext.userId identity
          /\ JWTPayload.email payload = UserAuthContext.email identity).
Proof.
  intros Hsecret Hgen. unfold JWTUtils.generateToken in Hgen.
  apply sign_identity in Hgen as (Hkey & exp & Hexp & ->).
  unfold JWTUtils.verifyToken, compact. rewrite Hsecret.
  rewrite verify_compact by apply jwt.hs256_segment.
  rewrite Hkey, String.eqb_refl. simpl.
  unfold jwt.checkClaims, issuedClaims. simpl.
  split; [|split].
  - intros Hne Hdiff. destruct (exp <=? jwt.seconds checked); [reflexivity|].
    destruct (Config.audience verifying) as [|a s] eqn:Ea; [contradiction|]. simpl.
    rewrite bool_decide_eq_false_2 by congruence. reflexivity.
  - intros Hne Hdiff. destruct (exp <=? jwt.seconds checked); [reflexivity|].
    destruct (Js.truthyString (Config.audience verifying)
              && negb (bool_decide (Some (Config.audience issuing)
                                    = Some (Config.audience verifying))));
      [reflexivity|].
    destruct (Config.issuer verifying) as [|a s] eqn:Ei; [contradiction|]. simpl.
    rewrite bool_decide_eq_false_2 by congruence. reflexivity.
  - intros Ha Hi exp' Hexp' Hlive.
    assert (exp' = exp) as -> by congruence.
    destruct (Z.leb_spec exp (jwt.seconds checked)); [lia|].
    rewrite Ha, Hi. simpl. eexists. split; [reflexivity|]. split; reflexivity.
Qed.

End TokensAcross.

(** ** The routes of [routes/auth.ts] *)

Lemma findById_unique (users : list User.t) (u : User.t) :
  uniqueIds users -> u ∈ users -> Repository.findById users (User.id u) = Some u.
Proof.
  unfold uniqueIds, Repository.findById.
  induction users as [|v users IH]; simpl; intros Hnd Hin.
  - inversion Hin.
  - apply NoDup_cons in Hnd as [Hv Hnd].
    destruct (String.eqb_spec (User.id v) (User.id u)) as [E|E].
    + apply elem_of_cons in Hin as [->|Hin]; [reflexivity|].
      exfalso. apply Hv. rewrite E.
      exact (list_elem_of_fmap_2 User.id users u Hin).
    + apply elem_of_cons in Hin as [->|Hin]; [congruence|]. now apply IH.
Qed.

Lemma timespan_any_clock (time : string) (iat iat' exp : Z) :
  jwt.timespan time iat = Some exp ->
  jwt.timespan time iat' = Some (exp - iat + iat').
Proof.
  unfold jwt.timespan. destruct (100 <? Z.of_nat (String.length time)); [discriminate|].
  destruct (jwt.spanSeconds None time) as [s|]; [|discriminate].
  intros [= <-]. f_equal. lia.
Qed.

Section Session.
Context `{Jose} `{!jwt.Laws} `{Bcrypt} `{BcryptHash}.
Variable config : Config.jwt.

Lemma bearer_authenticates (identity : UserAuthContext.t) (issued checked exp : Z)
    (token : string) (req : Request.t) :
  JWTUtils.generateToken config identity issued = inr token ->
  jwt.timespan (Config.expiresIn config) (jwt.seconds issued) = Some exp ->
  jwt.seconds checked < exp ->
  Request.authorization req = Some ("Bearer " +:+ token) ->
  auth.authenticateToken config req checked
  = Next (Request.setUser
            (issuedClaims identity (Config.issuer config) (Config.audience config)
                          issued exp) req).
Proof.
  intros Hgen Hexp Hlive Hauth. unfold JWTUtils.generateToken in Hgen.
  apply sign_identity in Hgen as (Hkey & exp' & Hexp' & ->).
  assert (exp' = exp) as -> by congruence.
  unfold auth.authenticateToken. rewrite Hauth.
  rewrite (proj2 (extractTokenFromHeader_ok _ _)
             (conj eq_refl (compact_no_space _ _))).
  simpl. unfold JWTUtils.verifyToken.
  rewrite (verify_own _ _ _ _ Hkey), (checkClaims_live _ _ _ _ _ Hlive).
  reflexivity.
Qed.

Lemma refresh_verifies (identity : UserAuthContext.t) (issued checked exp : Z)
    (token : string) :
  JWTUtils.generateRefreshToken config identity issued = inr token ->
  jwt.timespan (Config.refreshExpiresIn config) (jwt.seconds issued) = Some exp ->
  jwt.seconds checked < exp ->
  JWTUtils.verifyRefreshToken config token checked
  = inr (issuedClaims identity (Config.issuer config) (Config.audience config)
                      issued exp).
Proof.
  intros Hgen Hexp Hlive. unfold JWTUtils.generateRefreshToken in Hgen.
  apply sign_identity in Hgen as (Hkey & exp' & Hexp' & ->).
  assert (exp' = exp) as -> by congruence.
  unfold JWTUtils.verifyRefreshToken.
  rewrite (verify_own _ _ _ _ Hkey), (checkClaims_live _ _ _ _ _ Hlive).
  reflexivity.
Qed.

Lemma issueTokens_ok (user : UserResponse.t) (clock : Z) (tokens : routes2.TokenPair) :
  routes2.issueTokens config user clock = inr tokens <->
  JWTUtils.generateToken config (userToAuthContext user) clock
  = inr (routes2.accessToken tokens)
  /\ JWTUtils.generateRefreshToken config (userToAuthContext user) clock
     = inr (routes2.refreshToken tokens).
Proof.
  unfold routes2.issueTokens. destruct tokens as [a r]. simpl.
  destruct (JWTUtils.generateToken config (userToAuthContext user) clock) as [e|a'];
    simpl.
  - split; [discriminate | intros [[=] _]].
  - destruct (JWTUtils.generateRefreshToken config (userToAuthContext user) clock)
      as [e|r']; simpl.
    + split; [discriminate | intros [_ [=]]].
    + split; [intros [= -> ->]; auto | intros [[= ->] [= ->]]; reflexivity].
Qed.

(** Signing succeeds at one instant exactly when it does at another. *)
Lemma issueTokens_any_clock (user user' : UserResponse.t) (clock clock' : Z)
    (tokens : routes2.TokenPair) :
  routes2.issueTokens config user clock = inr tokens ->
  exists tokens', routes2.issueTokens config user' clock' = inr tokens'.
Proof.
  intros Hi. apply issueTokens_ok in Hi as [Ha Hr].
  unfold JWTUtils.generateToken in Ha. unfold JWTUtils.generateRefreshToken in Hr.
  apply sign_identity in Ha as (Hk & e & He & _).
  apply sign_identity in Hr as (Hk' & e' & He' & _).
  eexists (routes2.mkTokenPair _ _). apply issueTokens_ok. simpl. split.
  - unfold JWTUtils.generateToken. apply sign_identity. split; [exact Hk|].
    eexists. split; [apply (timespan_any_clock _ _ _ _ He) | reflexivity].
  - unfold JWTUtils.generateRefreshToken. apply sign_identity. split; [exact Hk'|].
    eexists. split; [apply (timespan_any_clock _ _ _ _ He') | reflexivity].
Qed.

Lemma login_ok (users : list User.t) (body : routes.LoginInput) (clock : Z)
    (status : Z) (reply : routes.LoginBody) :
  routes.login config users body clock = Respond status reply ->
  status = 200
  /\ exists u,
       u ∈ users
       /\ routes.user (routes.data reply) = userToResponse u
       /\ routes2.issueTokens config (userToResponse u) clock
          = inr (routes2.mkTokenPair (routes.accessToken (routes.data reply))
                                     (routes.refreshToken (routes.data reply))).
Proof.
  unfold routes.login, UserService.verifyPassword.
  destruct (UserRepository.findByEmail users (routes.email body)) as [u|] eqn:Ef;
    [|discriminate].
  apply findByEmail_some in Ef as [Hin _].
  destruct (negb (compare (routes.password body) (User.password u))); [discriminate|].
  destruct (JWTUtils.generateToken config _ clock) as [e|a] eqn:Ea; simpl;
    [discriminate|].
  destruct (JWTUtils.generateRefreshToken config _ clock) as [e|r] eqn:Er; simpl;
    [discriminate|].
  intros [= <- <-]. split; [reflexivity|]. exists u. simpl.
  split; [exact Hin|]. split; [reflexivity|].
  apply issueTokens_ok. simpl. split; assumption.
Qed.

Lemma getUserById_unique (users : list User.t) (u : User.t) :
  uniqueIds users -> u ∈ users ->
  UserService2.getUserById users (User.id u) = Some (userToResponse u).
Proof.
  intros Hu Hin. unfold UserService2.getUserById.
  now rewrite (findById_unique _ _ Hu Hin).
Qed.

(** X26.  Logging in opens the profile: the access token of a successful
    login, sent as [Bearer <token>] before it expires, passes
    [authenticateToken], and [GET /profile] answers 200 with the user the
    login answered with.  The ids of the collection are unique and none is
    empty. *)
Theorem X26_login_token_opens_the_profile (users : list User.t)
    (body : routes.LoginInput) (clock checked exp status : Z)
    (reply : routes.LoginBody) (req : Request.t) :
  uniqueIds users -> properIds users ->
  routes.login config users body clock = Respond status reply ->
  jwt.timespan (Config.expiresIn config) (jwt.seconds clock) = Some exp ->
  jwt.seconds checked < exp ->
  Request.authorization req
  = Some ("Bearer " +:+ routes.accessToken (routes.data reply)) ->
  routes2.getProfileRoute config users req checked
  = Respond 200 (routes2.mkUserBody true None (routes.user (routes.data reply))).
Proof.
  intros Hu Hp Hlogin Hexp Hlive Hauth.
  apply login_ok in Hlogin as (_ & u & Hin & Huser & Htok).
  apply issueTokens_ok in Htok as [Ha _]. simpl in Ha.
  unfold routes2.getProfileRoute.
  rewrite (bearer_authenticates _ _ _ _ _ _ Ha Hexp Hlive Hauth).
  unfold andThen, routes2.getProfile, routes2.authenticatedId. simpl.
  assert (Js.truthyString (User.id u) = true) as ->.
  { unfold properIds in Hp. rewrite Forall_forall in Hp. specialize (Hp u Hin).
    destruct (User.id u); [congruence | reflexivity]. }
  rewrite (getUserById_unique _ _ Hu Hin), Huser. reflexivity.
Qed.

(** X27.  [POST /refresh].  A refresh token that fails verification does
    not become a 401: the handler passes on the plain error of
    [verifyRefreshToken], which the global handler answers with 500.  The
    refresh token of a successful login, presented before it expires,
    is answered with 200 and the pair of tokens signed for the same user
    at that instant. *)
Theorem X27_refresh_route (users : list User.t) (token : string) (clock : Z) :
  (forall e NODE_ENV now req,
     JWTUtils.verifyRefreshToken config token clock = inl e ->
     routes2.refresh config users token clock = Fail (ThrownError refreshRejected)
     /\ errorHandler.status
          (errorHandler.globalErrorHandler NODE_ENV now (ThrownError refreshRejected) req)
        = 500)
  /\ (forall body issued exp status reply,
     uniqueIds users ->
     routes.login config users body issued = Respond status reply ->
     token = routes.refreshToken (routes.data reply) ->
     jwt.timespan (Config.refreshExpiresIn config) (jwt.seconds issued) = Some exp ->
     jwt.seconds clock < exp ->
     exists tokens,
       routes2.issueTokens config (routes.user (routes.data reply)) clock = inr tokens
       /\ routes2.refresh config users token clock
          = Respond 200
              (routes2.mkRefreshBody true "Token refreshed successfully" tokens)).
Proof.
  split.
  - intros e NODE_ENV now req He. split.
    + unfold routes2.refresh. rewrite He.
      now rewrite (verifyRefreshToken_error _ _ _ _ He).
    + rewrite globalErrorHandler_unknown; [reflexivity|].
      unfold jwtErrorNames. simpl. rewrite !elem_of_cons, elem_of_nil.
      intros [E|[E|[E|[]]]]; discriminate E.
  - intros body issued exp status reply Hu Hlogin -> Hexp Hlive.
    apply login_ok in Hlogin as (_ & u & Hin & Huser & Htok).
    destruct (issueTokens_any_clock _ (userToResponse u) _ clock _ Htok)
      as [tokens Htokens].
    apply issueTokens_ok in Htok as [_ Hr]. simpl in Hr.
    exists tokens. rewrite Huser. split; [exact Htokens|].
    unfold routes2.refresh.
    rewrite (refresh_verifies _ _ _ _ _ Hr Hexp Hlive). simpl.
    change (UserAuthContext.userId (userToAuthContext (userToResponse u)))
      with (User.id u).
    rewrite (getUserById_unique _ _ Hu Hin), Htokens. reflexivity.
Qed.

(** X28.  [GET /profile] with its middleware shows only the user a
    verified bearer token names: a 200 carries the stored user whose id is
    the [userId] of the payload the token verifies to.  Every failure is a
    401 of class [AuthError] with one of three messages. *)
Theorem X28_profile_is_the_token_owner (users : list User.t) (req : Request.t)
    (clock : Z) :
  (forall status reply,
     routes2.getProfileRoute config users req clock = Respond status reply ->
     status = 200
     /\ exists token payload,
          Request.authorization req = Some ("Bearer " +:+ token)
          /\ JWTUtils.verifyToken config token clock = inr payload
          /\ UserService2.getUserById users (JWTPayload.userId payload)
             = Some (routes2.user_data reply))
  /\ (forall error,
     routes2.getProfileRoute config users req clock = Fail error ->
     exists message,
       error = ThrownAppError (unauthorized clock message)
       /\ message ∈ [ "Authentication failed"; "User not authenticated";
                      "User not found" ]).
Proof.
  unfold routes2.getProfileRoute.
  destruct (authenticateToken_cases config req clock)
    as [(token & payload & Hx & Hv & ->) | [_ ->]]; unfold andThen.
  - apply extractTokenFromHeader_ok in Hx as [Hauth _].
    unfold routes2.getProfile, routes2.authenticatedId. simpl.
    destruct (Js.truthyString (JWTPayload.userId payload)).
    + destruct (UserService2.getUserById users (JWTPayload.userId payload))
        as [user|] eqn:Eu.
      * split; [|discriminate]. intros status reply [= <- <-].
        split; [reflexivity|]. exists token, payload. auto.
      * split; [discriminate|]. intros error [= <-].
        exists "User not found". split; [reflexivity|].
        rewrite !elem_of_cons. auto.
    + split; [discriminate|]. intros error [= <-].
      exists "User not authenticated". split; [reflexivity|].
      rewrite !elem_of_cons. auto.
  - split; [discriminate|]. intros error [= <-].
    exists "Authentication failed". split; [reflexivity|].
    rewrite !elem_of_cons. auto.
Qed.

(** X25.  [POST /register].  An email that is already stored is answered
    with the 409 and the collection is left as it was.  A 201 means the
    collection gained exactly the document of the new user, whose password
    is stored hashed, and from then on the same email is answered with the
    409.  When the handler fails after the email check the collection is
    either untouched or, if signing the tokens failed, already holds the
    new user. *)
Theorem X25_register_route (users : list User.t) (id : string) (now : Z)
    (body : CreateUserInput.t) (clock : Z) :
  (CreateUserInput.email body ∈ map User.email users ->
   routes2.register config users id now body clock
   = (Fail (ThrownAppError (emailConflict clock)), users))
  /\ (forall status reply users',
     routes2.register config users id now body clock = (Respond status reply, users') ->
     status = 201
     /\ users' = users ++ [storedUser id now body]
     /\ routes.user (routes.data reply) = userToResponse (storedUser id now body)
     /\ forall id2 now2 body2 clock2,
          CreateUserInput.email body2 = CreateUserInput.email body ->
          routes2.register config users' id2 now2 body2 clock2
          = (Fail (ThrownAppError (emailConflict clock2)), users'))
  /\ (forall error users',
     routes2.register config users id now body clock = (Fail error, users') ->
     users' = users
     \/ (users' = users ++ [storedUser id now body]
         /\ exists e, error = ThrownError e)).
Proof.
  assert (Hconflict : forall us i n b c,
    CreateUserInput.email b ∈ map User.email us ->
    routes2.register config us i n b c
    = (Fail (ThrownAppError (emailConflict c)), us)).
  { intros us i n b c Hin. unfold routes2.register, UserService2.userExistsByEmail.
    destruct (Repository.existsByEmail us (CreateUserInput.email b)) eqn:Ee;
      [reflexivity|].
    apply existsByEmail_false, findByEmail_none in Ee. contradiction. }
  split; [apply Hconflict|].
  unfold routes2.register, UserService2.userExistsByEmail.
  rewrite createUser_cases.
  destruct (Repository.existsByEmail users (CreateUserInput.email body)) eqn:Ee.
  { split; [discriminate|]. intros error users' [= _ <-]. now left. }
  destruct (Repository.existsById users id) eqn:Ei.
  { split; [discriminate|]. intros error users' [= _ <-]. now left. }
  destruct (routes2.issueTokens config _ clock) as [e|tokens].
  - split; [discriminate|]. intros error users' [= <- <-]. right. eauto.
  - split; [|discriminate]. intros status reply users' [= <- <- <-].
    split; [reflexivity|]. split; [reflexivity|]. split; [reflexivity|].
    intros id2 now2 body2 clock2 Heq. apply Hconflict.
    rewrite Heq, map_app, elem_of_app. right. simpl. left.
Qed.

End Session.

(** ** The id gate and the routes of [routes/users.ts] *)

Lemma inherited_proto (k : string) :
  Js.inherited k = false -> String.eqb k "__proto__" = false.
Proof.
  intros Hk. destruct (String.eqb_spec k "__proto__") as [->|]; [|reflexivity].
  vm_compute in Hk. discriminate.
Qed.

Lemma isObjectId_truthy (id : string) :
  validation2.isObjectId id = true -> Js.truthyString id = true.
Proof. destruct id; [discriminate | reflexivity]. Qed.

Lemma validateParams_unfold (schema : list (string * z.ZodType Js.Value))
    (req : Request.t) (clock : Z) :
  validation.validateParams schema req clock
  = match z.parse schema (Request.params req) with
    | inr validatedData => Next (Request.setParams validatedData req)
    | inl issues =>
        match validation.collectDetails ∅ issues with
        | inr details =>
            NextError (ThrownAppError
              (AppError.newValidationError clock (Some "Validation failed")
                 (Some details) (Some (Request.path req))
                 (Some (Request.method req))))
        | inl typeError => NextError (ThrownError typeError)
        end
    end.
Proof. reflexivity. Qed.

Lemma validateMongoId_cases (paramName : option string) (req : Request.t)
    (clock : Z) :
  Js.inherited (default "id" paramName) = false ->
  match Js.get (Request.params req) (default "id" paramName) with
  | Js.VString id =>
      if validation2.isObjectId id then
        validation2.validateMongoId paramName req clock
        = Next (Request.setParams {[ default "id" paramName := Js.VString id ]} req)
      else
        validation2.validateMongoId paramName req clock
        = NextError (ThrownAppError
            (invalidField clock req (default "id" paramName)
                          "Invalid MongoDB ObjectId"))
  | Js.VUndefined =>
      validation2.validateMongoId paramName req clock
      = NextError (ThrownAppError
          (invalidField clock req (default "id" paramName) "Required"))
  | v =>
      validation2.validateMongoId paramName req clock
      = NextError (ThrownAppError
          (invalidField clock req (default "id" paramName)
                        ("Expected string, received " +:+ z.parsedType v)))
  end.
Proof.
  set (k := default "id" paramName). intros Hk.
  pose proof (inherited_proto k Hk) as Hp.
  unfold validation2.validateMongoId. rewrite validateParams_unfold.
  fold k. unfold z.parse. cbn [z.objectFields app].
  unfold zs.asString, zs.string, z.string_.
  assert (Hadd : forall message,
    validation.collectDetails ∅ [z.mkIssue [z.Key k] message]
    = inr {[ k := [message] ]}).
  { intros message. cbn [validation.collectDetails]. unfold validation.addIssue.
    change (validation.joinPath (z.path (z.mkIssue [z.Key k] message))) with k.
    rewrite lookup_empty, Hk. reflexivity. }
  destruct (Js.get (Request.params req) k) as [| |b|n|id|t] eqn:Eg;
    cbn [zs.runChecks z.issuesOf app z.parsedType];
    try (rewrite Hadd; reflexivity).
  destruct (validation2.isObjectId id); cbn [negb app].
  - unfold z.setField. rewrite Hp. reflexivity.
  - rewrite Hadd. reflexivity.
Qed.

Lemma validateMongoId_id (req : Request.t) (clock : Z) :
  match Js.get (Request.params req) "id" with
  | Js.VString id =>
      if validation2.isObjectId id then
        validation2.validateMongoId (Some "id") req clock
        = Next (Request.setParams {[ "id" := Js.VString id ]} req)
      else
        validation2.validateMongoId (Some "id") req clock
        = NextError (ThrownAppError
            (invalidField clock req "id" "Invalid MongoDB ObjectId"))
  | Js.VUndefined =>
      validation2.validateMongoId (Some "id") req clock
      = NextError (ThrownAppError (invalidField clock req "id" "Required"))
  | v =>
      validation2.validateMongoId (Some "id") req clock
      = NextError (ThrownAppError
          (invalidField clock req "id"
                        ("Expected string, received " +:+ z.parsedType v)))
  end.
Proof. exact (validateMongoId_cases (Some "id") req clock eq_refl). Qed.

(** X9.  [validateMongoId] lets a request through exactly when the
    parameter is a string of 24 hexadecimal digits, and then replaces
    [req.params] by an object that holds that parameter alone.  Every
    other request is answered with a 400 of class [ValidationError] whose
    details hold one message under the name of the parameter. *)
Theorem X9_validateMongoId_gate (paramName : option string) (req : Request.t)
    (clock : Z) :
  Js.inherited (default "id" paramName) = false ->
  (forall id,
     Js.get (Request.params req) (default "id" paramName) = Js.VString id ->
     validation2.isObjectId id = true ->
     validation2.validateMongoId paramName req clock
     = Next (Request.setParams {[ default "id" paramName := Js.VString id ]} req))
  /\ (forall req',
     validation2.validateMongoId paramName req clock = Next req' ->
     exists id,
       Js.get (Request.params req) (default "id" paramName) = Js.VString id
       /\ String.length id = 24%nat
       /\ Text.all Text.isHexDigit id = true)
  /\ (forall error,
     validation2.validateMongoId paramName req clock = NextError error ->
     exists message,
       error = ThrownAppError
                 (invalidField clock req (default "id" paramName) message)).
Proof.
  intros Hk. pose proof (validateMongoId_cases paramName req clock Hk) as Hc.
  split; [|split].
  - intros id Hg Hid. rewrite Hg, Hid in Hc. exact Hc.
  - intros req' Hn.
    destruct (Js.get (Request.params req) (default "id" paramName))
      as [| |b|n|id|t]; try congruence.
    destruct (validation2.isObjectId id) eqn:Hid; [|congruence].
    exists id. split; [reflexivity|].
    unfold validation2.isObjectId, Text.length in Hid.
    apply andb_prop in Hid as [Hl Ha]. split; [|exact Ha].
    apply Z.eqb_eq in Hl. lia.
  - intros error He.
    destruct (Js.get (Request.params req) (default "id" paramName))
      as [| |b|n|id|t]; try (rewrite Hc in He; injection He as <-; eauto).
    destruct (validation2.isObjectId id); rewrite Hc in He;
      [discriminate | injection He as <-; eauto].
Qed.

Lemma get_singleton (k : string) (v : Js.Value) :
  Js.get {[ k := v ]} k = v.
Proof. unfold Js.get. now rewrite lookup_singleton_eq. Qed.

Lemma requiredId_validated (req : Request.t) (clock : Z) (id : string) :
  validation2.isObjectId id = true ->
  routes2.requiredId (Request.setParams {[ "id" := Js.VString id ]} req) clock
  = inr id.
Proof.
  intros Hid. unfold routes2.requiredId. cbn [Request.params Request.setParams].
  rewrite get_singleton. now rewrite (isObjectId_truthy id Hid).
Qed.

Lemma deleteUser_cases (users : list User.t) (req : Request.t) (clock : Z)
    (id : string) :
  routes2.requiredId req clock = inr id ->
  routes2.deleteUser users req clock
  = match Repository.findById users id with
    | Some _ => (deleted, without id users)
    | None => (Fail (ThrownAppError (userNotFound clock)), users)
    end.
Proof.
  intros Hr. unfold routes2.deleteUser, UserService2.userExists,
    UserService2.deleteUser, Repository.existsById, Repository.deleteById.
  rewrite Hr. destruct (Repository.findById users id); reflexivity.
Qed.

(** X13.  [GET /:id] with its id gate: a 200 carries the stored user of
    the id in the path; a well-formed id that is not stored is answered
    with the 404; the handler's own 400 for a missing id is never
    reached, an ill-formed id being answered by the id check. *)
Theorem X13_get_user_by_id (users : list User.t) (req : Request.t) (clock : Z) :
  (forall id,
     Js.get (Request.params req) "id" = Js.VString id ->
     validation2.isObjectId id = true ->
     routes2.getUserRoute users req clock
     = match UserService2.getUserById users id with
       | Some user => Respond 200 (routes2.mkUserBody true None user)
       | None => Fail (ThrownAppError (userNotFound clock))
       end)
  /\ (forall error,
     routes2.getUserRoute users req clock = Fail error ->
     error = ThrownAppError (userNotFound clock)
     \/ exists message, error = ThrownAppError (invalidField clock req "id" message)).
Proof.
  pose proof (validateMongoId_id req clock) as Hc.
  unfold routes2.getUserRoute.
  split.
  - intros id Hg Hid. rewrite Hg, Hid in Hc. rewrite Hc. unfold andThen.
    unfold routes2.getUser. rewrite (requiredId_validated _ _ _ Hid).
    destruct (UserService2.getUserById users id); reflexivity.
  - intros error.
    destruct (Js.get (Request.params req) "id") as [| |b|n|id|t];
      try (rewrite Hc; unfold andThen; intros [= <-]; right; eauto).
    destruct (validation2.isObjectId id) eqn:Hid; rewrite Hc; unfold andThen.
    + unfold routes2.getUser. rewrite (requiredId_validated _ _ _ Hid).
      destruct (UserService2.getUserById users id); [discriminate|].
      intros [= <-]. now left.
    + intros [= <-]. right. eauto.
Qed.

Section Deleting.
Context `{Jose}.
Variable config : Config.jwt.

Lemma deleteUserRoute_passed (nodeEnv : string) (adminKey : option string)
    (users : list User.t) (req req' : Request.t) (clock : Z) (id : string) :
  routes2.adminGuard config nodeEnv adminKey req clock = Next req' ->
  Request.params req' = Request.params req ->
  Js.get (Request.params req) "id" = Js.VString id ->
  validation2.isObjectId id = true ->
  routes2.deleteUserRoute config nodeEnv adminKey users req clock
  = match Repository.findById users id with
    | Some _ => (deleted, without id users)
    | None => (Fail (ThrownAppError (userNotFound clock)), users)
    end.
Proof.
  intros Hg Hp Hid Hok. unfold routes2.deleteUserRoute. rewrite Hg.
  unfold andThen at 1.
  pose proof (validateMongoId_id req' clock) as Hc.
  rewrite Hp, Hid, Hok in Hc. rewrite Hc. unfold andThen.
  apply deleteUser_cases, requiredId_validated, Hok.
Qed.

Lemma authenticateToken_params (req req' : Request.t) (clock : Z) :
  auth.authenticateToken config req clock = Next req' ->
  Request.params req' = Request.params req.
Proof.
  destruct (authenticateToken_cases config req clock)
    as [(token & payload & _ & _ & ->) | [_ ->]]; [|discriminate].
  now intros [= <-].
Qed.

Lemma adminGuard_params (nodeEnv : string) (adminKey : option string)
    (req req' : Request.t) (clock : Z) :
  routes2.adminGuard config nodeEnv adminKey req clock = Next req' ->
  Request.params req' = Request.params req.
Proof.
  unfold routes2.adminGuard.
  destruct (String.eqb nodeEnv "development"
            && bool_decide (adminKey = Some (Config.secret config))).
  - now intros [= <-].
  - apply authenticateToken_params.
Qed.

(** X29.  The admin key of the writing routes counts in development
    only: under any other [NODE_ENV] the route behaves as if the header
    were absent, and a request that fails [authenticateToken] is answered
    with the 401 and changes nothing.  In development the key that equals
    the token secret deletes a stored user without any token. *)
Theorem X29_admin_key_only_in_development (nodeEnv : string)
    (adminKey : option string) (users : list User.t) (req : Request.t)
    (clock : Z) :
  (nodeEnv <> "development" ->
   routes2.deleteUserRoute config nodeEnv adminKey users req clock
   = routes2.deleteUserRoute config nodeEnv None users req clock
   /\ (forall error,
         auth.authenticateToken config req clock = NextError error ->
         routes2.deleteUserRoute config nodeEnv adminKey users req clock
         = (Fail (ThrownAppError (authenticationFailed clock)), users)))
  /\ (nodeEnv = "development" ->
      adminKey = Some (Config.secret config) ->
      forall id user,
        Js.get (Request.params req) "id" = Js.VString id ->
        validation2.isObjectId id = true ->
        Repository.findById users id = Some user ->
        routes2.deleteUserRoute config nodeEnv adminKey users req clock
        = (deleted, without id users)).
Proof.
  split.
  - intros Hne.
    assert (Hg : forall key, routes2.adminGuard config nodeEnv key req clock
                             = auth.authenticateToken config req clock).
    { intros key. unfold routes2.adminGuard.
      destruct (String.eqb_spec nodeEnv "development"); [contradiction|reflexivity]. }
    unfold routes2.deleteUserRoute. rewrite !Hg. split; [reflexivity|].
    intros error He.
    destruct (authenticateToken_cases config req clock)
      as [(token & payload & _ & _ & Hn) | [_ Hn]]; [congruence|].
    rewrite Hn. reflexivity.
  - intros -> -> id user Hid Hok Hf.
    rewrite (deleteUserRoute_passed _ _ users req req clock id); auto.
    + now rewrite Hf.
    + unfold routes2.adminGuard. simpl. now rewrite bool_decide_eq_true_2.
Qed.

(** X14.  [DELETE /:id] checks who asks, not what they may do: every
    request that passes [authenticateToken] deletes the stored user of a
    well-formed id, whoever the token names.  The collection changes only
    so: after any other answer it is as it was, and after a deletion the
    id is no longer found. *)
Theorem X14_delete_route (nodeEnv : string) (adminKey : option string)
    (users : list User.t) (req : Request.t) (clock : Z) :
  (forall req' id user,
     auth.authenticateToken config req clock = Next req' ->
     Js.get (Request.params req) "id" = Js.VString id ->
     validation2.isObjectId id = true ->
     Repository.findById users id = Some user ->
     routes2.deleteUserRoute config nodeEnv None users req clock
     = (deleted, without id users))
  /\ (forall reply users',
     routes2.deleteUserRoute config nodeEnv adminKey users req clock
     = (reply, users') ->
     (reply <> deleted /\ users' = users)
     \/ (reply = deleted
         /\ exists id,
              Js.get (Request.params req) "id" = Js.VString id
              /\ users' = without id users
              /\ UserService2.getUserById users' id = None)).
Proof.
  split.
  - intros req' id user Ha Hid Hok Hf.
    rewrite (deleteUserRoute_passed _ _ users req req' clock id); auto.
    + now rewrite Hf.
    + unfold routes2.adminGuard. rewrite andb_false_r. exact Ha.
    + apply (authenticateToken_params _ _ _ Ha).
  - intros reply users'.
    destruct (routes2.adminGuard config nodeEnv adminKey req clock)
      as [req'|error] eqn:Hg.
    + pose proof (adminGuard_params _ _ _ _ _ Hg) as Hp.
      pose proof (validateMongoId_id req' clock) as Hc.
      rewrite Hp in Hc.
      destruct (Js.get (Request.params req) "id") as [| |b|n|id|t] eqn:Eg;
        try (unfold routes2.deleteUserRoute; rewrite Hg; unfold andThen at 1;
             rewrite Hc; unfold andThen; intros [= <- <-]; left;
             split; [discriminate | reflexivity]).
      destruct (validation2.isObjectId id) eqn:Hok.
      * rewrite (deleteUserRoute_passed _ _ users req req' clock id); auto.
        destruct (Repository.findById users id) as [user|] eqn:Hf.
        -- intros [= <- <-]. right. split; [reflexivity|]. exists id.
           split; [reflexivity|]. split; [reflexivity|].
           unfold UserService2.getUserById, without.
           now rewrite findById_filter_same.
        -- intros [= <- <-]. left. split; [discriminate | reflexivity].
      * unfold routes2.deleteUserRoute. rewrite Hg. unfold andThen at 1.
        rewrite Hc. unfold andThen. intros [= <- <-]. left.
        split; [discriminate | reflexivity].
    + unfold routes2.deleteUserRoute. rewrite Hg. unfold andThen.
      intros [= <- <-]. left. split; [discriminate | reflexivity].
Qed.

End Deleting.

(** ** White space and the environment validators *)


Lemma skipWhiteSpace_fixed (s : string) :
  match s with
  | EmptyString => True
  | String c _ => Js.isWhiteSpace c = false
  end ->
  Js.skipWhiteSpace s = s.
Proof. destruct s as [|c s]; simpl; [reflexivity|]. now intros ->. Qed.













Lemma digitValue_bounds (c : ascii) (d : Z) :
  Js.digitValue c = Some d -> 0 <= d <= 9.
Proof.
  unfold Js.digitValue.
  destruct (Z.leb_spec 48 (Z.of_N (N_of_ascii c)));
    destruct (Z.leb_spec (Z.of_N (N_of_ascii c)) 57); simpl; try discriminate.
  intros [= <-]. lia.
Qed.

Lemma unitSeconds_positive (c : ascii) (u : Z) :
  jwt.unitSeconds c = Some u -> 0 < u.
Proof.
  unfold jwt.unitSeconds.
  destruct c as [[] [] [] [] [] [] [] []]; try discriminate; intros [= <-]; lia.
Qed.

Lemma validFormats_spanSeconds (input : string) :
  forall (seen : bool) (acc : option Z),
    (seen = true -> is_Some acc) ->
    (forall a, acc = Some a -> 0 <= a) ->
    env.validFormats seen input = true ->
    exists n, jwt.spanSeconds acc input = Some n /\ 0 <= n.
Proof.
  induction input as [|c rest IH]; intros seen acc Hseen Hacc; [discriminate|].
  destruct rest as [|c' rest'].
  - cbn [env.validFormats jwt.spanSeconds]. intros [Hs Hu]%andb_prop.
    destruct (Hseen Hs) as [a ->].
    destruct (jwt.unitSeconds c) as [u|] eqn:Eu; [|discriminate].
    exists (a * u). split; [reflexivity|].
    pose proof (Hacc a eq_refl). pose proof (unitSeconds_positive c u Eu). nia.
  - change (env.validFormats seen (String c (String c' rest')))
      with (Text.isDigit c && env.validFormats true (String c' rest')).
    change (jwt.spanSeconds acc (String c (String c' rest')))
      with (match Js.digitValue c with
            | Some d => jwt.spanSeconds (Some (10 * default 0 acc + d))
                                        (String c' rest')
            | None => None
            end).
    unfold Text.isDigit. intros [Hd Hv]%andb_prop.
    destruct (Js.digitValue c) as [d|] eqn:Ed; [|discriminate].
    apply (IH true); [eauto | | exact Hv].
    intros a [= <-]. pose proof (digitValue_bounds c d Ed).
    destruct acc as [a0|]; simpl; [pose proof (Hacc a0 eq_refl)|]; lia.
Qed.

Section Lifetimes.
Context `{Jose} `{!jwt.Laws}.

(** X15.  A lifetime the environment loader admits ([jwtExpiration]) is one
    the token service can sign with: under a configuration whose
    [expiresIn] is admitted and has at most 100 characters, and whose
    secret is not empty, [generateToken] returns a token, and the token
    verifies at the instant it was issued unless the lifetime is zero. *)
Theorem X15_admitted_lifetimes_can_be_signed (config : Config.jwt)
    (identity : UserAuthContext.t) (clock : Z) :
  env.jwtExpiration (Config.expiresIn config) = inr (Config.expiresIn config) ->
  (String.length (Config.expiresIn config) <= 100)%nat ->
  Js.truthyString (Config.secret config) = true ->
  exists token lifetime,
    JWTUtils.generateToken config identity clock = inr token
    /\ 0 <= lifetime
    /\ jwt.timespan (Config.expiresIn config) (jwt.seconds clock)
       = Some (jwt.seconds clock + lifetime)
    /\ (0 < lifetime ->
        exists payload,
          JWTUtils.verifyToken config token clock = inr payload
          /\ JWTPayload.userId payload = UserAuthContext.userId identity)
    /\ (lifetime = 0 ->
        JWTUtils.verifyToken config token clock
        = inl (Js.newError "Invalid or expired token")).
Proof.
  intros Hadm Hlen Hkey. unfold env.jwtExpiration in Hadm.
  destruct (env.validFormats false (Config.expiresIn config)) eqn:Hv;
    [|discriminate].
  destruct (validFormats_spanSeconds (Config.expiresIn config) false None)
    as (n & Hn & Hpos);
    [discriminate | discriminate | exact Hv |].
  assert (Hspan : jwt.timespan (Config.expiresIn config) (jwt.seconds clock)
                  = Some (jwt.seconds clock + n)).
  { unfold jwt.timespan. rewrite Hn.
    destruct (Z.ltb_spec 100 (Z.of_nat (String.length (Config.expiresIn config))));
      [lia | reflexivity]. }
  exists (compact (Config.secret config)
            (issuedClaims identity (Config.issuer config) (Config.audience config)
                          clock (jwt.seconds clock + n))), n.
  split. { unfold JWTUtils.generateToken. apply sign_identity. eauto. }
  split; [exact Hpos|]. split; [exact Hspan|].
  unfold JWTUtils.verifyToken. rewrite (verify_own _ _ _ _ Hkey). split.
  - intros Hlt. rewrite checkClaims_live by lia. eexists. split; reflexivity.
  - intros ->. rewrite checkClaims_expired by lia. reflexivity.
Qed.

End Lifetimes.

(** ** The schemas at the validation gate *)

Lemma objectFields_keys (shape : list (string * z.ZodType Js.Value))
    (path : list z.PathSegment) (data : gmap string Js.Value) :
  forall o,
    (z.objectFields shape path data = z.OK o
     \/ exists issues, z.objectFields shape path data = z.DIRTY o issues) ->
    forall k, is_Some (o !! k) -> k ∈ shape.*1 /\ k <> "__proto__".
Proof.
  induction shape as [|[key schema] shape IH]; intros o Ho k Hk.
  - destruct Ho as [[= <-]|[issues [=]]]. rewrite lookup_empty in Hk.
    destruct Hk; discriminate.
  - cbn [z.objectFields] in Ho.
    assert (Hset : forall v o',
      (forall k, is_Some (o' !! k) -> k ∈ shape.*1 /\ k <> "__proto__") ->
      is_Some (z.setField data key v o' !! k) ->
      k ∈ ((key, schema) :: shape).*1 /\ k <> "__proto__").
    { intros v o' Ho' Hs. unfold z.setField in Hs. simpl.
      assert (Hold : is_Some (o' !! k) -> k ∈ key :: shape.*1 /\ k <> "__proto__").
      { intros Hi. destruct (Ho' k Hi). split; [now right | assumption]. }
      destruct (String.eqb_spec key "__proto__") as [E|E]; [auto|].
      assert (Hnew : is_Some (<[key:=v]> o' !! k) ->
                     k ∈ key :: shape.*1 /\ k <> "__proto__").
      { intros Hi. destruct (decide (key = k)) as [<-|Hne].
        - split; [left | exact E].
        - rewrite lookup_insert_ne in Hi by exact Hne. auto. }
      destruct v; auto. destruct (Js.has data key); auto. }
    destruct (schema (path ++ [z.Key key]) (Js.get data key)) as [v|v iss|iss];
      destruct (z.objectFields shape path data) as [o'|o' iss'|iss'] eqn:Eo;
      cbn [z.issuesOf] in Ho;
      destruct Ho as [Ho|[issues Ho]]; try discriminate;
      injection Ho as <-; subst;
      apply (Hset v o'); auto; intros k' Hk'; apply (IH o'); eauto.
Qed.

Lemma validate_unfold (schema : list (string * z.ZodType Js.Value))
    (source : validation.Source) (req : Request.t) (clock : Z) :
  validation.validate schema (Some source) req clock
  = match z.parse schema (sourceData source req) with
    | inr validatedData =>
        Next (match source with
              | validation.body => Request.setBody validatedData req
              | validation.query => Request.setValidatedQuery validatedData req
              | validation.params => Request.setParams validatedData req
              end)
    | inl issues =>
        match validation.collectDetails ∅ issues with
        | inr details =>
            NextError (ThrownAppError
              (AppError.newValidationError clock (Some "Validation failed")
                 (Some details) (Some (Request.path req))
                 (Some (Request.method req))))
        | inl typeError => NextError (ThrownError typeError)
        end
    end.
Proof. destruct source; reflexivity. Qed.

(** X12.  Whatever the schema, the object the validation gate leaves on
    the request holds no key outside the schema and never the key
    [__proto__]: unknown properties of the input are dropped.  The
    identity and the authorization header of the request are untouched. *)
Theorem X12_validated_data_is_within_the_schema
    (schema : list (string * z.ZodType Js.Value)) (source : validation.Source)
    (req req' : Request.t) (clock : Z) :
  validation.validate schema (Some source) req clock = Next req' ->
  (forall k, is_Some (validatedData source req' !! k) ->
             k ∈ schema.*1 /\ k <> "__proto__")
  /\ z.parse schema (sourceData source req) = inr (validatedData source req')
  /\ Request.user req' = Request.user req
  /\ Request.authorization req' = Request.authorization req.
Proof.
  rewrite validate_unfold. unfold z.parse.
  destruct (z.objectFields schema [] (sourceData source req)) as [o|o iss|iss] eqn:Eo.
  - intros [= <-].
    assert (validatedData source
              match source with
              | validation.body => Request.setBody o req
              | validation.query => Request.setValidatedQuery o req
              | validation.params => Request.setParams o req
              end = o) as -> by (destruct source; reflexivity).
    split; [|split; [reflexivity | destruct source; split; reflexivity]].
    apply (objectFields_keys schema [] (sourceData source req)). now left.
  - destruct (validation.collectDetails ∅ iss); discriminate.
  - destruct (validation.collectDetails ∅ iss); discriminate.
Qed.

Section Registration.
Context `{ZodFormats}.


End Registration.


(* ===================================================================== *)
(** * The further statements on the reference instance                     *)
(* ===================================================================== *)

Lemma reference_hash_law : @HashLaw Reference.bcrypt Reference2.bcryptHash.
Proof. intros data rounds. apply String.eqb_refl. Qed.

Lemma twoUsers_uniqueIds : uniqueIds twoUsers.
Proof.
  unfold uniqueIds, twoUsers. simpl. repeat constructor.
  - rewrite list_elem_of_singleton. discriminate.
  - apply not_elem_of_nil.
Qed.

Lemma twoUsers_uniqueEmails : uniqueEmails twoUsers.
Proof.
  unfold uniqueEmails, twoUsers. simpl. repeat constructor.
  - rewrite list_elem_of_singleton. discriminate.
  - apply not_elem_of_nil.
Qed.

Lemma twoUsers_properIds : properIds twoUsers.
Proof. unfold properIds, twoUsers. repeat constructor; discriminate. Qed.

Section FurtherRuns.
#[local] Existing Instance Reference.jose.
#[local] Existing Instance Reference.bcrypt.
#[local] Existing Instance Reference2.bcryptHash.
#[local] Existing Instance Reference2.formats.
#[local] Existing Instance reference_laws.

(** X2 on a request without a header. *)
Lemma X2_optionalAuth_then_requireRole_witness :
  andThen (auth.optionalAuth Reference.config (Reference.request None ∅ ∅) 0)
          (fun r => auth.requireRole "admin" r 0) NextError
  = NextError (ThrownAppError (authenticationRequired 0)).
Proof.
  apply (proj2 (X2_optionalAuth_then_requireRole Reference.config "admin"
                  (Reference.request None ∅ ∅) 0 eq_refl)
           (ThrownAppError (authenticationFailed 0))).
  reflexivity.
Defined.

(** X9 on the id of the reference user. *)
Lemma X9_validateMongoId_gate_witness :
  validation2.validateMongoId None
    (Reference.request None
       {[ "id" := Js.VString "507f1f77bcf86cd799439011";
          "tab" := Js.VString "posts" ]} ∅) 0
  = Next (Request.setParams {[ "id" := Js.VString "507f1f77bcf86cd799439011" ]}
            (Reference.request None
               {[ "id" := Js.VString "507f1f77bcf86cd799439011";
                  "tab" := Js.VString "posts" ]} ∅)).
Proof.
  apply (proj1 (X9_validateMongoId_gate None
                  (Reference.request None
                     {[ "id" := Js.VString "507f1f77bcf86cd799439011";
                        "tab" := Js.VString "posts" ]} ∅) 0 eq_refl)
           "507f1f77bcf86cd799439011"); reflexivity.
Defined.


(** X12 on a query with a property outside the pagination schema. *)
Lemma X12_validated_data_is_within_the_schema_witness :
  z.parse schemas.paginationSchema (Request.query sortedListing)
  = inr {[ "page" := Js.VNumber (Js.Int 2); "limit" := Js.VNumber (Js.Int 25) ]}.
Proof.
  assert (Hv : validation.validate schemas.paginationSchema (Some validation.query)
                 sortedListing 0
               = Next (Request.setValidatedQuery
                         {[ "page" := Js.VNumber (Js.Int 2);
                            "limit" := Js.VNumber (Js.Int 25) ]} sortedListing))
    by (vm_compute; reflexivity).
  exact (proj1 (proj2 (X12_validated_data_is_within_the_schema _ _ _ _ _ Hv))).
Defined.

(** X15 on the configuration of the tests, whose lifetime is [1h]. *)
Lemma X15_admitted_lifetimes_can_be_signed_witness :
  exists token payload,
    JWTUtils.generateToken Reference.config Reference.mockPayload 1700000000000
    = inr token
    /\ JWTUtils.verifyToken Reference.config token 1700000000000 = inr payload
    /\ JWTPayload.userId payload = "507f1f77bcf86cd799439011".
Proof.
  destruct (X15_admitted_lifetimes_can_be_signed Reference.config
              Reference.mockPayload 1700000000000 eq_refl
              ltac:(vm_compute; lia) eq_refl)
    as (token & lifetime & Hgen & _ & Hspan & Hlive & _).
  assert (Hs : jwt.timespan (Config.expiresIn Reference.config)
                            (jwt.seconds 1700000000000)
               = Some (jwt.seconds 1700000000000 + 3600)) by reflexivity.
  assert (Hl : 0 < lifetime).
  { pose proof (eq_trans (eq_sym Hs) Hspan) as E. injection E as E. lia. }
  destruct (Hlive Hl) as (payload & Hv & Hu).
  exists token, payload. split; [exact Hgen|]. split; [exact Hv | exact Hu].
Defined.

(** X18 on the collection of two, one user to the page. *)
Lemma X18_pages_cover_the_collection_witness :
  1 <= 1 <= 100
  /\ UserService2.users (UserService2.getUsers twoUsers (Some 1) (Some 1))
     ++ UserService2.users (UserService2.getUsers twoUsers (Some 2) (Some 1))
     = [userToResponse otherUser; userToResponse Reference.mockUser].
Proof.
  split; [lia|].
  pose proof (proj1 (X18_pages_cover_the_collection twoUsers 1 ltac:(lia))) as Hc.
  vm_compute in Hc. vm_compute. exact Hc.
Defined.


Lemma X21_created_user_verifies_witness :
  UserService.verifyPassword
    (twoUsers ++ [storedUser "507f1f77bcf86cd799439013" 1700000000000
                             Reference2.newUser])
    "newuser@example.com" "password123"
  = Some (userToResponse
            (storedUser "507f1f77bcf86cd799439013" 1700000000000
                        Reference2.newUser)).
Proof.
  apply (X21_created_user_verifies twoUsers
           (twoUsers ++ [storedUser "507f1f77bcf86cd799439013" 1700000000000
                                    Reference2.newUser])
           "507f1f77bcf86cd799439013" 1700000000000 Reference2.newUser
           (userToResponse
              (storedUser "507f1f77bcf86cd799439013" 1700000000000
                          Reference2.newUser))
           reference_hash_law eq_refl).
Defined.

(** X22 on the same registration. *)
Lemma X22_unique_keys_are_kept_witness :
  uniqueIds (twoUsers ++ [storedUser "507f1f77bcf86cd799439013" 1700000000000
                                     Reference2.newUser])
  /\ uniqueEmails (twoUsers ++ [storedUser "507f1f77bcf86cd799439013"
                                           1700000000000 Reference2.newUser]).
Proof.
  apply (proj1 (X22_unique_keys_are_kept twoUsers
                  (twoUsers ++ [storedUser "507f1f77bcf86cd799439013" 1700000000000
                                           Reference2.newUser])
                  twoUsers_uniqueIds twoUsers_uniqueEmails)
           "507f1f77bcf86cd799439013" 1700000000000 Reference2.newUser
           (userToResponse
              (storedUser "507f1f77bcf86cd799439013" 1700000000000
                          Reference2.newUser))
           eq_refl).
Defined.

(** X24: the second user asks for the email of the first. *)
Lemma X24_updateUser_email_conflict_witness :
  UserService2.updateUser twoUsers 1700000000000 "507f1f77bcf86cd799439012"
    (UpdateUserInput.mk None (Some "test@example.com") None)
  = inl (ThrownError (Js.newError "Email is already taken by another user")).
Proof.
  apply (proj1 (X24_updateUser_email_conflict twoUsers 1700000000000
                  "507f1f77bcf86cd799439012"
                  (UpdateUserInput.mk None (Some "test@example.com") None)
                  twoUsers_uniqueIds twoUsers_uniqueEmails)).
  split; [eexists; reflexivity|].
  exists "test@example.com", Reference.mockUser.
  split; [reflexivity|]. split; [discriminate|]. split; [left|].
  split; [reflexivity | discriminate].
Defined.

(** X26: the reference user logs in and reads the profile a minute
    later. *)
Lemma X26_login_token_opens_the_profile_witness :
  let token :=
    compact "test-secret"
      (issuedClaims Reference.mockPayload "test-issuer" "test-audience"
                    1700000000000 1700003600) in
  routes2.getProfileRoute Reference.config twoUsers
    (Reference.request (Some ("Bearer " +:+ token)) ∅ ∅) 1700000060000
  = Respond 200 (routes2.mkUserBody true None (userToResponse Reference.mockUser)).
Proof.
  intros token.
  apply (X26_login_token_opens_the_profile Reference.config twoUsers
           (routes.mkLoginInput "test@example.com" "hashedPassword123")
           1700000000000 1700000060000 1700003600 200
           (routes.mkLoginBody true "Login successful"
              (routes.mkLoginData (userToResponse Reference.mockUser) token
                 (compact "test-refresh-secret"
                    (issuedClaims Reference.mockPayload "test-issuer"
                                  "test-audience" 1700000000000 1700604800))))
           (Reference.request (Some ("Bearer " +:+ token)) ∅ ∅)
           twoUsers_uniqueIds twoUsers_properIds).
  - vm_compute. reflexivity.
  - reflexivity.
  - vm_compute. reflexivity.
  - reflexivity.
Defined.

(** X30: the token of the tests under another audience. *)
Lemma X30_issuer_and_audience_are_checked_witness :
  JWTUtils.verifyToken
    (Config.mkJwt "test-secret" "test-refresh-secret" "1h" "7d"
                  "test-issuer" "other-audience")
    (compact "test-secret"
       (issuedClaims Reference.mockPayload "test-issuer" "test-audience"
                     1700000000000 1700003600))
    1700000060000
  = inl (Js.newError "Invalid or expired token").
Proof.
  apply (proj1 (X30_issuer_and_audience_are_checked Reference.config
                  (Config.mkJwt "test-secret" "test-refresh-secret" "1h" "7d"
                                "test-issuer" "other-audience")
                  Reference.mockPayload 1700000000000 1700000060000
                  (compact "test-secret"
                     (issuedClaims Reference.mockPayload "test-issuer"
                                   "test-audience" 1700000000000 1700003600))
                  eq_refl ltac:(vm_compute; reflexivity)));
    discriminate.
Defined.

(** X13 on the id of the reference user. *)
Lemma X13_get_user_by_id_witness :
  routes2.getUserRoute twoUsers (byId None "507f1f77bcf86cd799439011") 0
  = Respond 200 (routes2.mkUserBody true None (userToResponse Reference.mockUser)).
Proof.
  exact (proj1 (X13_get_user_by_id twoUsers (byId None "507f1f77bcf86cd799439011") 0)
           "507f1f77bcf86cd799439011" ltac:(vm_compute; reflexivity) eq_refl).
Defined.

(** X14: the reference user deletes the other user. *)
Lemma X14_delete_route_witness :
  routes2.deleteUserRoute Reference.config "production" None twoUsers
    (byId (Some ("Bearer " +:+ accessOfMockUser)) "507f1f77bcf86cd799439012")
    1700000060000
  = (deleted, [Reference.mockUser]).
Proof.
  assert (Ha : auth.authenticateToken Reference.config
                 (byId (Some ("Bearer " +:+ accessOfMockUser))
                       "507f1f77bcf86cd799439012") 1700000060000
               = Next (Request.setUser
                         (issuedClaims Reference.mockPayload "test-issuer"
                                       "test-audience" 1700000000000 1700003600)
                         (byId (Some ("Bearer " +:+ accessOfMockUser))
                               "507f1f77bcf86cd799439012")))
    by (vm_compute; reflexivity).
  assert (Hg : Js.get (Request.params
                         (byId (Some ("Bearer " +:+ accessOfMockUser))
                               "507f1f77bcf86cd799439012")) "id"
               = Js.VString "507f1f77bcf86cd799439012")
    by (vm_compute; reflexivity).
  exact (proj1 (X14_delete_route Reference.config "production" None twoUsers _
                  1700000060000)
           _ "507f1f77bcf86cd799439012" otherUser Ha Hg eq_refl eq_refl).
Defined.

(** X25: the same registration twice. *)
Lemma X25_register_route_witness :
  routes2.register Reference.config
    (twoUsers ++ [storedUser "507f1f77bcf86cd799439013" 1700000000000
                             Reference2.newUser])
    "507f1f77bcf86cd799439014" 1700000001000 Reference2.newUser 1700000001000
  = (Fail (ThrownAppError (emailConflict 1700000001000)),
     twoUsers ++ [storedUser "507f1f77bcf86cd799439013" 1700000000000
                             Reference2.newUser]).
Proof.
  assert (Hr : exists status reply,
    routes2.register Reference.config twoUsers "507f1f77bcf86cd799439013"
                     1700000000000 Reference2.newUser 1700000000000
    = (Respond status reply,
       twoUsers ++ [storedUser "507f1f77bcf86cd799439013" 1700000000000
                               Reference2.newUser])).
  { eexists _, _. vm_compute. reflexivity. }
  destruct Hr as (status & reply & Hr).
  destruct (proj1 (proj2 (X25_register_route Reference.config twoUsers
                            "507f1f77bcf86cd799439013" 1700000000000
                            Reference2.newUser 1700000000000))
              status reply _ Hr) as (_ & _ & _ & Hagain).
  exact (Hagain "507f1f77bcf86cd799439014" 1700000001000 Reference2.newUser
                1700000001000 eq_refl).
Defined.

(** X27: a string that is no token, and the refresh token of the
    reference user a minute after the login. *)
Lemma X27_refresh_route_witness :
  routes2.refresh Reference.config twoUsers "not-a-token" 1700000060000
  = Fail (ThrownError refreshRejected)
  /\ exists tokens,
       routes2.refresh Reference.config twoUsers refreshOfMockUser 1700000060000
       = Respond 200
           (routes2.mkRefreshBody true "Token refreshed successfully" tokens).
Proof.
  assert (Hbad : JWTUtils.verifyRefreshToken Reference.config "not-a-token"
                   1700000060000 = inl refreshRejected)
    by (vm_compute; reflexivity).
  assert (Hlogin : routes.login Reference.config twoUsers
                     (routes.mkLoginInput "test@example.com" "hashedPassword123")
                     1700000000000
                   = Respond 200
                       (routes.mkLoginBody true "Login successful"
                          (routes.mkLoginData (userToResponse Reference.mockUser)
                                              accessOfMockUser refreshOfMockUser)))
    by (vm_compute; reflexivity).
  assert (Hexp : jwt.timespan (Config.refreshExpiresIn Reference.config)
                              (jwt.seconds 1700000000000) = Some 1700604800)
    by (vm_compute; reflexivity).
  assert (Hlive : jwt.seconds 1700000060000 < 1700604800)
    by (vm_compute; reflexivity).
  split.
  - exact (proj1 (proj1 (X27_refresh_route Reference.config twoUsers "not-a-token"
                           1700000060000)
                    refreshRejected None 0 (byId None "507f1f77bcf86cd799439011")
                    Hbad)).
  - destruct (proj2 (X27_refresh_route Reference.config twoUsers refreshOfMockUser
                       1700000060000)
                _ 1700000000000 1700604800 200 _
                twoUsers_uniqueIds Hlogin eq_refl Hexp Hlive)
      as (tokens & _ & Hr).
    exists tokens. exact Hr.
Defined.

(** X29: the admin key in development and in production. *)
Lemma X29_admin_key_only_in_development_witness :
  routes2.deleteUserRoute Reference.config "development" (Some "test-secret")
    twoUsers (byId None "507f1f77bcf86cd799439012") 0
  = (deleted, [Reference.mockUser])
  /\ routes2.deleteUserRoute Reference.config "production" (Some "test-secret")
       twoUsers (byId None "507f1f77bcf86cd799439012") 0
     = (Fail (ThrownAppError (authenticationFailed 0)), twoUsers).
Proof.
  assert (Hg : Js.get (Request.params (byId None "507f1f77bcf86cd799439012")) "id"
               = Js.VString "507f1f77bcf86cd799439012")
    by (vm_compute; reflexivity).
  assert (Ha : auth.authenticateToken Reference.config
                 (byId None "507f1f77bcf86cd799439012") 0
               = NextError (ThrownAppError (authenticationFailed 0)))
    by reflexivity.
  assert (Hp : "production" <> "development") by discriminate.
  split.
  - exact (proj2 (X29_admin_key_only_in_development Reference.config "development"
                    (Some "test-secret") twoUsers
                    (byId None "507f1f77bcf86cd799439012") 0)
             eq_refl eq_refl "507f1f77bcf86cd799439012" otherUser
             Hg eq_refl eq_refl).
  - exact (proj2 (proj1 (X29_admin_key_only_in_development Reference.config
                           "production" (Some "test-secret") twoUsers
                           (byId None "507f1f77bcf86cd799439012") 0) Hp)
             _ Ha).
Defined.

End FurtherRuns.
